(** * Slide generation system: deck builder, notes write-back, video generator

    A shallow embedding of the parts of [generate_slides.py],
    [generate_speaker_notes.py] and [generate_video.py] that the
    specification's testable properties speak about, with the properties
    proved (or refuted on a concrete input) against the embedding. *)

From Stdlib Require Import String Ascii NArith ZArith Decimal DecimalNat.
From Stdlib Require Import Sorting.Sorted Permutation.
From stdpp Require Import base tactics option list gmap.

Set Default Proof Using "Type".
Local Open Scope N_scope.
Local Open Scope nat_scope.

(* ===================================================================== *)
(** * Python strings *)
(* ===================================================================== *)

(** A Python [str] is a sequence of Unicode code points. *)
Definition codepoint := N.
Definition str := list codepoint.

(** [bytes] objects (image payloads); no operation of the program looks
    inside them. *)
Definition bytes := list Byte.byte.

(** ** String literals

    Literals are written as Rocq strings holding the UTF-8 encoding and
    decoded into code points. *)

Fixpoint utf8_decode (bs : list N) : str :=
  match bs with
  | [] => []
  | b0 :: r0 =>
      if (b0 <? 128)%N then b0 :: utf8_decode r0
      else match r0 with
           | [] => [b0]
           | b1 :: r1 =>
               if (b0 <? 224)%N then
                 ((b0 - 192) * 64 + (b1 - 128))%N :: utf8_decode r1
               else match r1 with
                    | [] => [b0; b1]
                    | b2 :: r2 =>
                        if (b0 <? 240)%N then
                          ((b0 - 224) * 4096 + (b1 - 128) * 64 + (b2 - 128))%N
                            :: utf8_decode r2
                        else match r2 with
                             | [] => [b0; b1; b2]
                             | b3 :: r3 =>
                                 ((b0 - 240) * 262144 + (b1 - 128) * 4096
                                  + (b2 - 128) * 64 + (b3 - 128))%N
                                   :: utf8_decode r3
                             end
                    end
           end
  end.

Definition lit (s : string) : str :=
  utf8_decode (List.map N_of_ascii (list_ascii_of_string s)).

Definition NL : codepoint := 10%N.       (* "\n" *)
Definition SLASH : codepoint := 47%N.    (* "/" *)
Definition DOT : codepoint := 46%N.      (* "." *)
Definition SPACE : codepoint := 32%N.    (* " " *)

(** ** The operations of [str] the program uses *)

(** [s.startswith(p)] *)
Fixpoint startswith (s p : str) : bool :=
  match p, s with
  | [], _ => true
  | _ :: _, [] => false
  | c :: p', d :: s' => (c =? d)%N && startswith s' p'
  end.

(** [s.endswith(p)] *)
Definition endswith (s p : str) : bool := startswith (rev s) (rev p).

(** [p in s] for strings: [p] occurs as a substring of [s]. *)
Fixpoint str_contains (s p : str) : bool :=
  startswith s p ||
  match s with
  | [] => false
  | _ :: s' => str_contains s' p
  end.

(** [sep.join(parts)] *)
Fixpoint join (sep : str) (parts : list str) : str :=
  match parts with
  | [] => []
  | [p] => p
  | p :: ps => p ++ sep ++ join sep ps
  end.

(** [s.rfind(c)] for a one-character [c]: the highest index holding [c]. *)
Fixpoint rfind (c : codepoint) (s : str) : option nat :=
  match s with
  | [] => None
  | d :: s' =>
      match rfind c s' with
      | Some i => Some (S i)
      | None => if (d =? c)%N then Some 0 else None
      end
  end.

(** [os.path.basename(p)] (posixpath): [i = p.rfind('/') + 1; return p[i:]],
    where [rfind] answers -1 when there is no slash. *)
Definition basename (p : str) : str :=
  match rfind SLASH p with
  | Some i => drop (S i) p
  | None => p
  end.

(** [str(n)] for a non-negative [int]: its decimal digits. *)
Fixpoint digits_of_uint (d : Decimal.uint) : str :=
  match d with
  | Nil => []
  | D0 d => 48%N :: digits_of_uint d
  | D1 d => 49%N :: digits_of_uint d
  | D2 d => 50%N :: digits_of_uint d
  | D3 d => 51%N :: digits_of_uint d
  | D4 d => 52%N :: digits_of_uint d
  | D5 d => 53%N :: digits_of_uint d
  | D6 d => 54%N :: digits_of_uint d
  | D7 d => 55%N :: digits_of_uint d
  | D8 d => 56%N :: digits_of_uint d
  | D9 d => 57%N :: digits_of_uint d
  end.

Definition str_of_nat (n : nat) : str := digits_of_uint (Nat.to_uint n).

(** [f"{n:03d}"]: decimal digits, left-padded with zeros to width three. *)
Definition str_of_nat_03d (n : nat) : str :=
  let d := str_of_nat n in replicate (3 - length d) 48%N ++ d.

Fixpoint take_while {A} (p : A -> bool) (l : list A) : list A :=
  match l with
  | [] => []
  | x :: l' => if p x then x :: take_while p l' else []
  end.

Fixpoint drop_while {A} (p : A -> bool) (l : list A) : list A :=
  match l with
  | [] => []
  | x :: l' => if p x then drop_while p l' else l
  end.

(* ===================================================================== *)
(** * What the Python runtime supplies *)
(* ===================================================================== *)

(** Exceptions.  [CalledProcessError] is the one the program raises
    itself; [ValueError] is what [int()], [float()] and the XML library
    under python-pptx raise on a text they refuse; what else escapes a
    library or a service call is an [Exception] known by its text. *)
Inductive exn :=
| IndexError
| KeyError
| AttributeError
| ValueError
| CalledProcessError (returncode : Z) (cmd : list str) (output : str)
| OtherException (text : str).

Inductive result (A : Type) :=
| Ok (a : A)
| Raise (e : exn).
Arguments Ok {A} a.
Arguments Raise {A} e.

(** What the interpreter carries: its character tables, which depend on
    its Unicode version, and its limit on the digit strings [int()]
    converts.  The program is embedded over any such interpreter. *)
Class Interpreter := {
  (** [c.isspace()] for a single character: what [str.strip()] removes. *)
  isspace : codepoint -> bool;
  (** The value of a decimal digit (Unicode category Nd), what [\d]
      matches on [str] patterns and what [int()] reads; [None] for every
      other character. *)
  decimal : codepoint -> option N;
  (** [s.lower()] *)
  lower : str -> str;
  (** [sys.get_int_max_str_digits()]: the longest digit string [int()]
      converts, 0 when there is no limit (4300 by default from Python 3.11
      on; a limit that is set is at least 640). *)
  int_max_str_digits : nat
}.

(** ** CPython 3.12 (Unicode 15.0) as it starts *)

(** Characters with [isspace()] true. *)
Definition unicode_whitespace : list (N * N) :=
  [ (9, 13); (28, 32); (133, 133); (160, 160); (5760, 5760);
    (8192, 8202); (8232, 8233); (8239, 8239); (8287, 8287);
    (12288, 12288) ]%N.

(** The code points of the digit zero of every run of ten decimal digits
    (category Nd). *)
Definition unicode_nd_zeros : list N :=
  [ 0x30; 0x660; 0x6F0; 0x7C0; 0x966; 0x9E6; 0xA66; 0xAE6; 0xB66; 0xBE6;
    0xC66; 0xCE6; 0xD66; 0xDE6; 0xE50; 0xED0; 0xF20; 0x1040; 0x1090;
    0x17E0; 0x1810; 0x1946; 0x19D0; 0x1A80; 0x1A90; 0x1B50; 0x1BB0;
    0x1C40; 0x1C50; 0xA620; 0xA8D0; 0xA900; 0xA9D0; 0xA9F0; 0xAA50;
    0xABF0; 0xFF10; 0x104A0; 0x10D30; 0x11066; 0x110F0; 0x11136;
    0x111D0; 0x112F0; 0x11450; 0x114D0; 0x11650; 0x116C0; 0x11730;
    0x118E0; 0x11950; 0x11C50; 0x11D50; 0x11DA0; 0x11F50; 0x16A60;
    0x16AC0; 0x16B50; 0x1D7CE; 0x1D7D8; 0x1D7E2; 0x1D7EC; 0x1D7F6;
    0x1E140; 0x1E2F0; 0x1E4F0; 0x1E950; 0x1FBF0 ]%N.

Definition in_ranges (rs : list (N * N)) (c : N) : bool :=
  existsb (fun r => (fst r <=? c)%N && (c <=? snd r)%N) rs.

Definition nd_value (c : N) : option N :=
  match List.find (fun z => (z <=? c)%N && (c <? z + 10)%N) unicode_nd_zeros with
  | Some z => Some (c - z)%N
  | None => None
  end.

(** Case folding of the letters A to Z.  [str.lower()] also maps letters
    outside ASCII; the instance below is used on ASCII and kana text,
    where the two agree. *)
Definition ascii_lower (s : str) : str :=
  List.map (fun c => if (65 <=? c)%N && (c <=? 90)%N then (c + 32)%N else c) s.

Definition cpython312 : Interpreter := {|
  isspace := in_ranges unicode_whitespace;
  decimal := nd_value;
  lower := ascii_lower;
  int_max_str_digits := 4300
|}.

(* ===================================================================== *)
(** * Presentations (python-pptx) *)
(* ===================================================================== *)

(** The kind of a placeholder ([PP_PLACEHOLDER]), as far as the library
    tells kinds apart when it makes a slide: the placeholders for the
    date, the footer and the slide number, and all the others (title,
    body, ...), which hold text. *)
Inductive placeholder_type :=
| PH_DATE
| PH_FOOTER
| PH_SLIDE_NUMBER
| PH_OTHER.

(** A slide layout: the [idx] and the kind of each of its placeholders. *)
Record layout := {
  layout_name : str;
  layout_placeholders : list (nat * placeholder_type)
}.

(** A slide: the layout it was made from, its placeholders ([idx] and
    text, in shape order), and the text of its notes text frame.  [None]
    says the slide has no notes slide ([has_notes_slide] is false); every
    notes slide is taken to carry its notes placeholder, as those that
    [slide.notes_slide] creates do. *)
Record slide := {
  slide_layout : layout;
  placeholders : list (nat * str);
  notes : option str
}.

Record slide_master := {
  slide_layouts : list layout
}.

Record presentation := {
  slide_masters : list slide_master;
  slides : list slide
}.

#[global] Instance placeholder_type_eq_dec : EqDecision placeholder_type.
Proof. solve_decision. Defined.
#[global] Instance layout_eq_dec : EqDecision layout.
Proof. solve_decision. Defined.
#[global] Instance slide_eq_dec : EqDecision slide.
Proof. solve_decision. Defined.

(** Subscripting a list, [l[i]], with its [IndexError]. *)
Definition index {A} (l : list A) (i : nat) : result A :=
  match l !! i with
  | Some x => Ok x
  | None => Raise IndexError
  end.

#[global] Instance result_ret : MRet result := fun A a => Ok a.
#[global] Instance result_bind : MBind result := fun A B k r =>
  match r with
  | Ok a => k a
  | Raise e => Raise e
  end.

(** [layout.iter_cloneable_placeholders()]: the placeholders of a layout
    that a new slide gets a copy of, which are all but those for the
    date, the footer and the slide number. *)
Definition iter_cloneable_placeholders (l : layout) : list (nat * placeholder_type) :=
  filter (fun ph => ph.2 <> PH_DATE /\ ph.2 <> PH_FOOTER /\ ph.2 <> PH_SLIDE_NUMBER)
         (layout_placeholders l).

(** The slide [prs.slides.add_slide(layout)] creates: one empty
    placeholder, with the same [idx], per cloneable placeholder of the
    layout, and no notes slide. *)
Definition new_slide (l : layout) : slide := {|
  slide_layout := l;
  placeholders := (fun ph => (ph.1, [])) <$> iter_cloneable_placeholders l;
  notes := None
|}.

(** [prs.slides.add_slide] puts the new slide after those the
    presentation already holds. *)
Definition add_slide (prs : presentation) (s : slide) : presentation := {|
  slide_masters := slide_masters prs;
  slides := slides prs ++ [s]
|}.

(** ** Assigning the text of a text frame

    [text_frame.text = text] (and [placeholder.text = text], which is the
    same assignment) does not keep every text as it is.  python-pptx
    splits the text into paragraphs at the line feeds and into runs at
    the vertical tabs, and escapes the other control characters of each
    run ([CT_RegularTextRun._escape]:
    [re.sub(r"([\x00-\x08\x0B-\x1F])", lambda m: "_x%04X_" % ord(m.group(1)), text)]);
    lxml, which holds the runs, refuses a text with a surrogate, U+FFFE
    or U+FFFF with a [ValueError].  Reading [text_frame.text] joins the
    runs with vertical tabs and the paragraphs with line feeds again. *)

Definition hex_digit (n : N) : codepoint :=
  if (n <? 10)%N then (48 + n)%N else (55 + n)%N.

(** A control character that a run escapes: U+0000 to U+0008 and U+000C
    to U+001F (the tab is kept; line feed and vertical tab never reach a
    run). *)
Definition escaped (c : codepoint) : bool :=
  (c <=? 8)%N || ((12 <=? c)%N && (c <=? 31)%N).

(** ["_x%04X_" % ord(c)] for such a character. *)
Definition escape (c : codepoint) : str :=
  if escaped c
  then lit "_x00" ++ [hex_digit (c / 16)%N; hex_digit (c mod 16)%N] ++ lit "_"
  else [c].

(** A character lxml refuses in a text. *)
Definition xml_incompatible (c : codepoint) : bool :=
  ((0xD800 <=? c)%N && (c <=? 0xDFFF)%N) || (c =? 0xFFFE)%N || (c =? 0xFFFF)%N.

(** What [text_frame.text] reads after [text_frame.text = text]. *)
Definition stored_text (text : str) : str := concat (escape <$> text).

(** [text_frame.text = text]: the text the frame then holds, or the
    [ValueError] of lxml. *)
Definition set_text (text : str) : result str :=
  if existsb xml_incompatible text then Raise ValueError
  else Ok (stored_text text).

(** The loops
    [for placeholder in slide.placeholders:
       if placeholder.placeholder_format.idx == 13: placeholder.text = header
       elif placeholder.placeholder_format.idx == 14: placeholder.text = body]
    with [body] absent for the loop that has no [elif]. *)
Definition fill (header : str) (body : option str) (s : slide) : result slide :=
  placeholders ←
    mapM (fun placeholder : nat * str =>
            if fst placeholder =? 13
            then text ← set_text header; Ok (fst placeholder, text)
            else if fst placeholder =? 14 then
                   match body with
                   | Some b => text ← set_text b; Ok (fst placeholder, text)
                   | None => Ok placeholder
                   end
                 else Ok placeholder)
         (placeholders s);
  Ok {| slide_layout := slide_layout s;
        placeholders := placeholders;
        notes := notes s |}.

(* ===================================================================== *)
(** * generate_slides.py *)
(* ===================================================================== *)

(** The structure object [json.load] returns. *)
Record content := {
  title : str;
  agenda : list str;
  main : gmap str (list str)
}.

(** ["\n".join([f"{i+1}. {item}" for i, item in enumerate(content['agenda'])])] *)
Definition agenda_text (agenda : list str) : str :=
  join [NL] (imap (fun i item => str_of_nat (i + 1) ++ lit ". " ++ item) agenda).

(** [for slide_content in slides_content:
       slide = prs.slides.add_slide(main_template)
       for placeholder in slide.placeholders: ...] *)
Fixpoint add_content_slides (main_template : layout)
    (agenda_idx : nat) (agenda_title : str) (slides_content : list str)
    (prs : presentation) : result presentation :=
  match slides_content with
  | [] => Ok prs
  | slide_content :: slides_content' =>
      slide ← fill (str_of_nat (agenda_idx + 1) ++ lit ". " ++ agenda_title)
                   (Some slide_content) (new_slide main_template);
      add_content_slides main_template agenda_idx agenda_title slides_content'
                         (add_slide prs slide)
  end.

(** [for agenda_idx, agenda_title in enumerate(content['agenda']):
       if agenda_title in content['main']: ...],
    entered at index [agenda_idx] with the entries still to visit. *)
Fixpoint agenda_loop (main_template : layout) (main : gmap str (list str))
    (agenda_idx : nat) (todo : list str) (prs : presentation) : result presentation :=
  match todo with
  | [] => Ok prs
  | agenda_title :: todo' =>
      prs' ← match main !! agenda_title with
             | Some slides_content =>
                 add_content_slides main_template agenda_idx agenda_title
                                    slides_content prs
             | None => Ok prs
             end;
      agenda_loop main_template main (S agenda_idx) todo' prs'
  end.

(** [create_slides_from_json], from the opened template and the loaded
    structure to the presentation it hands to [prs.save].  An exception
    leaves the function before anything is saved.  Saving and the
    statistics printed after it are left out. *)
Definition create_slides_from_json (template : presentation) (c : content)
    : result presentation :=
  master ← index (slide_masters template) 0;
  main_template ← index (slide_layouts master) 0;
  start_template ← index (slide_layouts master) 1;
  end_template ← index (slide_layouts master) 2;
  slide_start ← fill (title c) None (new_slide start_template);
  let prs := add_slide template slide_start in
  slide_agenda ← fill (lit "アジェンダ") (Some (agenda_text (agenda c)))
                      (new_slide main_template);
  let prs := add_slide prs slide_agenda in
  prs ← agenda_loop main_template (main c) 0 (agenda c) prs;
  let prs := add_slide prs (new_slide end_template) in
  Ok prs.

(** ** A re-parser for the agenda slide *)

(** [s.split("\n")] *)
Fixpoint split_lines_aux (cur : str) (s : str) : list str :=
  match s with
  | [] => [rev cur]
  | c :: s' =>
      if (c =? NL)%N then rev cur :: split_lines_aux [] s'
      else split_lines_aux (c :: cur) s'
  end.

Definition split_lines (s : str) : list str := split_lines_aux [] s.

Definition ascii_digit (c : codepoint) : bool := (48 <=? c)%N && (c <=? 57)%N.

(** The number a run of ASCII digits writes. *)
Definition nat_of_digits (ds : str) : nat :=
  foldl (fun acc c => acc * 10 + N.to_nat (c - 48)) 0 ds.

(** Modelled from the spec: the "trivial re-parser" of the agenda slide's
    body, which the repository does not contain.  It reads each line as
    [<i>. <item>]: the leading digits are the number, the [". "] after
    them is dropped, the rest is the item.  An empty body holds no
    line. *)
Definition parse_agenda_line (line : str) : option (nat * str) :=
  let ds := take_while ascii_digit line in
  let rest := drop_while ascii_digit line in
  match ds, rest with
  | _ :: _, d :: sp :: item =>
      if (d =? DOT)%N && (sp =? SPACE)%N then Some (nat_of_digits ds, item)
      else None
  | _, _ => None
  end.

Definition reparse_agenda (body : str) : option (list (nat * str)) :=
  match body with
  | [] => Some []
  | _ => mapM parse_agenda_line (split_lines body)
  end.

(* ===================================================================== *)
(** * generate_speaker_notes.py: writing the notes back *)
(* ===================================================================== *)

Section Notes.
Context `{Interpreter}.

(** [s.strip()]: leading and trailing whitespace removed. *)
Definition strip (s : str) : str :=
  rev (drop_while isspace (rev (drop_while isspace s))).

(** Truth value of a [str]: non-empty. *)
Definition truthy (s : str) : bool :=
  match s with
  | [] => false
  | _ :: _ => true
  end.

(** The body of the loop of [add_notes_to_pptx] for one slide:
    [notes_slide = slide.notes_slide
     text_frame = notes_slide.notes_text_frame
     if text_frame.text.strip(): text_frame.text += "\n\n" + note_text
     else: text_frame.text = note_text].
    [slide.notes_slide] makes an empty notes slide when there is none. *)
Definition write_notes (note_text : str) (s : slide) : result slide :=
  let text := default [] (notes s) in
  text ← set_text (if truthy (strip text)
                   then text ++ [NL; NL] ++ note_text
                   else note_text);
  Ok {| slide_layout := slide_layout s;
        placeholders := placeholders s;
        notes := Some text |}.

(** [for i, note_text in enumerate(notes_list): if i < len(prs.slides): ...],
    entered at index [i]. *)
Fixpoint notes_loop (i : nat) (todo : list str) (prs : presentation)
    : result presentation :=
  match todo with
  | [] => Ok prs
  | note_text :: todo' =>
      prs' ← (if i <? length (slides prs)
              then slide ← index (slides prs) i;
                   slide ← write_notes note_text slide;
                   Ok {| slide_masters := slide_masters prs;
                         slides := <[i := slide]> (slides prs) |}
              else Ok prs);
      notes_loop (S i) todo' prs'
  end.

(** [add_notes_to_pptx], from the presentation it opens and the notes
    list to the presentation it hands to [prs.save].  An exception leaves
    the function before anything is saved.  Opening and saving are calls
    to the outside world; they are made where the program calls the
    function ([add_notes_to_pptx_io] below). *)
Definition add_notes_to_pptx (prs : presentation) (notes_list : list str)
    : result presentation :=
  notes_loop 0 notes_list prs.

(* ===================================================================== *)
(** * generate_video.py: reading notes and images *)
(* ===================================================================== *)

(** [extract_speaker_notes]: per slide, the stripped notes text, or
    [None] when there is none or it is blank. *)
Definition extract_speaker_notes (prs : presentation) : list (option str) :=
  (fun s : slide =>
     match notes s with
     | Some text =>
         if truthy text
         then let note_text := strip text in
              if truthy note_text then Some note_text else None
         else None
     | None => None
     end) <$> slides prs.

(** [\d] *)
Definition is_digit (c : codepoint) : bool :=
  match decimal c with
  | Some _ => true
  | None => false
  end.

(** [re.search(r'(\d+)', s)]: the leftmost, longest run of digits. *)
Definition search_digits (s : str) : option str :=
  match drop_while (fun c => negb (is_digit c)) s with
  | [] => None
  | r => Some (take_while is_digit r)
  end.

(** The number a run of decimal digits writes in base ten. *)
Definition int_value (ds : str) : N :=
  foldl (fun acc c => (acc * 10 + default 0 (decimal c))%N) 0%N ds.

(** [int(ds)] on a run of decimal digits: its value, or the [ValueError]
    for a run longer than the interpreter's limit. *)
Definition int_of_digits (ds : str) : result N :=
  if (0 <? int_max_str_digits) && (int_max_str_digits <? length ds)
  then Raise ValueError
  else Ok (int_value ds).

(** One round of the loop over [zf.namelist()], [jpeg_files] being the
    list built so far. *)
Definition scan_name (jpeg_files : list (N * str)) (name : str)
    : result (list (N * str)) :=
  if endswith name (lit "/") then Ok jpeg_files
  else if str_contains name (lit "__MACOSX") then Ok jpeg_files
  else
    let basename := basename name in
    if startswith basename (lit ".") then Ok jpeg_files
    else if endswith (lower name) (lit ".jpeg") || endswith (lower name) (lit ".jpg")
         then match search_digits basename with
              | Some group =>
                  num ← int_of_digits group;
                  Ok (jpeg_files ++ [(num, name)])
              | None => Ok jpeg_files
              end
         else Ok jpeg_files.

(** The loop [for name in zf.namelist(): ...], entered with [jpeg_files]
    as built so far. *)
Fixpoint scan_names (jpeg_files : list (N * str)) (names : list str)
    : result (list (N * str)) :=
  match names with
  | [] => Ok jpeg_files
  | name :: names' =>
      jpeg_files ← scan_name jpeg_files name;
      scan_names jpeg_files names'
  end.

(** [jpeg_files.sort(key=lambda x: x[0])]: a stable sort on the number. *)
Fixpoint insert_by_key (x : N * str) (l : list (N * str)) : list (N * str) :=
  match l with
  | [] => [x]
  | y :: l' => if (fst x <=? fst y)%N then x :: l else y :: insert_by_key x l'
  end.

Definition sort_by_key (l : list (N * str)) : list (N * str) :=
  foldr insert_by_key [] l.

(** The names [extract_images_from_zip] loads, in the order it loads
    them. *)
Definition sorted_jpeg_files (namelist : list str) : result (list (N * str)) :=
  jpeg_files ← scan_names [] namelist;
  Ok (sort_by_key jpeg_files).

End Notes.

(** A decoded image; [image_size] is its [size], width and height. *)
Record image := {
  image_size : nat * nat;
  pixels : bytes
}.

(** A zip archive: its entries in archive order, name and payload. *)
Definition zip_archive := list (str * bytes).

(** [zf.namelist()] *)
Definition namelist (zf : zip_archive) : list str := fst <$> zf.

(** [zf.open(name).read()]: the archive's directory keeps, for a name,
    the entry written last. *)
Definition zf_read (zf : zip_archive) (name : str) : option bytes :=
  snd <$> last (filter (fun e => e.1 = name) zf).

(** The libraries and the platform around the program. *)
Class Platform := {
  (** [Image.open(f)] followed by [image.load()] *)
  image_open : bytes -> result image;
  (** [str(e)] of an exception *)
  exn_str : exn -> str;
  (** [str(float(s))], or the [ValueError] of [float()] *)
  float_str : str -> result str;
  (** [os.path.abspath(p)] *)
  abspath : str -> str
}.

Section Images.
Context `{Interpreter} `{Platform}.

(** The loop [for _, name in jpeg_files: ... images.append(image.copy())]. *)
Fixpoint load_images (zf : zip_archive) (jpeg_files : list (N * str)) : result (list image) :=
  match jpeg_files with
  | [] => Ok []
  | (_, name) :: rest =>
      match zf_read zf name with
      | None => Raise KeyError
      | Some data =>
          image ← image_open data;
          images ← load_images zf rest;
          Ok (image :: images)
      end
  end.

Definition extract_images_from_zip (zf : zip_archive) : result (list image) :=
  jpeg_files ← sorted_jpeg_files (namelist zf);
  load_images zf jpeg_files.

End Images.

(* ===================================================================== *)
(** * Calls to the outside world *)
(* ===================================================================== *)

(** What [subprocess.run(..., capture_output=True, text=True)] returns. *)
Record completed_process := {
  returncode : Z;
  stdout : str;
  stderr : str
}.

(** The calls the program makes whose answers it does not decide, each
    with the type of its answer.  A call that can raise answers with a
    [result]. *)
Inductive call : Type -> Type :=
(** [progress_callback(step_name, current, total)] *)
| Progress (step_name : str) (current total : nat) : call (result unit)
(** [print(text)] *)
| PrintText (text : str) : call unit
(** [client.messages.create(model, max_tokens, messages=[image, prompt])];
    the answer is [message.content], each block with its [text] if it
    has one. *)
| MessagesCreate (model : str) (max_tokens : nat) (image_data : bytes) (prompt : str)
    : call (result (list (option str)))
(** [client.models.generate_content(model, contents, voice)] of the TTS
    service; the answer is the audio data. *)
| GenerateContent (model : str) (contents : str) (voice_name : str)
    : call (result bytes)
(** writing a WAV file with [wave] *)
| WriteWav (path : str) (nchannels sampwidth framerate : N) (frames : bytes)
    : call (result unit)
(** The whole [with NamedTemporaryFile(suffix='.png', delete=False)]
    block: the file is created, the image resized to [size] and saved in
    it; the answer is the file's name.  A raise is the failure of any of
    the three, with the file possibly created already. *)
| SaveTempPng (img : image) (size : nat * nat) : call (result str)
(** [NamedTemporaryFile(mode='w', suffix='.txt', delete=False)] with the
    text written to it; the answer is the file's name. *)
| WriteTempTxt (text : str) : call (result str)
(** [subprocess.run(argv, capture_output=True, text=True)] *)
| SubprocessRun (argv : list str) : call (result completed_process)
(** [os.unlink(path)] *)
| Unlink (path : str) : call (result unit)
(** entering and leaving [with tempfile.TemporaryDirectory()] *)
| MakeTempDir : call (result str)
| RemoveTempDir (path : str) : call (result unit)
(** [json.load] of the file at [path], opened for reading: the answer is
    the structure object, taken to have its three keys. *)
| JsonLoad (path : str) : call (result content)
(** [Presentation(path)]: opening a presentation file *)
| PresentationOpen (path : str) : call (result presentation)
(** [prs.save(path)] *)
| PresentationSave (prs : presentation) (path : str) : call (result unit).

(** A program: what it returns, or a call and how it goes on from the
    answer. *)
Inductive prog (A : Type) : Type :=
| Ret (a : A)
| Do {X : Type} (c : call X) (k : X -> prog A).
Arguments Ret {A} a.
Arguments Do {A X} c k.

Fixpoint prog_bind {A B} (p : prog A) (k : A -> prog B) : prog B :=
  match p with
  | Ret a => k a
  | Do c k' => Do c (fun x => prog_bind (k' x) k)
  end.

(** A program that may raise. *)
Definition io (A : Type) : Type := prog (result A).

#[global] Instance io_ret : MRet io := fun A a => Ret (Ok a).
#[global] Instance io_bind : MBind io := fun A B k p =>
  prog_bind p (fun r => match r with
                        | Ok a => k a
                        | Raise e => Ret (Raise e)
                        end).

Definition raise {A} (e : exn) : io A := Ret (Raise e).

(** A call that can raise. *)
Definition perform {X} (c : call (result X)) : io X := Do c Ret.

(** A pure computation that can raise. *)
Definition lift {A} (r : result A) : io A := Ret r.

(** [try: p  except Exception as e: h e] *)
Definition try_except {A} (p : io A) (h : exn -> io A) : io A :=
  prog_bind p (fun r => match r with
                        | Ok a => Ret (Ok a)
                        | Raise e => h e
                        end).

(** [try: p  finally: f] *)
Definition try_finally {A} (p : io A) (f : io unit) : io A :=
  prog_bind p (fun r =>
  prog_bind f (fun r' =>
    match r' with
    | Ok _ => Ret r
    | Raise e => Ret (Raise e)
    end)).

(** [if progress_callback: progress_callback(step_name, current, total)] *)
Definition progress (progress_callback : bool) (step_name : str) (current total : nat)
    : io unit :=
  if progress_callback then perform (Progress step_name current total)
  else mret tt.

Definition print (text : str) : io unit := Do (PrintText text) (fun _ => Ret (Ok tt)).

(** ** Running a program *)

(** The outside world: a state and its answer to each call. *)
Definition handler (W : Type) : Type := forall X, call X -> W -> X * W.

(** A call that was made. *)
Inductive issued : Type :=
| Issued {X : Type} (c : call X).

(** The result of a program in a world, the world it leaves, and the
    calls it made, in order. *)
Fixpoint run {W A} (h : handler W) (p : prog A) (w : W) : A * W * list issued :=
  match p with
  | Ret a => (a, w, [])
  | Do c k =>
      let '(x, w') := h _ c w in
      let '(a, w'', tr) := run h (k x) w' in
      (a, w'', Issued c :: tr)
  end.



(* ===================================================================== *)
(** * generate_slides.py: the builder with its files *)
(* ===================================================================== *)

(** The loop that prints, for every agenda entry that is a key of
    [main], how many slides it has. *)
Fixpoint statistics_loop (main : gmap str (list str)) (agenda_idx : nat)
    (todo : list str) : io unit :=
  match todo with
  | [] => mret tt
  | agenda_title :: todo' =>
      match main !! agenda_title with
      | Some slides_content =>
          let slide_count := length slides_content in
          print (lit "  - " ++ str_of_nat (agenda_idx + 1) ++ lit ". " ++ agenda_title ++
                 lit ": " ++ str_of_nat slide_count ++ lit "枚")
      | None => mret tt
      end;;
      statistics_loop main (S agenda_idx) todo'
  end.

(** [create_slides_from_json(template_path, json_path, output_path)] with
    its files: the structure is loaded, the template opened, the deck
    built and saved, and the statistics printed. *)
Definition create_slides_from_json_io (template_path json_path output_path : str)
    : io unit :=
  content ← perform (JsonLoad json_path);
  prs ← perform (PresentationOpen template_path);
  prs ← lift (create_slides_from_json prs content);
  perform (PresentationSave prs output_path);;
  let total_slides := length (slides prs) in
  print (lit "スライド生成完了!");;
  print (lit "- タイトル: " ++ title content);;
  print (lit "- アジェンダ数: " ++ str_of_nat (length (agenda content)));;
  print (lit "- 総スライド数: " ++ str_of_nat total_slides ++ lit "枚");;
  print (lit "  - start: 1枚");;
  print (lit "  - アジェンダ: 1枚");;
  statistics_loop (main content) 0 (agenda content);;
  print (lit "  - end: 1枚");;
  print ([NL] ++ lit "出力先: " ++ output_path).

(* ===================================================================== *)
(** * generate_speaker_notes.py: generating the notes *)
(* ===================================================================== *)

Section SpeakerNotes.
Context `{Interpreter} `{Platform}.

(** The instruction sent with each slide image. *)
Definition script_prompt (slide_number : nat) : str :=
  lit "このスライド（" ++ str_of_nat slide_number ++
  lit "ページ目）の内容を元に、発表者向けの詳しい原稿を日本語で作成してください。

要件:
- 聞き手にとって分かりやすい説明になるよう、具体例や補足説明を含める
- スライドに書かれていない背景情報や詳細説明も追加する
- 自然な話し言葉で、実際の発表で使いやすい形式にする
- 2-3分程度で話せる分量（400-600文字程度）にする
- スライドの内容を単純に読み上げるのではなく、聞き手に分かりやすく説明する

形式:
原稿のみを出力してください。「このスライドでは」などの前置きは不要です。".

(** [f"スライド {slide_number} の原稿を生成できませんでした。"] *)
Definition script_placeholder (slide_number : nat) : str :=
  lit "スライド " ++ str_of_nat slide_number ++ lit " の原稿を生成できませんでした。".

Definition generate_script_from_image (image_data : bytes) (slide_number : nat)
    : io str :=
  let prompt := script_prompt slide_number in
  try_except
    (content ← perform (MessagesCreate (lit "claude-sonnet-4-5-20250929") 4000
                                        image_data prompt);
     block ← lift (index content 0);
     text ← lift (match block with
                  | Some text => Ok text
                  | None => Raise AttributeError
                  end);
     mret (strip text))
    (fun e =>
       print (lit "スライド " ++ str_of_nat slide_number ++
              lit " の原稿生成でエラー: " ++ exn_str e);;
       mret (script_placeholder slide_number)).

(** The loop [for i, image_data in enumerate(images): ...] of
    [process_pptx_with_pdf] and [process_pptx], entered at index [i] with
    [notes_list] as filled so far.  It answers with the list as it
    stands when the loop is left, by its end or by an exception. *)
Fixpoint scripts_loop (total_slides i : nat) (todo : list bytes) (notes_list : list str)
    : prog (list str * result unit) :=
  match todo with
  | [] => Ret (notes_list, Ok tt)
  | image_data :: todo' =>
      prog_bind
        (print (lit "スライド " ++ str_of_nat (i + 1) ++ lit "/" ++
                str_of_nat total_slides ++ lit " の原稿を生成中...");;
         generate_script_from_image image_data (i + 1))
        (fun r =>
           match r with
           | Ok script => scripts_loop total_slides (S i) todo' (notes_list ++ [script])
           | Raise e => Ret (notes_list, Raise e)
           end)
  end.

(** The call [self.add_notes_to_pptx(pptx_path, notes_list, output_path)]:
    [prs = Presentation(pptx_path)], the loop, [prs.save(output_path)].
    It answers with the presentation it saved. *)
Definition add_notes_to_pptx_io (pptx_path : str) (notes_list : list str)
    (output_path : str) : io presentation :=
  prs ← perform (PresentationOpen pptx_path);
  prs ← lift (add_notes_to_pptx prs notes_list);
  perform (PresentationSave prs output_path);;
  mret prs.

(** What a run of [process_pptx_with_pdf] leaves: the tuple it returns
    and the presentation it saved, if it came to saving one. *)
Record notes_run := {
  success : bool;
  message : str;
  generated_notes : list str;
  saved : option presentation
}.

(** The [except Exception as e] branch of [process_pptx_with_pdf]. *)
Definition notes_run_failed (e : exn) (notes_list : list str)
    (saved : option presentation) : prog notes_run :=
  let error_msg := lit "処理中にエラーが発生しました: " ++ exn_str e in
  Do (PrintText error_msg) (fun _ =>
  Ret {| success := false; message := error_msg;
         generated_notes := notes_list; saved := saved |}).

(** [process_pptx_with_pdf]; [pdf_pages] is what [pdf_to_images] makes of
    the file at [input_pdf_path]. *)
Definition process_pptx_with_pdf (input_pptx_path : str)
    (pdf_pages : result (list bytes)) (output_pptx_path : str)
    (progress_callback : bool) : prog notes_run :=
  prog_bind (progress progress_callback (lit "PDF → 画像変換中...") 0 3;;
             images ← lift pdf_pages;
             progress progress_callback (lit "スライド原稿生成中...") 1 3;;
             mret images)
  (fun r => match r with
  | Raise e => notes_run_failed e [] None
  | Ok images =>
  let total_slides := length images in
  prog_bind (scripts_loop total_slides 0 images [])
  (fun '(notes_list, r) => match r with
  | Raise e => notes_run_failed e notes_list None
  | Ok _ =>
  prog_bind (progress progress_callback (lit "PPTX ファイル更新中...") 2 3;;
             add_notes_to_pptx_io input_pptx_path notes_list output_pptx_path)
  (fun r => match r with
  | Raise e => notes_run_failed e notes_list None
  | Ok output =>
  prog_bind (progress progress_callback (lit "完了") 3 3)
  (fun r => match r with
  | Raise e => notes_run_failed e notes_list (Some output)
  | Ok _ =>
  Ret {| success := true;
         message := lit "発表者ノート生成完了！ " ++ str_of_nat total_slides ++
                    lit "枚のスライドを処理しました。";
         generated_notes := notes_list;
         saved := Some output |}
  end) end) end) end).

End SpeakerNotes.

(* ===================================================================== *)
(** * generate_video.py: making the video *)
(* ===================================================================== *)

Section Video.
Context `{Interpreter} `{Platform}.

(** [os.path.join(a, b)] (posixpath) for a relative [b]. *)
Definition path_join (a b : str) : str :=
  match a with
  | [] => b
  | _ => if endswith a (lit "/") then a ++ b else a ++ lit "/" ++ b
  end.

Definition text_to_speech (text output_path : str) : io str :=
  audio_data ← perform (GenerateContent (lit "gemini-2.5-flash-preview-tts") text
                                         (lit "Kore"));
  perform (WriteWav output_path 1%N 2%N 24000%N audio_data);;
  mret output_path.

(** [create_slide_video]; [duration] is the default or given length of
    the silent clip, as [str(duration)] writes it. *)
Definition create_slide_video (image : image) (audio_path : option str)
    (output_path : str) (duration : str) : io str :=
  let '(width, height) := image_size image in
  let height := if negb (height mod 2 =? 0) then height - 1 else height in
  let width := if negb (width mod 2 =? 0) then width - 1 else width in
  temp_image_path ← perform (SaveTempPng image (width, height));
  try_finally
    (ffmpeg_cmd ←
       match audio_path with
       | Some ((_ :: _) as audio_path) =>
           let duration_cmd :=
             [lit "ffprobe"; lit "-v"; lit "error"; lit "-show_entries";
              lit "format=duration"; lit "-of";
              lit "default=noprint_wrappers=1:nokey=1"; audio_path] in
           duration_result ← perform (SubprocessRun duration_cmd);
           duration ← lift (float_str (strip (stdout duration_result)));
           mret [lit "ffmpeg"; lit "-y"; lit "-loop"; lit "1";
                 lit "-i"; temp_image_path; lit "-i"; audio_path;
                 lit "-c:v"; lit "libx264"; lit "-c:a"; lit "aac";
                 lit "-t"; duration; lit "-pix_fmt"; lit "yuv420p";
                 lit "-r"; lit "1"; lit "-shortest"; output_path]
       | _ =>
           mret [lit "ffmpeg"; lit "-y"; lit "-loop"; lit "1";
                 lit "-i"; temp_image_path; lit "-f"; lit "lavfi";
                 lit "-i"; lit "anullsrc=channel_layout=mono:sample_rate=48000";
                 lit "-c:v"; lit "libx264"; lit "-c:a"; lit "aac";
                 lit "-t"; duration; lit "-pix_fmt"; lit "yuv420p";
                 lit "-r"; lit "1"; lit "-shortest"; output_path]
       end;
     result ← perform (SubprocessRun ffmpeg_cmd);
     if negb (returncode result =? 0)%Z
     then raise (CalledProcessError (returncode result) ffmpeg_cmd (stderr result))
     else mret output_path)
    (perform (Unlink temp_image_path)).

Definition combine_videos (video_paths : list str) (output_path : str) : io str :=
  list_file_path ←
    perform (WriteTempTxt
               (concat ((fun video_path =>
                           lit "file '" ++ abspath video_path ++ lit "'" ++ [NL])
                          <$> video_paths)));
  try_finally
    (let ffmpeg_cmd :=
       [lit "ffmpeg"; lit "-y"; lit "-f"; lit "concat"; lit "-safe"; lit "0";
        lit "-i"; list_file_path; lit "-c"; lit "copy"; output_path] in
     result ← perform (SubprocessRun ffmpeg_cmd);
     if negb (returncode result =? 0)%Z
     then raise (CalledProcessError (returncode result) ffmpeg_cmd (stderr result))
     else mret output_path)
    (perform (Unlink list_file_path)).

(** The loop [for i, (image, note) in enumerate(zip(images, speaker_notes))],
    entered at index [i] with [video_paths] as filled so far. *)
Fixpoint slides_loop (progress_callback : bool) (temp_dir : str)
    (total_slides total_steps i : nat) (todo : list (image * option str))
    (video_paths : list str) : io (list str) :=
  match todo with
  | [] => mret video_paths
  | (image, note) :: todo' =>
      let slide_num := i + 1 in
      video_path ←
        match note with
        | Some ((_ :: _) as note) =>
            progress progress_callback
              (lit "スライド " ++ str_of_nat slide_num ++ lit "/" ++
               str_of_nat total_slides ++ lit " - 音声生成中...")
              (i + 1) total_steps;;
            let audio_path :=
              path_join temp_dir (lit "slide_" ++ str_of_nat_03d slide_num ++ lit ".wav") in
            text_to_speech note audio_path;;
            let video_path :=
              path_join temp_dir (lit "slide_" ++ str_of_nat_03d slide_num ++ lit ".mp4") in
            create_slide_video image (Some audio_path) video_path (lit "3.0");;
            mret video_path
        | _ =>
            progress progress_callback
              (lit "スライド " ++ str_of_nat slide_num ++ lit "/" ++
               str_of_nat total_slides ++ lit " - 無音動画作成中...")
              (i + 1) total_steps;;
            let video_path :=
              path_join temp_dir (lit "slide_" ++ str_of_nat_03d slide_num ++ lit ".mp4") in
            create_slide_video image None video_path (lit "3.0");;
            mret video_path
        end;
      slides_loop progress_callback temp_dir total_slides total_steps (S i) todo'
                  (video_paths ++ [video_path])
  end.

Definition no_images_message : str :=
  lit "ZIPファイルにスライド画像が見つかりません（スライド1.jpeg, スライド2.jpeg...の形式で保存してください）".

Definition count_mismatch_message (pptx_count zip_count : nat) : str :=
  lit "スライド数が一致しません（PPTX: " ++ str_of_nat pptx_count ++
  lit "枚, ZIP: " ++ str_of_nat zip_count ++ lit "枚）".


(** [generate_video], entered with the presentation at [pptx_path] and
    the archive at [zip_path]. *)
Definition generate_video (prs : presentation) (zf : zip_archive)
    (output_path : str) (progress_callback : bool) : prog (bool * str) :=
  prog_bind
    (progress progress_callback (lit "発表者ノート抽出中...") 0 1;;
     let speaker_notes := extract_speaker_notes prs in
     progress progress_callback (lit "スライド画像抽出中...") 0 1;;
     images ← lift (extract_images_from_zip zf);
     let total_slides := length images in
     if total_slides =? 0 then mret (false, no_images_message)
     else if negb (length speaker_notes =? total_slides)
     then mret (false, count_mismatch_message (length speaker_notes) total_slides)
     else
       let total_steps := total_slides + 1 in
       temp_dir ← perform MakeTempDir;
       try_finally
         (video_paths ← slides_loop progress_callback temp_dir total_slides total_steps
                                     0 (zip images speaker_notes) [];
          progress progress_callback (lit "動画結合中...") (total_slides + 1) total_steps;;
          combine_videos video_paths output_path;;
          mret tt)
         (perform (RemoveTempDir temp_dir));;
       progress progress_callback (lit "完了") total_steps total_steps;;
       mret (true, lit "講義動画生成完了！ " ++ str_of_nat total_slides ++
                   lit "枚のスライドを処理しました。"))
    (fun r => match r with
              | Ok answer => Ret answer
              | Raise e => Ret (false, lit "エラーが発生しました: " ++ exn_str e)
              end).

End Video.

(* ===================================================================== *)
(** * generate_speaker_notes.py: the variant that converts the deck itself *)
(* ===================================================================== *)

Section ProcessPptx.
Context `{Interpreter} `{Platform}.

(** [s.rstrip('/')] *)
Definition rstrip_slashes (s : str) : str :=
  rev (drop_while (fun c => (c =? SLASH)%N) (rev s)).

(** [os.path.dirname(p)] (posixpath):
    [i = p.rfind('/') + 1; head = p[:i];
     if head and head != '/' * len(head): head = head.rstrip('/')]. *)
Definition dirname (p : str) : str :=
  let head := match rfind SLASH p with
              | Some i => take (S i) p
              | None => []
              end in
  if truthy head && negb (forallb (fun c => (c =? SLASH)%N) head)
  then rstrip_slashes head
  else head.

(** [PPTXReader.pptx_to_pdf]: [subprocess.run([...], check=True)], which
    raises [CalledProcessError] on a non-zero exit status (nothing is
    captured, so the error carries no output). *)
Definition pptx_to_pdf (file_path output_path : str) : io str :=
  let argv := [lit "libreoffice"; lit "--headless"; lit "--convert-to"; lit "pdf";
               lit "--outdir"; dirname output_path; file_path] in
  result ← perform (SubprocessRun argv);
  if negb (returncode result =? 0)%Z
  then raise (CalledProcessError (returncode result) argv [])
  else mret output_path.

(** The two [except] branches of [process_pptx]: the first for
    [subprocess.CalledProcessError], the second for every other
    exception. *)
Definition process_pptx_failed (e : exn) (notes_list : list str)
    (saved : option presentation) : prog notes_run :=
  let error_msg :=
    match e with
    | CalledProcessError _ _ _ => lit "LibreOfficeでのPDF変換に失敗しました: " ++ exn_str e
    | _ => lit "処理中にエラーが発生しました: " ++ exn_str e
    end in
  Do (PrintText error_msg) (fun _ =>
  Ret {| success := false; message := error_msg;
         generated_notes := notes_list; saved := saved |}).

(** The body of [with tempfile.TemporaryDirectory() as temp_dir] in
    [process_pptx]; [pdf_pages] is what [pdf_to_images] makes of the file
    at [pdf_path].  It answers with the notes list and the saved deck as
    they stand when the block is left, and with the number of slides or
    the exception that left it. *)
Definition process_pptx_block (input_pptx_path : str)
    (pdf_pages : result (list bytes)) (output_pptx_path : str)
    (progress_callback : bool) (temp_dir : str)
    : prog (list str * option presentation * result nat) :=
  let pdf_path := path_join temp_dir (lit "slides.pdf") in
  prog_bind (pptx_to_pdf input_pptx_path pdf_path;;
             progress progress_callback (lit "PDF → 画像変換中...") 1 4;;
             images ← lift pdf_pages;
             progress progress_callback (lit "スライド原稿生成中...") 2 4;;
             mret images)
  (fun r => match r with
  | Raise e => Ret ([], None, Raise e)
  | Ok images =>
  let total_slides := length images in
  prog_bind (scripts_loop total_slides 0 images [])
  (fun '(notes_list, r) => match r with
  | Raise e => Ret (notes_list, None, Raise e)
  | Ok _ =>
  prog_bind (progress progress_callback (lit "PPTX ファイル更新中...") 3 4;;
             add_notes_to_pptx_io input_pptx_path notes_list output_pptx_path)
  (fun r => match r with
  | Raise e => Ret (notes_list, None, Raise e)
  | Ok output =>
  prog_bind (progress progress_callback (lit "完了") 4 4)
  (fun r => match r with
  | Raise e => Ret (notes_list, Some output, Raise e)
  | Ok _ => Ret (notes_list, Some output, Ok total_slides)
  end) end) end) end).

(** [process_pptx]. *)
Definition process_pptx (input_pptx_path : str)
    (pdf_pages : result (list bytes)) (output_pptx_path : str)
    (progress_callback : bool) : prog notes_run :=
  prog_bind (progress progress_callback (lit "PPTX → PDF変換中...") 0 4;;
             perform MakeTempDir)
  (fun r => match r with
  | Raise e => process_pptx_failed e [] None
  | Ok temp_dir =>
  prog_bind (process_pptx_block input_pptx_path pdf_pages output_pptx_path
                                progress_callback temp_dir)
  (fun '(notes_list, saved, r) =>
  prog_bind (perform (RemoveTempDir temp_dir))
  (fun cleanup =>
     match cleanup, r with
     | Raise e, _ => process_pptx_failed e notes_list saved
     | Ok _, Raise e => process_pptx_failed e notes_list saved
     | Ok _, Ok total_slides =>
         Ret {| success := true;
                message := lit "発表者ノート生成完了！ " ++ str_of_nat total_slides ++
                           lit "枚のスライドを処理しました。";
                generated_notes := notes_list;
                saved := saved |}
     end))
  end).

End ProcessPptx.

(* ===================================================================== *)
(** * generate_outline.py and outline_to_json.py: unwrapping the reply *)
(* ===================================================================== *)

Section Replies.
Context `{Interpreter}.

(** What [generate_outline_from_text] returns for the text of the model's
    reply:
    [outline_text = text.strip()
     if outline_text.startswith("```"):
         lines = outline_text.split("\n")
         outline_text = "\n".join(lines[1:-1]) if len(lines) > 2 else outline_text]. *)
Definition outline_of_reply (text : str) : str :=
  let outline_text := strip text in
  if startswith outline_text (lit "```") then
    let lines := split_lines outline_text in
    if 2 <? length lines
    then join [NL] (drop 1 (take (length lines - 1) lines))
    else outline_text
  else outline_text.

(** What [convert_outline_to_json] hands to [json.loads] for the text of
    the model's reply:
    [response_text = text.strip()
     if response_text.startswith("```json"): response_text = response_text[7:]
     if response_text.startswith("```"): response_text = response_text[3:]
     if response_text.endswith("```"): response_text = response_text[:-3]
     response_text = response_text.strip()]. *)
Definition json_text_of_reply (text : str) : str :=
  let response_text := strip text in
  let response_text :=
    if startswith response_text (lit "```json") then drop 7 response_text
    else response_text in
  let response_text :=
    if startswith response_text (lit "```") then drop 3 response_text
    else response_text in
  let response_text :=
    if endswith response_text (lit "```")
    then take (length response_text - 3) response_text
    else response_text in
  strip response_text.

End Replies.

(* ===================================================================== *)
(** * Notions the statements use *)
(* ===================================================================== *)

(** A character every text frame keeps as it is: not a control character
    below U+0020 other than tab and line feed, and not one lxml
    refuses. *)
Definition plain_char (c : codepoint) : bool :=
  ((c =? 9)%N || (c =? 10)%N || (32 <=? c)%N) && negb (xml_incompatible c).

(** A text of such characters. *)
Definition plain (text : str) : Prop := Forall (fun c => plain_char c = true) text.

(** A text lxml accepts: assigning it to a text frame raises nothing. *)
Definition xml_compatible (text : str) : Prop :=
  Forall (fun c => xml_incompatible c = false) text.

(** A structure object all of whose texts lxml accepts. *)
Definition xml_compatible_content (c : content) : Prop :=
  xml_compatible (title c) /\
  Forall xml_compatible (agenda c) /\
  map_Forall (fun _ slides_content => Forall xml_compatible slides_content) (main c).

(** The slide [fill] leaves when it raises nothing: placeholder 13 holds
    the header and placeholder 14 the body, as a text frame stores
    them. *)
Definition filled (header : str) (body : option str) (s : slide) : slide := {|
  slide_layout := slide_layout s;
  placeholders :=
    (fun placeholder : nat * str =>
       if fst placeholder =? 13 then (fst placeholder, stored_text header)
       else if fst placeholder =? 14 then
              match body with
              | Some b => (fst placeholder, stored_text b)
              | None => placeholder
              end
            else placeholder) <$> placeholders s;
  notes := notes s
|}.

(** The title slide, the agenda slide and a content slide as the builder
    leaves them. *)
Definition title_slide (start_template : layout) (c : content) : slide :=
  filled (title c) None (new_slide start_template).

Definition agenda_slide (main_template : layout) (c : content) : slide :=
  filled (lit "アジェンダ") (Some (agenda_text (agenda c))) (new_slide main_template).

Definition content_slide (main_template : layout)
    (agenda_idx : nat) (agenda_title slide_content : str) : slide :=
  filled (str_of_nat (agenda_idx + 1) ++ lit ". " ++ agenda_title)
         (Some slide_content) (new_slide main_template).

(** The texts a slide holds in its placeholders with a given [idx]. *)
Definition placeholder_texts (idx : nat) (s : slide) : list str :=
  omap (fun placeholder : nat * str =>
          if fst placeholder =? idx then Some (snd placeholder) else None)
       (placeholders s).

(** The content slides of one agenda entry: one per slide body the entry
    has in [main], none when it is not a key. *)
Definition entry_slides (main_template : layout) (main : gmap str (list str))
    (agenda_idx : nat) (agenda_title : str) : list slide :=
  content_slide main_template agenda_idx agenda_title
    <$> default [] (main !! agenda_title).

(** The content slides of a run of agenda entries, the first of which
    has index [first] in the agenda. *)
Definition content_slides (main_template : layout) (main : gmap str (list str))
    (first : nat) (entries : list str) : list slide :=
  concat (imap (fun j a => entry_slides main_template main (first + j) a) entries).

(** The agenda as a re-parser should give it back: every entry with its
    number, from 1 on. *)
Definition numbered (agenda : list str) : list (nat * str) :=
  imap (fun i item => (i + 1, item)) agenda.

Section ImageNames.
Context `{Interpreter}.

(** An archive entry that counts as a slide image, in the words of the
    specification: not a directory entry, not OS metadata, not a hidden
    file, with a [.jpeg] or [.jpg] extension, and with a digit in its
    base name. *)
Definition is_slide_image (name : str) : bool :=
  negb (endswith name (lit "/"))
  && negb (str_contains name (lit "__MACOSX"))
  && negb (startswith (basename name) (lit "."))
  && (endswith (lower name) (lit ".jpeg") || endswith (lower name) (lit ".jpg"))
  && existsb is_digit (basename name).

(** [run] is the first run of digits of [s]: no digit before it, digits
    all through, and no digit right after. *)
Definition first_digit_run (s run : str) : Prop :=
  exists before after,
    s = before ++ run ++ after /\
    Forall (fun c => is_digit c = false) before /\
    run <> [] /\
    Forall (fun c => is_digit c = true) run /\
    (forall c, head after = Some c -> is_digit c = false).

(** The slide number [extract_images_from_zip] reads off an entry's
    name. *)
Definition slide_number (name : str) : N :=
  match search_digits (basename name) with
  | Some group => int_value group
  | None => 0%N
  end.

(** An entry name whose first run of digits [int()] converts: the run is
    not longer than the interpreter's limit, if there is one. *)
Definition within_int_limit (name : str) : bool :=
  match search_digits (basename name) with
  | Some group => negb ((0 <? int_max_str_digits) && (int_max_str_digits <? length group))
  | None => true
  end.

(** The number a run of digits writes, most significant digit first. *)
Fixpoint digits_value (ds : list N) : N :=
  match ds with
  | [] => 0%N
  | d :: ds' => (d * 10 ^ N.of_nat (length ds') + digits_value ds')%N
  end.

(** A pair of number and entry name in which the number is the one the
    first run of digits of the entry's base name writes. *)
Definition numbered_by_first_run (pair : N * str) : Prop :=
  exists group,
    first_digit_run (basename pair.2) group /\
    pair.1 = digits_value ((fun c => default 0%N (decimal c)) <$> group).

End ImageNames.

(** The stripped notes text of a slide, if it has notes with a character
    that is not whitespace. *)
Definition note_of_slide `{Interpreter} (s : slide) : option str :=
  match notes s with
  | Some text => if truthy (strip text) then Some (strip text) else None
  | None => None
  end.

(** The text [write_notes] assigns to the notes of a slide: the text the
    slide has, a blank line and the note when the slide has text with a
    character that is not whitespace, else the note alone. *)
Definition notes_to_write `{Interpreter} (note_text : str) (s : slide) : str :=
  let text := default [] (notes s) in
  if truthy (strip text) then text ++ [NL; NL] ++ note_text else note_text.

(** The slide [write_notes] leaves when it raises nothing. *)
Definition with_notes `{Interpreter} (note_text : str) (s : slide) : slide :=
  {| slide_layout := slide_layout s;
     placeholders := placeholders s;
     notes := Some (stored_text (notes_to_write note_text s)) |}.

(** The text a call printed. *)
Definition printed (c : issued) : option str :=
  match c with
  | Issued (PrintText text) => Some text
  | _ => None
  end.

(** The presentation a call saved under a path. *)
Definition saved_presentation (c : issued) : option (presentation * str) :=
  match c with
  | Issued (PresentationSave prs path) => Some (prs, path)
  | _ => None
  end.

(** ** Inputs for the examples *)

(** A layout with a title placeholder, the two placeholders of the
    builder's convention, and placeholders for date, footer and slide
    number. *)
Definition layout_named (name : string) : layout :=
  {| layout_name := lit name;
     layout_placeholders :=
       [(0, PH_OTHER); (13, PH_OTHER); (14, PH_OTHER);
        (10, PH_DATE); (11, PH_FOOTER); (12, PH_SLIDE_NUMBER)] |}.

(** A template whose master holds three distinct layouts and which holds
    no slide. *)
Definition template_abc : presentation :=
  {| slide_masters :=
       [ {| slide_layouts := [layout_named "first"; layout_named "second";
                              layout_named "third"] |} ];
     slides := [] |}.

(** A lecture of three agenda entries, the second of which is no key of
    [main]. *)
Definition lecture_xyz : content :=
  {| title := lit "Lecture on X";
     agenda := [lit "A"; lit "B"; lit "C"];
     main := <[lit "A" := [lit "a1"; lit "a2"]]> (<[lit "C" := [lit "c1"]]> ∅) |}.

Definition slide_with_notes (text : option str) : slide :=
  {| slide_layout := layout_named "second"; placeholders := []; notes := text |}.

Definition deck_with_notes (texts : list (option str)) : presentation :=
  {| slide_masters := []; slides := slide_with_notes <$> texts |}.

(** [str(float(s))] on the texts that write a decimal numeral of at
    least 1 with a fraction, at most fifteen digits and no superfluous
    zero, on which it gives the text back.  Every other text is refused
    here, as [float()] refuses the empty text; CPython reads more
    (signs, exponents, numerals with superfluous zeros). *)
Definition plain_decimal_str (s : str) : result str :=
  let whole := take_while ascii_digit s in
  let rest := drop_while ascii_digit s in
  match whole, rest with
  | first :: _, point :: ((_ :: _) as fraction) =>
      if negb (first =? 48)%N && (point =? DOT)%N
         && forallb ascii_digit fraction
         && negb (default 48%N (last fraction) =? 48)%N
         && (length s <=? 16)
      then Ok s
      else Raise ValueError
  | _, _ => Raise ValueError
  end.

(** A platform for the examples: every payload decodes to a 4x4 image. *)
Definition platform_4x4 : Platform :=
  {| image_open := fun data => Ok {| image_size := (4, 4); pixels := data |};
     exn_str := fun e => match e with
                         | OtherException t => t
                         | ValueError => lit "ValueError"
                         | _ => []
                         end;
     float_str := plain_decimal_str;
     abspath := fun p => p |}.

(** An outside world in which every call succeeds; its state counts the
    calls.  [ffprobe] prints a duration, every other subprocess prints
    nothing; opening a presentation gives an empty one, and every
    structure file holds [lecture_xyz]. *)
Definition obliging : handler nat := fun X c w =>
  match c in call X return X * nat with
  | Progress _ _ _ => (Ok tt, S w)
  | PrintText _ => (tt, S w)
  | MessagesCreate _ _ _ _ => (Ok [Some (lit "script")], S w)
  | GenerateContent _ _ _ => (Ok [], S w)
  | WriteWav _ _ _ _ _ => (Ok tt, S w)
  | SaveTempPng _ _ => (Ok (lit "/tmp/slide.png"), S w)
  | WriteTempTxt _ => (Ok (lit "/tmp/list.txt"), S w)
  | SubprocessRun argv =>
      (Ok {| returncode := 0;
             stdout := if bool_decide (head argv = Some (lit "ffprobe"))
                       then lit "1.5" ++ [NL] else [];
             stderr := [] |}, S w)
  | Unlink _ => (Ok tt, S w)
  | MakeTempDir => (Ok (lit "/tmp/dir"), S w)
  | RemoveTempDir _ => (Ok tt, S w)
  | JsonLoad _ => (Ok lecture_xyz, S w)
  | PresentationOpen _ => (Ok {| slide_masters := []; slides := [] |}, S w)
  | PresentationSave _ _ => (Ok tt, S w)
  end.

(** An outside world that holds one presentation, whatever the path, and
    in which every call succeeds. *)
Definition office (prs : presentation) : handler nat := fun X c w =>
  match c in call X return X * nat with
  | PresentationOpen _ => (Ok prs, S w)
  | c => obliging _ c w
  end.

(** The same, with a vision model that always fails. *)
Definition failing_vision (prs : presentation) : handler nat := fun X c w =>
  match c in call X return X * nat with
  | MessagesCreate _ _ _ _ => (Raise (OtherException (lit "overloaded")), S w)
  | c => office prs _ c w
  end.

(* ===================================================================== *)
(** * The deck builder *)
(* ===================================================================== *)

(** A slide as the builder leaves it: it has the cloneable placeholders
    of its layout, none for the date, the footer or the slide number,
    and those with an [idx] other than 13 and 14 are empty. *)
Definition filled_by_convention (s : slide) : Prop :=
  fst <$> placeholders s = fst <$> iter_cloneable_placeholders (slide_layout s) /\
  Forall (fun p : nat * str => p.1 <> 13 -> p.1 <> 14 -> p.2 = []) (placeholders s).

(** The lecture [lecture_xyz] with slide bodies under two more keys of
    [main], neither of them an agenda entry. *)
Definition lecture_xyz_with_strays : content :=
  {| title := lit "Lecture on X";
     agenda := [lit "A"; lit "B"; lit "C"];
     main := <[lit "b" := [lit "b1"]]>
               (<[lit "Z" := [lit "z1"; lit "z2"]]> (main lecture_xyz)) |}.

(** The image and the prompt of a request to the vision model. *)
Definition vision_request (c : issued) : option (bytes * str) :=
  match c with
  | Issued (MessagesCreate _ _ image_data prompt) => Some (image_data, prompt)
  | _ => None
  end.

(** The text of a request to the TTS service. *)
Definition speech_request (c : issued) : option str :=
  match c with
  | Issued (GenerateContent _ contents _) => Some contents
  | _ => None
  end.

(** A program that makes no call of the kind [P], whatever answers it
    gets. *)
Inductive never (P : issued -> bool) {A : Type} : prog A -> Prop :=
| never_Ret (a : A) : never P (Ret a)
| never_Do {X : Type} (c : call X) (k : X -> prog A) :
    P (Issued c) = false -> (forall x, never P (k x)) -> never P (Do c k).

Definition is_vision_request (c : issued) : bool :=
  match vision_request c with
  | Some _ => true
  | None => false
  end.

Definition is_speech_request (c : issued) : bool :=
  match speech_request c with
  | Some _ => true
  | None => false
  end.

(** A program whose requests to the TTS service are, whatever answers it
    gets, the texts of [texts] in their order, or the first few of
    them. *)
Inductive speaks {A : Type} : list str -> prog A -> Prop :=
| speaks_Ret (texts : list str) (a : A) : speaks texts (Ret a)
| speaks_other (texts : list str) {X : Type} (c : call X) (k : X -> prog A) :
    speech_request (Issued c) = None ->
    (forall x, speaks texts (k x)) ->
    speaks texts (Do c k)
| speaks_text (text : str) (texts : list str) {X : Type} (c : call X) (k : X -> prog A) :
    speech_request (Issued c) = Some text ->
    (forall x, speaks texts (k x)) ->
    speaks (text :: texts) (Do c k).

(** The text the video generator has read for a slide: its notes entry
    when it is a non-empty text ([if note:]). *)
Definition spoken (note : option str) : option str :=
  match note with
  | Some ((_ :: _) as text) => Some text
  | _ => None
  end.

(** The text written to a list file for the concatenation. *)
Definition list_file_text (c : issued) : option str :=
  match c with
  | Issued (WriteTempTxt text) => Some text
  | _ => None
  end.

(** The clip file of slide number [slide_num] in the temporary
    directory: [os.path.join(temp_dir, f"slide_{slide_num:03d}.mp4")]. *)
Definition clip_path (temp_dir : str) (slide_num : nat) : str :=
  path_join temp_dir (lit "slide_" ++ str_of_nat_03d slide_num ++ lit ".mp4").

(** The list file naming the given clips, one [file '<path>'] line
    each. *)
Definition concat_list `{Platform} (video_paths : list str) : str :=
  concat ((fun video_path => lit "file '" ++ abspath video_path ++ lit "'" ++ [NL])
            <$> video_paths).

(** An answer that lets the program go on: no exception, exit status 0
    for a subprocess, and from [ffprobe] an output that [float()] can
    read. *)
Definition went_well `{Interpreter} `{Platform} {X : Type} (c : call X) : X -> Prop :=
  match c in call X return X -> Prop with
  | PrintText _ => fun _ => True
  | SubprocessRun argv =>
      fun x => exists completed,
                 x = Ok completed /\ returncode completed = 0%Z /\
                 (head argv = Some (lit "ffprobe") ->
                  exists duration, float_str (strip (stdout completed)) = Ok duration)
  | Progress _ _ _ => fun x => x = Ok tt
  | MessagesCreate _ _ _ _ => fun x => exists content, x = Ok content
  | GenerateContent _ _ _ => fun x => exists audio_data, x = Ok audio_data
  | WriteWav _ _ _ _ _ => fun x => x = Ok tt
  | SaveTempPng _ _ => fun x => exists path, x = Ok path
  | WriteTempTxt _ => fun x => exists path, x = Ok path
  | Unlink _ => fun x => x = Ok tt
  | MakeTempDir => fun x => exists path, x = Ok path
  | RemoveTempDir _ => fun x => x = Ok tt
  | JsonLoad _ => fun x => exists content, x = Ok content
  | PresentationOpen _ => fun x => exists prs, x = Ok prs
  | PresentationSave _ _ => fun x => x = Ok tt
  end.

(** An outside world in which every subprocess exits with status 1, and
    everything else succeeds. *)
Definition failing_subprocess : handler nat := fun X c w =>
  match c in call X return X * nat with
  | SubprocessRun _ =>
      (Ok {| returncode := 1; stdout := []; stderr := lit "failed" |}, S w)
  | c => obliging _ c w
  end.

(** The template [template_abc] with one slide of its own. *)
Definition template_with_slide : presentation :=
  {| slide_masters := slide_masters template_abc;
     slides := [new_slide (layout_named "third")] |}.

(** The lecture [lecture_xyz] with U+FFFF at the end of its title. *)
Definition lecture_uffff : content :=
  {| title := lit "Lecture on X" ++ [0xFFFF%N];
     agenda := agenda lecture_xyz;
     main := main lecture_xyz |}.

(** A structure object with the given agenda and nothing else. *)
Definition agenda_only (agenda : list str) : content :=
  {| title := []; agenda := agenda; main := ∅ |}.

(** No text the write-back assigns to the notes of a slide is refused by
    lxml. *)
Definition writable `{Interpreter} (prs : presentation) (notes_list : list str) : Prop :=
  Forall (fun '(s, note_text) => xml_compatible (notes_to_write note_text s))
         (zip (slides prs) notes_list).

(** A deck of one slide without notes and a deck of one slide with the
    notes "A". *)
Definition deck_without_notes : presentation := deck_with_notes [None].
Definition deck_with_A : presentation := deck_with_notes [Some (lit "A")].

(** An archive entry whose name is 4301 digits and the extension
    [.jpeg]. *)
Definition entry_with_4301_digits : str * bytes :=
  (replicate 4301 49%N ++ lit ".jpeg", []).

(** An outside world in which the vision call for a page, with its image
    and its number, raises whenever it is made. *)
Definition vision_fails {W : Type} (h : handler W)
    (image_data : bytes) (slide_number : nat) : Prop :=
  forall w, exists e w',
    h _ (MessagesCreate (lit "claude-sonnet-4-5-20250929") 4000 image_data
                        (script_prompt slide_number)) w = (Raise e, w').

(** An outside world in which no progress callback raises, every
    presentation file opens as [prs], and saving succeeds. *)
Definition files_go_well {W : Type} (h : handler W) (prs : presentation) : Prop :=
  (forall step_name current total w, exists w',
     h _ (Progress step_name current total) w = (Ok tt, w')) /\
  (forall path w, exists w', h _ (PresentationOpen path) w = (Ok prs, w')) /\
  (forall prs' path w, exists w', h _ (PresentationSave prs' path) w = (Ok tt, w')).

Arguments lit : simpl never.
Arguments str_of_nat : simpl never.

(** A closed decidable proposition, by evaluation. *)
Ltac decide_closed := apply (bool_decide_unpack _); vm_compute; exact I.

(** One step of a run: the binds and the call at the head of the
    program. *)
Ltac run_step :=
  cbn [mbind io_bind mret io_ret prog_bind perform raise lift run].

(** Unfolding the binds of [result]. *)
Ltac result_step := cbn [mbind result_bind mret result_ret].

(* ===================================================================== *)
(** * Text frames *)
(* ===================================================================== *)

Section TextFrames.

Lemma plain_char_spec c :
  plain_char c = true -> escaped c = false /\ xml_incompatible c = false.
Proof.
  unfold plain_char, escaped. intros [Hc Hx]%andb_true_iff.
  apply negb_true_iff in Hx. split; [|done].
  destruct (N.eqb_spec c 9), (N.eqb_spec c 10), (N.leb_spec 32 c),
    (N.leb_spec c 8), (N.leb_spec 12 c), (N.leb_spec c 31); simpl in *; try done; lia.
Qed.

Lemma stored_text_app (a b : str) :
  stored_text (a ++ b) = stored_text a ++ stored_text b.
Proof. unfold stored_text. by rewrite fmap_app, concat_app. Qed.

Lemma stored_text_cons c (t : str) : stored_text (c :: t) = escape c ++ stored_text t.
Proof. reflexivity. Qed.

(** A plain text is stored as it is. *)
Lemma stored_text_plain (t : str) : plain t -> stored_text t = t.
Proof.
  induction 1 as [|c t Hc _ IH]; [done|].
  rewrite stored_text_cons, IH. unfold escape.
  by destruct (plain_char_spec c Hc) as [-> _].
Qed.

Lemma plain_xml_compatible (t : str) : plain t -> xml_compatible t.
Proof.
  intros Ht. eapply Forall_impl; [exact Ht|]. intros c Hc. by apply plain_char_spec.
Qed.

Lemma xml_compatible_app (a b : str) :
  xml_compatible (a ++ b) <-> xml_compatible a /\ xml_compatible b.
Proof. apply Forall_app. Qed.

(** Assigning a text either stores it or raises [ValueError], the
    latter exactly for a text lxml refuses. *)
Lemma set_text_cases (t : str) :
  set_text t = Ok (stored_text t) /\ xml_compatible t \/
  set_text t = Raise ValueError /\ ~ xml_compatible t.
Proof.
  unfold set_text, xml_compatible.
  destruct (existsb xml_incompatible t) eqn:Hex; [right|left]; (split; [done|]).
  - apply existsb_exists in Hex as (c & Hin & Hc). rewrite Forall_forall.
    intros Hall. apply list_elem_of_In in Hin. apply Hall in Hin. congruence.
  - apply Forall_forall. intros c Hin.
    destruct (xml_incompatible c) eqn:Hc; [|done].
    assert (existsb xml_incompatible t = true) as Hex'; [|congruence].
    apply existsb_exists. exists c. split; [by apply list_elem_of_In|done].
Qed.

Lemma set_text_compatible (t : str) :
  xml_compatible t -> set_text t = Ok (stored_text t).
Proof. intros Ht. by destruct (set_text_cases t) as [[? _]|[_ ?]]. Qed.

Lemma set_text_Ok_inv (t t' : str) :
  set_text t = Ok t' -> t' = stored_text t /\ xml_compatible t.
Proof. destruct (set_text_cases t) as [[-> ?]|[-> _]]; [|done]. by intros [= <-]. Qed.

(** The characters of a stored text are those of the escapes, which lxml
    accepts: a stored text can be assigned again. *)
Lemma xml_compatible_stored_text (t : str) :
  xml_compatible t -> xml_compatible (stored_text t).
Proof.
  induction 1 as [|c t Hc _ IH]; [constructor|].
  rewrite stored_text_cons. apply xml_compatible_app. split; [|done].
  unfold escape. destruct (escaped c) eqn:Hesc; [|by constructor].
  unfold escaped in Hesc.
  assert (c < 32)%N as Hlt.
  { destruct (N.leb_spec c 8), (N.leb_spec 12 c), (N.leb_spec c 31);
      simpl in *; try done; lia. }
  assert (forall n, (n < 16)%N -> xml_incompatible (hex_digit n) = false) as Hhex.
  { intros n Hn. unfold hex_digit, xml_incompatible.
    destruct (N.ltb_spec n 10);
      repeat match goal with
             | |- context [(?a <=? ?b)%N] => destruct (N.leb_spec a b)
             | |- context [(?a =? ?b)%N] => destruct (N.eqb_spec a b)
             end; simpl; try done; lia. }
  change (lit "_x00") with [95; 120; 48; 48]%N. change (lit "_") with [95%N].
  repeat constructor; try done; apply Hhex.
  - apply N.Div0.div_lt_upper_bound. lia.
  - apply N.mod_lt. lia.
Qed.

(** What a text frame has stored is stored again as it is. *)
Lemma stored_text_idempotent (t : str) : stored_text (stored_text t) = stored_text t.
Proof.
  induction t as [|c t IH]; [done|].
  rewrite stored_text_cons, stored_text_app, IH. f_equal.
  unfold escape. destruct (escaped c) eqn:Hesc.
  - apply stored_text_plain.
    unfold escaped in Hesc.
    assert (c < 32)%N as Hlt.
    { destruct (N.leb_spec c 8), (N.leb_spec 12 c), (N.leb_spec c 31);
        simpl in *; try done; lia. }
    assert (forall n, (n < 16)%N -> plain_char (hex_digit n) = true) as Hhex.
    { intros n Hn. unfold hex_digit, plain_char, xml_incompatible.
      destruct (N.ltb_spec n 10);
        repeat match goal with
               | |- context [(?a <=? ?b)%N] => destruct (N.leb_spec a b)
               | |- context [(?a =? ?b)%N] => destruct (N.eqb_spec a b)
               end; simpl; try done; lia. }
    change (lit "_x00") with [95; 120; 48; 48]%N. change (lit "_") with [95%N].
    repeat constructor; try done; apply Hhex.
    + apply N.Div0.div_lt_upper_bound. lia.
    + apply N.mod_lt. lia.
  - rewrite stored_text_cons. unfold escape. by rewrite Hesc.
Qed.

(** Storing keeps the line feeds and makes no new one. *)
Lemma NL_stored_text (t : str) : NL ∈ stored_text t <-> NL ∈ t.
Proof.
  induction t as [|c t IH]; [done|].
  rewrite stored_text_cons, elem_of_app, elem_of_cons, IH.
  assert (NL ∈ escape c <-> NL = c) as ->; [|done].
  unfold escape. destruct (escaped c) eqn:Hesc.
  - split.
    + change (lit "_x00") with [95; 120; 48; 48]%N. change (lit "_") with [95%N].
      unfold hex_digit. cbn [app]. rewrite !elem_of_cons, elem_of_nil. unfold NL.
      generalize (c / 16)%N (c mod 16)%N. intros hi lo Hin. exfalso.
      destruct (N.ltb_spec hi 10), (N.ltb_spec lo 10);
        cbv iota in Hin;
        destruct Hin as [?|[?|[?|[?|[?|[?|[?|[]]]]]]]]; lia.
    + intros <-. discriminate Hesc.
  - rewrite list_elem_of_singleton. done.
Qed.

Lemma stored_text_join_NL (lines : list str) :
  stored_text (join [NL] lines) = join [NL] (stored_text <$> lines).
Proof.
  induction lines as [|l lines IH]; [done|].
  destruct lines as [|l' lines]; [done|].
  change (join [NL] (l :: l' :: lines)) with (l ++ [NL] ++ join [NL] (l' :: lines)).
  rewrite !stored_text_app, IH. reflexivity.
Qed.

Lemma digits_of_uint_ascii d : Forall (fun c => ascii_digit c = true) (digits_of_uint d).
Proof. induction d; simpl; constructor; done. Qed.

Lemma ascii_digit_plain c : ascii_digit c = true -> plain_char c = true.
Proof.
  unfold ascii_digit, plain_char, xml_incompatible.
  intros [H1 H2]%andb_true_iff. apply N.leb_le in H1, H2.
  repeat match goal with
         | |- context [(?a <=? ?b)%N] => destruct (N.leb_spec a b)
         | |- context [(?a =? ?b)%N] => destruct (N.eqb_spec a b)
         end; simpl; try done; lia.
Qed.

Lemma plain_str_of_nat n : plain (str_of_nat n).
Proof.
  unfold str_of_nat. eapply Forall_impl; [apply digits_of_uint_ascii|].
  apply ascii_digit_plain.
Qed.

(** The numbered line of an agenda entry is stored as the number, the
    separator and the stored entry. *)
Lemma stored_text_numbered n (item : str) :
  stored_text (str_of_nat n ++ lit ". " ++ item)
  = str_of_nat n ++ lit ". " ++ stored_text item.
Proof.
  rewrite !stored_text_app, (stored_text_plain (str_of_nat n)) by apply plain_str_of_nat.
  reflexivity.
Qed.

Lemma xml_compatible_numbered n (item : str) :
  xml_compatible (str_of_nat n ++ lit ". " ++ item) <-> xml_compatible item.
Proof.
  rewrite !xml_compatible_app.
  pose proof (plain_xml_compatible _ (plain_str_of_nat n)).
  assert (xml_compatible (lit ". ")) by (repeat constructor).
  tauto.
Qed.

Lemma xml_compatible_join_NL (lines : list str) :
  xml_compatible (join [NL] lines) <-> Forall xml_compatible lines.
Proof.
  induction lines as [|l lines IH]; [by split; constructor|].
  destruct lines as [|l' lines].
  - simpl. split; [by repeat constructor|by inversion 1].
  - change (join [NL] (l :: l' :: lines)) with (l ++ [NL] ++ join [NL] (l' :: lines)).
    rewrite !xml_compatible_app, IH, (Forall_cons _ l).
    assert (xml_compatible [NL]) by (repeat constructor). tauto.
Qed.

Lemma xml_compatible_agenda_text (agenda : list str) :
  xml_compatible (agenda_text agenda) <-> Forall xml_compatible agenda.
Proof.
  unfold agenda_text. rewrite xml_compatible_join_NL, !Forall_lookup. split.
  - intros Hall i item Hitem.
    apply (xml_compatible_numbered (i + 1)). apply (Hall i).
    apply list_lookup_imap_Some. by exists item.
  - intros Hall i line Hline.
    apply list_lookup_imap_Some in Hline as (item & Hitem & ->).
    apply xml_compatible_numbered. by apply (Hall i).
Qed.

End TextFrames.

Section DeckBuilder.

(** [fill] either leaves the slide [filled] or raises [ValueError], the
    latter only for a header or a body lxml refuses. *)
Lemma fill_cases header body s :
  fill header body s = Ok (filled header body s) \/
  fill header body s = Raise ValueError /\
  ~ (xml_compatible header /\ forall b, body = Some b -> xml_compatible b).
Proof.
  unfold fill, filled.
  match goal with |- context [mapM ?f _] => set (assign := f) end.
  match goal with |- context [?g <$> placeholders s] => set (assigned := g) end.
  assert (mapM assign (placeholders s) = Ok (assigned <$> placeholders s) \/
          mapM assign (placeholders s) = Raise ValueError /\
          ~ (xml_compatible header /\ forall b, body = Some b -> xml_compatible b))
    as [->|[-> Hbad]]; [|by left|by right].
  induction (placeholders s) as [|p l IH]; [by left|].
  cbn [mapM fmap list_fmap]. result_step.
  assert (assign p = Ok (assigned p) \/
          assign p = Raise ValueError /\
          ~ (xml_compatible header /\ forall b, body = Some b -> xml_compatible b))
    as [->|[-> Hbad]]; [|result_step|by right].
  { subst assign assigned. cbv beta.
    destruct (p.1 =? 13).
    - destruct (set_text_cases header) as [[-> _]|[-> Hbad]]; [by left|].
      right. split; [done|]. by intros [? _].
    - destruct (p.1 =? 14); [|by left].
      destruct body as [b|]; [|by left].
      destruct (set_text_cases b) as [[-> _]|[-> Hbad]]; [by left|].
      right. split; [done|]. intros [_ Hb]. by apply Hbad, Hb. }
  destruct IH as [->|[-> Hbad]]; [by left|by right].
Qed.

Lemma fill_Ok_inv header body s s' :
  fill header body s = Ok s' -> s' = filled header body s.
Proof. destruct (fill_cases header body s) as [->|[-> _]]; [|done]. by intros [= <-]. Qed.

Lemma content_slides_cons mt main first a entries :
  content_slides mt main first (a :: entries)
  = entry_slides mt main first a ++ content_slides mt main (S first) entries.
Proof.
  unfold content_slides. rewrite imap_cons. simpl.
  rewrite Nat.add_0_r. f_equal. f_equal.
  apply imap_ext. intros j x _. simpl. f_equal. lia.
Qed.

Lemma content_slides_app mt main first l1 l2 :
  content_slides mt main first (l1 ++ l2)
  = content_slides mt main first l1
    ++ content_slides mt main (first + length l1) l2.
Proof.
  revert first. induction l1 as [|a l1 IH]; intros first; simpl.
  - by rewrite Nat.add_0_r.
  - rewrite !content_slides_cons, IH, <- app_assoc.
    do 3 f_equal. lia.
Qed.

Lemma length_content_slides mt main first entries :
  length (content_slides mt main first entries)
  = sum_list (omap (fun a => length <$> main !! a) entries).
Proof.
  revert first. induction entries as [|a entries IH]; intros first; [done|].
  rewrite content_slides_cons, length_app, IH. unfold entry_slides. simpl.
  destruct (main !! a) as [bodies|]; simpl; by rewrite ?length_fmap.
Qed.

(** The inner loop appends one content slide per slide body, or raises
    [ValueError] for a text lxml refuses. *)
Lemma add_content_slides_cases mt i a bodies prs :
  (exists prs',
     add_content_slides mt i a bodies prs = Ok prs' /\
     slide_masters prs' = slide_masters prs /\
     slides prs' = slides prs ++ (content_slide mt i a <$> bodies)) \/
  add_content_slides mt i a bodies prs = Raise ValueError /\
  ~ (xml_compatible a /\ Forall xml_compatible bodies).
Proof.
  revert prs. induction bodies as [|b bodies IH]; intros prs.
  - left. exists prs. by rewrite app_nil_r.
  - cbn [add_content_slides].
    destruct (fill_cases (str_of_nat (i + 1) ++ lit ". " ++ a) (Some b) (new_slide mt))
      as [->|[-> Hbad]]; result_step.
    + change (filled _ _ _) with (content_slide mt i a b).
      destruct (IH (add_slide prs (content_slide mt i a b)))
        as [(prs' & -> & Hm & Hs)|[-> Hbad]].
      * left. exists prs'. split; [done|]. split; [done|].
        rewrite Hs. simpl. by rewrite <- app_assoc.
      * right. split; [done|]. intros [Ha Hall]. apply Hbad. split; [done|].
        by inversion Hall.
    + right. split; [done|]. intros [Ha Hall]. apply Hbad. split.
      * by apply xml_compatible_numbered.
      * intros b' [= <-]. by inversion Hall.
Qed.

(** The loop over the agenda appends, entry by entry, the entry's
    content slides, or raises [ValueError] for a text lxml refuses. *)
Lemma agenda_loop_cases mt main i todo prs :
  (exists prs',
     agenda_loop mt main i todo prs = Ok prs' /\
     slide_masters prs' = slide_masters prs /\
     slides prs' = slides prs ++ content_slides mt main i todo) \/
  agenda_loop mt main i todo prs = Raise ValueError /\
  ~ (Forall xml_compatible todo /\
     map_Forall (fun _ slides_content => Forall xml_compatible slides_content) main).
Proof.
  revert i prs. induction todo as [|a todo IH]; intros i prs.
  - left. exists prs. by rewrite app_nil_r.
  - cbn [agenda_loop]. rewrite content_slides_cons. unfold entry_slides.
    destruct (main !! a) as [bodies|] eqn:Hlookup; simpl.
    + destruct (add_content_slides_cases mt i a bodies prs)
        as [(prs1 & -> & Hm1 & Hs1)|[-> Hbad]]; result_step.
      * destruct (IH (S i) prs1) as [(prs' & -> & Hm & Hs)|[-> Hbad]].
        -- left. exists prs'. split; [done|]. split; [congruence|].
           by rewrite Hs, Hs1, <- app_assoc.
        -- right. split; [done|]. intros [Hall Hmain]. apply Hbad. split; [|done].
           by inversion Hall.
      * right. split; [done|]. intros [Hall Hmain]. apply Hbad. split.
        -- by inversion Hall.
        -- by apply (Hmain a).
    + destruct (IH (S i) prs) as [(prs' & -> & Hm & Hs)|[-> Hbad]].
      * left. by exists prs'.
      * right. split; [done|]. intros [Hall Hmain]. apply Hbad. split; [|done].
        by inversion Hall.
Qed.

(** What the builder hands to [prs.save], for a template whose first
    master has layouts at positions 0, 1 and 2: the template's own
    slides, then the title slide, the agenda slide, the content slides
    and the closing slide.  Otherwise it raises [ValueError], which it
    does only for a structure object with a text lxml refuses. *)
Lemma create_slides_from_json_cases template c master l0 l1 l2 :
  slide_masters template !! 0 = Some master ->
  slide_layouts master !! 0 = Some l0 ->
  slide_layouts master !! 1 = Some l1 ->
  slide_layouts master !! 2 = Some l2 ->
  (exists prs,
     create_slides_from_json template c = Ok prs /\
     slide_masters prs = slide_masters template /\
     slides prs = slides template
                  ++ [title_slide l1 c; agenda_slide l0 c]
                  ++ content_slides l0 (main c) 0 (agenda c)
                  ++ [new_slide l2]) \/
  create_slides_from_json template c = Raise ValueError /\
  ~ xml_compatible_content c.
Proof.
  intros Hm H0 H1 H2. unfold create_slides_from_json, index, xml_compatible_content.
  rewrite Hm. result_step. rewrite H0. result_step.
  rewrite H1. result_step. rewrite H2. result_step.
  destruct (fill_cases (title c) None (new_slide l1)) as [->|[-> Hbad]]; result_step.
  2:{ right. split; [done|]. intros (Ht & _). apply Hbad. by split. }
  destruct (fill_cases (lit "アジェンダ") (Some (agenda_text (agenda c))) (new_slide l0))
    as [->|[-> Hbad]]; result_step.
  2:{ right. split; [done|]. intros (_ & Ha & _). apply Hbad. split.
      - repeat constructor.
      - intros b [= <-]. by apply xml_compatible_agenda_text. }
  cbv zeta.
  match goal with |- context [agenda_loop l0 (main c) 0 (agenda c) ?p] =>
    destruct (agenda_loop_cases l0 (main c) 0 (agenda c) p)
      as [(prs & -> & Hmp & Hsp)|[-> Hbad]] end; result_step.
  - left. eexists. split; [reflexivity|]. simpl. split; [done|].
    rewrite Hsp. simpl. by rewrite <- !app_assoc.
  - right. split; [done|]. intros (_ & Ha & Hmain). by apply Hbad.
Qed.

(** The builder returns a deck for every structure object without a text
    lxml refuses. *)
Lemma create_slides_from_json_compatible template c master l0 l1 l2 :
  slide_masters template !! 0 = Some master ->
  slide_layouts master !! 0 = Some l0 ->
  slide_layouts master !! 1 = Some l1 ->
  slide_layouts master !! 2 = Some l2 ->
  xml_compatible_content c ->
  exists prs, create_slides_from_json template c = Ok prs.
Proof.
  intros Hm H0 H1 H2 Hc.
  destruct (create_slides_from_json_cases template c master l0 l1 l2)
    as [(prs & Hrun & _)|[_ Hbad]]; try done.
  by exists prs.
Qed.

(** A deck the builder returns, for whatever template and structure
    object. *)
Lemma create_slides_from_json_Ok_inv template c prs :
  create_slides_from_json template c = Ok prs ->
  exists master l0 l1 l2,
    slide_masters template !! 0 = Some master /\
    slide_layouts master !! 0 = Some l0 /\
    slide_layouts master !! 1 = Some l1 /\
    slide_layouts master !! 2 = Some l2 /\
    slide_masters prs = slide_masters template /\
    slides prs = slides template
                 ++ [title_slide l1 c; agenda_slide l0 c]
                 ++ content_slides l0 (main c) 0 (agenda c)
                 ++ [new_slide l2].
Proof.
  intros Hrun.
  destruct (slide_masters template !! 0) as [master|] eqn:Hm;
    [|by unfold create_slides_from_json, index in Hrun; rewrite Hm in Hrun].
  destruct (slide_layouts master !! 0) as [l0|] eqn:H0;
    [|by unfold create_slides_from_json, index in Hrun;
         rewrite Hm in Hrun; simpl in Hrun; rewrite H0 in Hrun].
  destruct (slide_layouts master !! 1) as [l1|] eqn:H1;
    [|by unfold create_slides_from_json, index in Hrun;
         rewrite Hm in Hrun; simpl in Hrun; rewrite H0 in Hrun; simpl in Hrun;
         rewrite H1 in Hrun].
  destruct (slide_layouts master !! 2) as [l2|] eqn:H2;
    [|by unfold create_slides_from_json, index in Hrun;
         rewrite Hm in Hrun; simpl in Hrun; rewrite H0 in Hrun; simpl in Hrun;
         rewrite H1 in Hrun; simpl in Hrun; rewrite H2 in Hrun].
  destruct (create_slides_from_json_cases template c master l0 l1 l2)
    as [(prs' & Hrun' & Hmp & Hsp)|[Hrun' _]]; try done; [|congruence].
  rewrite Hrun in Hrun'. injection Hrun' as <-.
  by exists master, l0, l1, l2.
Qed.

End DeckBuilder.

(** The loop over the agenda looks [main] up at the agenda entries only,
    and takes an entry that is no key as it takes one with no slide
    body. *)
Lemma agenda_loop_ext (mt : layout) (main main' : gmap str (list str))
    i (todo : list str) prs :
  (forall a : str, a ∈ todo -> default [] (main !! a) = default [] (main' !! a)) ->
  agenda_loop mt main i todo prs = agenda_loop mt main' i todo prs.
Proof.
  revert i prs. induction todo as [|a todo IH]; intros i prs Hagree; [done|].
  cbn [agenda_loop].
  assert (match main !! a with
          | Some slides_content => add_content_slides mt i a slides_content prs
          | None => Ok prs
          end
          = match main' !! a with
            | Some slides_content => add_content_slides mt i a slides_content prs
            | None => Ok prs
            end) as ->.
  { assert (a ∈ a :: todo) as Hin by (apply elem_of_cons; by left).
    apply Hagree in Hin.
    destruct (main !! a) as [sc|], (main' !! a) as [sc'|]; simpl in Hin; by subst. }
  destruct (match main' !! a with Some _ => _ | None => _ end) as [prs'|e];
    result_step; [|done].
  apply IH. intros b Hb. apply Hagree, elem_of_cons. by right.
Qed.

(** C1, as the code has it. For a template whose master has layouts at
    positions 0, 1 and 2 and that holds no slide of its own, and every
    structure object without a text that XML cannot carry, the builder
    hands to [prs.save] a deck of exactly 2 + 1 + (the sum, over the
    agenda entries that are keys of main, of the length of their slide
    list) slides; its first slide is the title slide, its second the
    agenda slide and its last the closing slide. *)
Theorem deck_has_title_agenda_contents_closing
    template c master l0 l1 l2 :
  slide_masters template !! 0 = Some master ->
  slide_layouts master !! 0 = Some l0 ->
  slide_layouts master !! 1 = Some l1 ->
  slide_layouts master !! 2 = Some l2 ->
  slides template = [] ->
  xml_compatible_content c ->
  exists prs,
    create_slides_from_json template c = Ok prs /\
    length (slides prs)
    = 2 + 1 + sum_list (omap (fun a => length <$> main c !! a) (agenda c)) /\
    slides prs !! 0 = Some (title_slide l1 c) /\
    slides prs !! 1 = Some (agenda_slide l0 c) /\
    last (slides prs) = Some (new_slide l2).
Proof.
  intros Hm H0 H1 H2 Hempty Hc.
  destruct (create_slides_from_json_cases template c master l0 l1 l2)
    as [(prs & Hrun & _ & Hslides)|[_ Hbad]]; try done.
  exists prs. rewrite Hslides, Hempty. split; [done|]. split; [|split; [done|split; [done|]]].
  - simpl. rewrite length_app, length_content_slides. simpl. lia.
  - by rewrite !app_assoc, last_snoc.
Qed.

Lemma deck_has_title_agenda_contents_closing_witness :
  exists prs,
    create_slides_from_json template_abc lecture_xyz = Ok prs /\
    length (slides prs)
    = 2 + 1 + sum_list (omap (fun a => length <$> main lecture_xyz !! a)
                             (agenda lecture_xyz)) /\
    slides prs !! 0 = Some (title_slide (layout_named "second") lecture_xyz) /\
    slides prs !! 1 = Some (agenda_slide (layout_named "first") lecture_xyz) /\
    last (slides prs) = Some (new_slide (layout_named "third")).
Proof.
  eapply (deck_has_title_agenda_contents_closing template_abc lecture_xyz);
    try reflexivity.
  decide_closed.
Defined.

(** C1, as stated, fails.  On a template that holds a slide of its own
    the deck has one slide more than the claim counts, and its first
    slide is the template's, not the title slide.  And for a structure
    object whose title ends with U+FFFF no deck is produced: the builder
    raises [ValueError]. *)
Lemma deck_on_template_with_slide_counterexample :
  (exists prs,
     create_slides_from_json template_with_slide lecture_xyz = Ok prs /\
     length (slides prs)
     <> 2 + 1 + sum_list (omap (fun a => length <$> main lecture_xyz !! a)
                               (agenda lecture_xyz)) /\
     slides prs !! 0 <> Some (title_slide (layout_named "second") lecture_xyz)) /\
  create_slides_from_json template_abc lecture_uffff = Raise ValueError.
Proof.
  split; [|reflexivity].
  eexists. split; [reflexivity|]. split; vm_compute; discriminate.
Qed.

Lemma content_slides_layout mt main first entries :
  Forall (fun s => slide_layout s = mt) (content_slides mt main first entries).
Proof.
  unfold content_slides. apply Forall_concat, Forall_forall.
  intros l Hl. apply list_elem_of_lookup in Hl as [j Hj].
  apply list_lookup_imap_Some in Hj as (a & _ & ->).
  unfold entry_slides. apply Forall_fmap, Forall_true. done.
Qed.

(** C2, as the code has it. The builder takes its three layouts from the
    first master at fixed positions: the title slide is made from the
    layout at position 1, the agenda slide and every content slide from
    the layout at position 0, and the closing slide from the layout at
    position 2.  It returns such a deck for every structure object
    without a text that XML cannot carry. *)
Theorem layouts_taken_by_position template c master l0 l1 l2 :
  slide_masters template !! 0 = Some master ->
  slide_layouts master !! 0 = Some l0 ->
  slide_layouts master !! 1 = Some l1 ->
  slide_layouts master !! 2 = Some l2 ->
  (xml_compatible_content c -> exists prs, create_slides_from_json template c = Ok prs) /\
  (forall prs,
     create_slides_from_json template c = Ok prs ->
     exists title_s agenda_s content_s closing_s,
       slides prs = slides template ++ [title_s; agenda_s] ++ content_s ++ [closing_s] /\
       title_s = title_slide l1 c /\
       slide_layout title_s = l1 /\
       slide_layout agenda_s = l0 /\
       Forall (fun s => slide_layout s = l0) content_s /\
       slide_layout closing_s = l2).
Proof.
  intros Hm H0 H1 H2. split.
  - by apply (create_slides_from_json_compatible template c master l0 l1 l2).
  - intros prs Hrun.
    destruct (create_slides_from_json_cases template c master l0 l1 l2)
      as [(prs' & Hrun' & _ & Hslides)|[Hrun' _]]; try done; [|congruence].
    rewrite Hrun in Hrun'. injection Hrun' as <-.
    exists (title_slide l1 c), (agenda_slide l0 c),
      (content_slides l0 (main c) 0 (agenda c)), (new_slide l2).
    split; [done|]. split; [done|]. split; [done|]. split; [done|]. split; [|done].
    apply content_slides_layout.
Qed.

Lemma layouts_taken_by_position_witness :
  exists prs title_s agenda_s content_s closing_s,
    create_slides_from_json template_abc lecture_xyz = Ok prs /\
    slides prs = slides template_abc ++ [title_s; agenda_s] ++ content_s ++ [closing_s] /\
    title_s = title_slide (layout_named "second") lecture_xyz /\
    slide_layout title_s = layout_named "second" /\
    slide_layout agenda_s = layout_named "first" /\
    Forall (fun s => slide_layout s = layout_named "first") content_s /\
    slide_layout closing_s = layout_named "third".
Proof.
  destruct (layouts_taken_by_position template_abc lecture_xyz
              {| slide_layouts := [layout_named "first"; layout_named "second";
                                   layout_named "third"] |}
              (layout_named "first") (layout_named "second") (layout_named "third")
              eq_refl eq_refl eq_refl eq_refl) as [Hsome Hall].
  destruct Hsome as [prs Hrun]; [decide_closed|].
  exists prs.
  destruct (Hall prs Hrun) as (title_s & agenda_s & content_s & closing_s & Hrest).
  by exists title_s, agenda_s, content_s, closing_s.
Defined.

(** C2, as stated, fails: on the template whose layouts are, by position,
    "first", "second" and "third", the title slide is not made from the
    layout at position 0 (it is made from "second"), and the first
    content slide is not made from the layout at position 1 (it is made
    from "first"). *)
Lemma layouts_title_content_closing_counterexample :
  exists prs master,
    create_slides_from_json template_abc lecture_xyz = Ok prs /\
    slide_masters template_abc !! 0 = Some master /\
    slide_layout <$> slides prs !! 0 <> slide_layouts master !! 0 /\
    slide_layout <$> slides prs !! 0 = slide_layouts master !! 1 /\
    slide_layout <$> slides prs !! 2 <> slide_layouts master !! 1 /\
    slide_layout <$> slides prs !! 2 = slide_layouts master !! 0.
Proof.
  eexists _, _. split; [reflexivity|]. split; [reflexivity|].
  repeat split; try reflexivity; vm_compute; discriminate.
Qed.

(** C7, as the code has it. When an agenda entry is no key of [main],
    the builder makes no content slide for it: a deck it returns goes
    from the slides of the entries before it straight to those of the
    entries after it, which keep the slides and the numbers they have by
    their own place in the agenda.  The missing key raises nothing: the
    builder does what it does when the entry is a key with an empty
    slide list, and it returns a deck for every structure object without
    a text that XML cannot carry. *)
Theorem agenda_entry_without_key_is_dropped
    template c master l0 l1 l2 before a after :
  slide_masters template !! 0 = Some master ->
  slide_layouts master !! 0 = Some l0 ->
  slide_layouts master !! 1 = Some l1 ->
  slide_layouts master !! 2 = Some l2 ->
  agenda c = before ++ a :: after ->
  main c !! a = None ->
  (xml_compatible_content c -> exists prs, create_slides_from_json template c = Ok prs) /\
  (forall prs,
     create_slides_from_json template c = Ok prs ->
     slides prs = slides template
                  ++ [title_slide l1 c; agenda_slide l0 c]
                  ++ content_slides l0 (main c) 0 before
                  ++ content_slides l0 (main c) (S (length before)) after
                  ++ [new_slide l2]) /\
  create_slides_from_json template c
  = create_slides_from_json template
      {| title := title c; agenda := agenda c; main := <[a := []]> (main c) |}.
Proof.
  intros Hm H0 H1 H2 Hagenda Hnone. split; [|split].
  - by apply (create_slides_from_json_compatible template c master l0 l1 l2).
  - intros prs Hrun.
    destruct (create_slides_from_json_cases template c master l0 l1 l2)
      as [(prs' & Hrun' & _ & Hslides)|[Hrun' _]]; try done; [|congruence].
    rewrite Hrun in Hrun'. injection Hrun' as <-.
    rewrite Hslides, Hagenda.
    rewrite content_slides_app, content_slides_cons.
    unfold entry_slides at 1. rewrite Hnone. simpl.
    by rewrite <- !app_assoc.
  - unfold create_slides_from_json, index. cbn [title agenda main].
    rewrite Hm. result_step. rewrite H0. result_step.
    rewrite H1. result_step. rewrite H2. result_step.
    destruct (fill (title c) None (new_slide l1)) as [slide_start|e];
      result_step; [|done].
    destruct (fill (lit "アジェンダ") (Some (agenda_text (agenda c))) (new_slide l0))
      as [slide_agenda|e]; result_step; [|done].
    cbv zeta.
    rewrite (agenda_loop_ext l0 (main c) (<[a := []]> (main c))); [done|].
    intros b _. destruct (decide (b = a)) as [->|Hne].
    + by rewrite Hnone, lookup_insert_eq.
    + by rewrite lookup_insert_ne.
Qed.

Lemma agenda_entry_without_key_is_dropped_witness :
  exists prs,
    create_slides_from_json template_abc lecture_xyz = Ok prs /\
    slides prs = slides template_abc
                 ++ [title_slide (layout_named "second") lecture_xyz;
                     agenda_slide (layout_named "first") lecture_xyz]
                 ++ content_slides (layout_named "first") (main lecture_xyz) 0 [lit "A"]
                 ++ content_slides (layout_named "first") (main lecture_xyz) 2 [lit "C"]
                 ++ [new_slide (layout_named "third")].
Proof.
  destruct (agenda_entry_without_key_is_dropped template_abc lecture_xyz
              {| slide_layouts := [layout_named "first"; layout_named "second";
                                   layout_named "third"] |}
              (layout_named "first") (layout_named "second") (layout_named "third")
              [lit "A"] (lit "B") [lit "C"]
              eq_refl eq_refl eq_refl eq_refl eq_refl eq_refl) as (Hsome & Hall & _).
  destruct Hsome as [prs Hrun]; [decide_closed|].
  exists prs. split; [done|]. by apply Hall.
Defined.

(** C7, as stated, fails: the lecture whose second agenda entry, "B", is
    no key of [main] and whose title ends with U+FFFF makes the builder
    raise [ValueError]. *)
Lemma agenda_entry_without_key_counterexample :
  agenda lecture_uffff !! 1 = Some (lit "B") /\
  main lecture_uffff !! lit "B" = None /\
  create_slides_from_json template_abc lecture_uffff = Raise ValueError.
Proof. repeat split; reflexivity. Qed.
(* ===================================================================== *)
(** * The agenda slide and its re-parser *)
(* ===================================================================== *)

Section AgendaRoundTrip.

Lemma foldl_digits_of_uint d acc :
  foldl (fun acc c => acc * 10 + N.to_nat (c - 48)) acc (digits_of_uint d)
  = Nat.of_uint_acc d acc.
Proof.
  revert acc. induction d; intros acc; simpl; [done|..];
    rewrite IHd; f_equal; rewrite Nat.tail_mul_spec; lia.
Qed.

Lemma nat_of_digits_str_of_nat n : nat_of_digits (str_of_nat n) = n.
Proof.
  unfold nat_of_digits, str_of_nat. rewrite foldl_digits_of_uint.
  apply DecimalNat.Unsigned.of_to.
Qed.

Lemma str_of_nat_nonempty n : str_of_nat n <> [].
Proof.
  unfold str_of_nat. intros Hnil.
  assert (Nat.to_uint n = Nil) as Hd by (destruct (Nat.to_uint n); done).
  pose proof (DecimalNat.Unsigned.of_to n) as Hn. rewrite Hd in Hn.
  simpl in Hn. subst n. discriminate Hd.
Qed.

Lemma take_while_app_stop {A} (p : A -> bool) l x r :
  Forall (fun c => p c = true) l -> p x = false ->
  take_while p (l ++ x :: r) = l.
Proof.
  intros Hl Hx. induction Hl as [|c l Hc _ IH]; simpl.
  - by rewrite Hx.
  - by rewrite Hc, IH.
Qed.

Lemma drop_while_app_stop {A} (p : A -> bool) l x r :
  Forall (fun c => p c = true) l -> p x = false ->
  drop_while p (l ++ x :: r) = x :: r.
Proof.
  intros Hl Hx. induction Hl as [|c l Hc _ IH]; simpl.
  - by rewrite Hx.
  - by rewrite Hc, IH.
Qed.

(** The re-parser reads a line the builder wrote back into its number
    and its item. *)
Lemma parse_agenda_line_emitted n item :
  parse_agenda_line (str_of_nat n ++ lit ". " ++ item) = Some (n, item).
Proof.
  unfold parse_agenda_line. change (lit ". " ++ item) with (DOT :: SPACE :: item).
  rewrite take_while_app_stop, drop_while_app_stop
    by (apply digits_of_uint_ascii || done).
  destruct (str_of_nat n) as [|d ds] eqn:Hd; [by apply str_of_nat_nonempty in Hd|].
  rewrite <- Hd, nat_of_digits_str_of_nat. reflexivity.
Qed.

Lemma split_lines_aux_no_NL cur l :
  NL ∉ l -> split_lines_aux cur l = [rev cur ++ l].
Proof.
  revert cur. induction l as [|c l IH]; intros cur Hl; simpl.
  - by rewrite app_nil_r.
  - apply not_elem_of_cons in Hl as [Hc Hl].
    destruct (N.eqb_spec c NL) as [->|_]; [done|].
    rewrite IH by done. simpl. by rewrite <- app_assoc.
Qed.

Lemma split_lines_aux_line cur l rest :
  NL ∉ l ->
  split_lines_aux cur (l ++ NL :: rest) = (rev cur ++ l) :: split_lines_aux [] rest.
Proof.
  revert cur. induction l as [|c l IH]; intros cur Hl; simpl.
  - by rewrite app_nil_r.
  - apply not_elem_of_cons in Hl as [Hc Hl].
    destruct (N.eqb_spec c NL) as [->|_]; [done|].
    rewrite IH by done. simpl. by rewrite <- app_assoc.
Qed.

(** Splitting at the line breaks undoes joining with line breaks, for
    lines that hold none. *)
Lemma split_lines_join lines :
  lines <> [] -> Forall (fun l => NL ∉ l) lines ->
  split_lines (join [NL] lines) = lines.
Proof.
  unfold split_lines. intros Hne Hall.
  induction Hall as [|l lines Hl Hall IH]; [done|].
  destruct lines as [|l' lines]; simpl.
  - by apply split_lines_aux_no_NL.
  - rewrite split_lines_aux_line by done. simpl. f_equal. by apply IH.
Qed.

Lemma join_cons_nonempty sep (l : str) ls : l <> [] -> join sep (l :: ls) <> [].
Proof. intros Hl. destruct ls; simpl; by destruct l. Qed.

Lemma str_of_nat_no_NL n : NL ∉ str_of_nat n.
Proof.
  intros Hin. pose proof (digits_of_uint_ascii (Nat.to_uint n)) as Hd.
  rewrite Forall_forall in Hd. by apply Hd in Hin.
Qed.

Lemma agenda_lines_parse (first : nat) agenda :
  mapM parse_agenda_line
       (imap (fun i item => str_of_nat (first + i + 1) ++ lit ". " ++ item) agenda)
  = Some (imap (fun i item => (first + i + 1, item)) agenda).
Proof.
  apply mapM_Some, Forall2_same_length_lookup. split.
  - by rewrite !length_imap.
  - intros i line pair Hline Hpair.
    apply list_lookup_imap_Some in Hline as (item & Hitem & ->).
    apply list_lookup_imap_Some in Hpair as (item' & Hitem' & ->).
    rewrite Hitem in Hitem'. injection Hitem' as <-.
    apply parse_agenda_line_emitted.
Qed.

(** Re-parsing the text the builder computes for the agenda slide's body
    gives the agenda back, when no entry holds a line break. *)
Lemma reparse_agenda_text (agenda : list str) :
  Forall (fun item => NL ∉ item) agenda ->
  reparse_agenda (agenda_text agenda) = Some (numbered agenda).
Proof.
  intros Hall. unfold reparse_agenda, agenda_text.
  destruct agenda as [|item agenda]; [done|].
  match goal with |- context [join [NL] ?l] => set (lines := l) end.
  assert (join [NL] lines <> []) as Hbody.
  { subst lines. rewrite imap_cons. apply join_cons_nonempty.
    pose proof (str_of_nat_nonempty (0 + 1)).
    by destruct (str_of_nat (0 + 1)). }
  destruct (join [NL] lines) as [|c body] eqn:Hjoin; [done|].
  rewrite <- Hjoin, split_lines_join.
  - apply (agenda_lines_parse 0).
  - subst lines. by rewrite imap_cons.
  - subst lines. apply Forall_forall. intros line Hline.
    apply list_elem_of_lookup in Hline as [i Hline].
    apply list_lookup_imap_Some in Hline as (it & Hit & ->).
    rewrite !not_elem_of_app. split; [apply str_of_nat_no_NL|].
    split; [decide_closed|].
    rewrite Forall_forall in Hall. apply Hall.
    eapply list_elem_of_lookup_2; eauto.
Qed.

(** The text of the agenda slide's body is stored as it is when the
    entries are plain. *)
Lemma stored_agenda_text_plain (agenda : list str) :
  Forall plain agenda -> stored_text (agenda_text agenda) = agenda_text agenda.
Proof.
  intros Hall. unfold agenda_text. rewrite stored_text_join_NL. f_equal.
  rewrite fmap_imap. apply imap_ext. intros i item Hitem. cbn [compose].
  rewrite stored_text_numbered, (stored_text_plain item); [done|].
  eapply Forall_lookup_1; [exact Hall|exact Hitem].
Qed.

(** What [filled] leaves in the placeholders 13 and 14. *)
Lemma placeholder_texts_13_filled header body s :
  Forall (fun text => text = stored_text header)
         (placeholder_texts 13 (filled header body s)).
Proof.
  unfold placeholder_texts, filled. cbn [placeholders].
  induction (placeholders s) as [|p l IH]; [constructor|].
  cbn [fmap list_fmap omap list_omap].
  destruct (p.1 =? 13) eqn:H13; cbn [fst snd]; [rewrite H13; by constructor|].
  destruct (p.1 =? 14) eqn:H14; [destruct body|]; cbn [fst]; by rewrite H13.
Qed.

Lemma placeholder_texts_14_filled header b s :
  Forall (fun text => text = stored_text b)
         (placeholder_texts 14 (filled header (Some b) s)).
Proof.
  unfold placeholder_texts, filled. cbn [placeholders].
  induction (placeholders s) as [|p l IH]; [constructor|].
  cbn [fmap list_fmap omap list_omap].
  destruct (p.1 =? 13) eqn:H13; cbn [fst snd].
  - apply Nat.eqb_eq in H13. rewrite H13. done.
  - destruct (p.1 =? 14) eqn:H14; cbn [fst snd]; rewrite H14; [by constructor|done].
Qed.

(** C8, as the code has it. For every agenda none of whose entries holds
    a line break or a character a text frame does not keep as it is,
    the deck the builder returns has the agenda slide as its second new
    slide, and re-parsing the body text of that slide (the text of its
    placeholder 14) gives the agenda back, entry by entry in its order,
    each with its number from 1 to N. *)
Theorem agenda_roundtrip_without_line_breaks
    (template : presentation) (c : content) (prs : presentation) :
  create_slides_from_json template c = Ok prs ->
  Forall (fun item => (NL ∉ item) /\ plain item) (agenda c) ->
  exists agenda_s,
    slides prs !! (length (slides template) + 1) = Some agenda_s /\
    Forall (fun text => text = agenda_text (agenda c) /\
                        reparse_agenda text = Some (numbered (agenda c)))
           (placeholder_texts 14 agenda_s).
Proof.
  intros Hrun Hall.
  apply create_slides_from_json_Ok_inv in Hrun
    as (master & l0 & l1 & l2 & _ & _ & _ & _ & _ & Hslides).
  exists (agenda_slide l0 c). split.
  - rewrite Hslides, lookup_app_r by lia.
    by replace (length (slides template) + 1 - length (slides template)) with 1 by lia.
  - eapply Forall_impl; [apply placeholder_texts_14_filled|].
    intros text ->. rewrite stored_agenda_text_plain.
    + split; [done|]. apply reparse_agenda_text.
      eapply Forall_impl; [exact Hall|]. by intros item [? _].
    + eapply Forall_impl; [exact Hall|]. by intros item [_ ?].
Qed.

Lemma agenda_roundtrip_without_line_breaks_witness :
  exists agenda_s,
    slides (add_slide (add_slide template_abc
                         (title_slide (layout_named "second") lecture_xyz))
                      (agenda_slide (layout_named "first") lecture_xyz))
      !! (length (slides template_abc) + 1) = Some agenda_s /\
    Forall (fun text => text = agenda_text (agenda lecture_xyz) /\
                        reparse_agenda text = Some (numbered (agenda lecture_xyz)))
           (placeholder_texts 14 agenda_s).
Proof.
  destruct (agenda_roundtrip_without_line_breaks template_abc lecture_xyz
              _ eq_refl) as (agenda_s & Hlookup & Htexts).
  - repeat constructor; decide_closed.
  - exists agenda_s. split; [|done]. exact Hlookup.
Defined.

(** C8, as stated, fails.  The one-entry agenda whose entry reads "a",
    a line break, "2. b" is re-parsed as the two entries "a" and "b";
    and the one-entry agenda whose entry reads "a", a carriage return,
    "b" is re-parsed as the entry "a_x000D_b", which is what the agenda
    slide holds. *)
Lemma agenda_roundtrip_counterexample :
  (exists prs agenda_s text,
     create_slides_from_json template_abc
       (agenda_only [lit "a" ++ [NL] ++ lit "2. b"]) = Ok prs /\
     slides prs !! 1 = Some agenda_s /\
     placeholder_texts 14 agenda_s = [text] /\
     reparse_agenda text = Some [(1, lit "a"); (2, lit "b")] /\
     reparse_agenda text <> Some (numbered [lit "a" ++ [NL] ++ lit "2. b"])) /\
  (exists prs agenda_s text,
     create_slides_from_json template_abc
       (agenda_only [lit "a" ++ [13%N] ++ lit "b"]) = Ok prs /\
     slides prs !! 1 = Some agenda_s /\
     placeholder_texts 14 agenda_s = [text] /\
     reparse_agenda text = Some [(1, lit "a_x000D_b")] /\
     reparse_agenda text <> Some (numbered [lit "a" ++ [13%N] ++ lit "b"])).
Proof.
  split; eexists _, _, _;
    (split; [reflexivity|]); (split; [reflexivity|]); (split; [reflexivity|]);
    (split; [reflexivity|]); vm_compute; discriminate.
Qed.

(** No re-parser could do better: that agenda and the two-entry agenda
    "a", "b" are written as the same body text. *)
Lemma agenda_text_not_injective :
  agenda_text [lit "a" ++ [NL] ++ lit "2. b"] = agenda_text [lit "a"; lit "b"].
Proof. reflexivity. Qed.

End AgendaRoundTrip.

(* ===================================================================== *)
(** * Writing the notes back *)
(* ===================================================================== *)

Section NotesWriteBack.
Context `{Interpreter}.

Lemma drop_while_nil_iff {A} (p : A -> bool) l :
  drop_while p l = [] <-> Forall (fun c => p c = true) l.
Proof.
  induction l as [|c l IH]; simpl; [by split|].
  destruct (p c) eqn:Hc.
  - rewrite IH. split; [by constructor|by inversion 1].
  - split; [done|]. inversion 1; congruence.
Qed.

Lemma Forall_drop_while {A} (p : A -> bool) l :
  Forall (fun c => p c = true) (drop_while p l) <-> Forall (fun c => p c = true) l.
Proof.
  induction l as [|c l IH]; simpl; [done|].
  destruct (p c) eqn:Hc; [|done].
  rewrite IH. split; [by constructor|by inversion 1].
Qed.

Lemma Forall_rev_iff {A} (P : A -> Prop) l : Forall P (rev l) <-> Forall P l.
Proof.
  split; intros Hl; [rewrite <- (rev_involutive l)|]; by apply Forall_rev.
Qed.

(** Stripping leaves nothing exactly of the texts that are whitespace
    all through. *)
Lemma strip_nil_iff (s : str) :
  strip s = [] <-> Forall (fun c => isspace c = true) s.
Proof.
  unfold strip.
  rewrite <- (Forall_drop_while isspace s), <- (Forall_rev_iff _ (drop_while isspace s)).
  rewrite <- drop_while_nil_iff.
  split; [|by intros ->].
  intros Hrev. apply (f_equal (@rev _)) in Hrev. by rewrite rev_involutive in Hrev.
Qed.

Lemma truthy_strip_false (s : str) :
  Forall (fun c => isspace c = true) s -> truthy (strip s) = false.
Proof. intros Hs. apply strip_nil_iff in Hs. by rewrite Hs. Qed.

Lemma truthy_strip_true (s : str) :
  Exists (fun c => isspace c = false) s -> truthy (strip s) = true.
Proof.
  intros Hs. destruct (strip s) eqn:Hstrip; [|done].
  apply strip_nil_iff in Hstrip. exfalso.
  apply Exists_exists in Hs as (c & Hin & Hc).
  rewrite Forall_forall in Hstrip. apply Hstrip in Hin. congruence.
Qed.

Lemma write_notes_cases (b : str) s :
  write_notes b s = Ok (with_notes b s) /\ xml_compatible (notes_to_write b s) \/
  write_notes b s = Raise ValueError /\ ~ xml_compatible (notes_to_write b s).
Proof.
  unfold write_notes, with_notes, notes_to_write. cbv zeta.
  destruct (set_text_cases (if truthy (strip (default [] (notes s)))
                            then default [] (notes s) ++ [NL; NL] ++ b else b))
    as [[-> ?]|[-> ?]]; result_step; [by left|by right].
Qed.

(** The write-back loop either returns the deck in which the slides
    below the entry index are as they were and slide [i + k] has received
    entry [k] still to visit, if there is one; or it raises [ValueError],
    which it does exactly when one of the texts to assign is one lxml
    refuses. *)
Lemma notes_loop_cases i (todo : list str) prs :
  (exists prs',
     notes_loop i todo prs = Ok prs' /\
     slide_masters prs' = slide_masters prs /\
     (forall j, slides prs' !! j
                = if decide (j < i) then slides prs !! j
                  else match todo !! (j - i) with
                       | Some b => with_notes b <$> slides prs !! j
                       | None => slides prs !! j
                       end) /\
     (forall k s (b : str),
        slides prs !! (i + k) = Some s -> todo !! k = Some b ->
        xml_compatible (notes_to_write b s))) \/
  notes_loop i todo prs = Raise ValueError /\
  exists k s (b : str),
    slides prs !! (i + k) = Some s /\ todo !! k = Some b /\
    ~ xml_compatible (notes_to_write b s).
Proof.
  revert i prs. induction todo as [|b todo IH]; intros i prs.
  - left. exists prs. split; [done|]. split; [done|]. split; [|done].
    intros j. by destruct (decide (j < i)).
  - cbn [notes_loop]. destruct (Nat.ltb_spec i (length (slides prs))) as [Hlt|Hge].
    + destruct (lookup_lt_is_Some_2 _ _ Hlt) as [s Hs].
      unfold index. rewrite Hs. result_step.
      destruct (write_notes_cases b s) as [[-> Hok]|[-> Hbad]]; result_step.
      2:{ right. split; [done|]. exists 0, s, b. by rewrite Nat.add_0_r. }
      match goal with |- context [notes_loop (S i) todo ?p] => set (prs1 := p) end.
      assert (forall j, j <> i -> slides prs1 !! j = slides prs !! j) as Hother.
      { intros j Hj. subst prs1. cbn [slides]. by rewrite list_lookup_insert_ne. }
      assert (slides prs1 !! i = Some (with_notes b s)) as Hhere.
      { subst prs1. cbn [slides]. by rewrite list_lookup_insert_eq. }
      destruct (IH (S i) prs1)
        as [(prs' & -> & Hm & Hlook & Hcompat)|[-> (k & s' & b' & Hs' & Hb' & Hbad)]].
      * left. exists prs'. split; [done|]. split; [done|]. split.
        -- intros j. rewrite Hlook.
           destruct (decide (j < S i)), (decide (j < i)); try lia.
           ++ by apply Hother, Nat.lt_neq.
           ++ assert (j = i) as -> by lia. by rewrite Hhere, Nat.sub_diag, Hs.
           ++ replace (j - i) with (S (j - S i)) by lia. cbn [lookup list_lookup].
              rewrite Hother by lia. done.
        -- intros k s0 b0 Hs0 Hb0. destruct k as [|k].
           ++ rewrite Nat.add_0_r, Hs in Hs0. injection Hs0 as <-.
              injection Hb0 as <-. done.
           ++ apply (Hcompat k); [|done].
              rewrite Hother by lia. by replace (S i + k) with (i + S k) by lia.
      * right. split; [done|]. exists (S k), s', b'. split; [|done].
        rewrite Hother in Hs' by lia. by replace (i + S k) with (S i + k) by lia.
    + result_step.
      destruct (IH (S i) prs)
        as [(prs' & -> & Hm & Hlook & Hcompat)|[-> (k & s' & b' & Hs' & Hb' & Hbad)]].
      * left. exists prs'. split; [done|]. split; [done|]. split.
        -- intros j. rewrite Hlook.
           destruct (decide (j < S i)), (decide (j < i)); try lia; try done.
           ++ assert (j = i) as -> by lia.
              by rewrite Nat.sub_diag, (lookup_ge_None_2 (slides prs)).
           ++ by replace (j - i) with (S (j - S i)) by lia.
        -- intros k s0 b0 Hs0 Hb0. destruct k as [|k].
           ++ rewrite Nat.add_0_r, lookup_ge_None_2 in Hs0 by done. done.
           ++ apply (Hcompat k); [|done]. by replace (S i + k) with (i + S k) by lia.
      * right. split; [done|]. exists (S k), s', b'. split; [|done].
        by replace (i + S k) with (S i + k) by lia.
Qed.

Lemma writable_lookup prs (notes_list : list str) :
  writable prs notes_list <->
  forall i s (b : str),
    slides prs !! i = Some s -> notes_list !! i = Some b ->
    xml_compatible (notes_to_write b s).
Proof.
  unfold writable. rewrite Forall_lookup. split.
  - intros Hall i s b Hs Hb. apply (Hall i (s, b)).
    apply lookup_zip_with_Some. by exists s, b.
  - intros Hall i [s b] Hsb.
    apply lookup_zip_with_Some in Hsb as (s' & b' & [= -> ->] & Hs & Hb).
    by apply (Hall i).
Qed.

(** The write-back raises nothing exactly when no text it assigns is one
    lxml refuses; it raises nothing but [ValueError]. *)
Lemma add_notes_to_pptx_cases prs (notes_list : list str) :
  (exists prs',
     add_notes_to_pptx prs notes_list = Ok prs' /\
     writable prs notes_list /\
     slide_masters prs' = slide_masters prs /\
     forall j, slides prs' !! j
               = match notes_list !! j with
                 | Some b => with_notes b <$> slides prs !! j
                 | None => slides prs !! j
                 end) \/
  add_notes_to_pptx prs notes_list = Raise ValueError /\ ~ writable prs notes_list.
Proof.
  pose proof (writable_lookup prs notes_list) as Hiff. unfold add_notes_to_pptx.
  destruct (notes_loop_cases 0 notes_list prs)
    as [(prs' & -> & Hm & Hlook & Hcompat)|[-> (k & s & b & Hs & Hb & Hbad)]].
  - left. exists prs'. split; [done|]. split; [|split; [done|]].
    + apply Hiff. intros i s b Hs Hb. by apply (Hcompat i).
    + intros j. rewrite Hlook. destruct (decide (j < 0)); [lia|].
      by rewrite Nat.sub_0_r.
  - right. split; [done|]. intros Hw. apply Hbad. by apply (proj1 Hiff Hw k).
Qed.

Lemma add_notes_to_pptx_writable prs (notes_list : list str) :
  writable prs notes_list -> exists prs', add_notes_to_pptx prs notes_list = Ok prs'.
Proof.
  intros Hw. destruct (add_notes_to_pptx_cases prs notes_list)
    as [(prs' & Hrun & _)|[_ Hbad]]; [by exists prs'|done].
Qed.

Lemma add_notes_lookup prs (notes_list : list str) prs' j :
  add_notes_to_pptx prs notes_list = Ok prs' ->
  slides prs' !! j
  = match notes_list !! j with
    | Some b => with_notes b <$> slides prs !! j
    | None => slides prs !! j
    end.
Proof.
  intros Hrun. destruct (add_notes_to_pptx_cases prs notes_list)
    as [(prs'' & Hrun' & _ & _ & Hlook)|[Hrun' _]]; [|congruence].
  rewrite Hrun in Hrun'. injection Hrun' as <-. apply Hlook.
Qed.

Lemma add_notes_length prs (notes_list : list str) prs' :
  add_notes_to_pptx prs notes_list = Ok prs' ->
  length (slides prs') = length (slides prs).
Proof.
  intros Hrun.
  destruct (Nat.lt_trichotomy (length (slides prs')) (length (slides prs)))
    as [Hlt|[Heq|Hgt]]; [|done|].
  - apply lookup_lt_is_Some_2 in Hlt as [s Hs].
    pose proof (lookup_ge_None_2 (slides prs') (length (slides prs')) (Nat.le_refl _))
      as Hnone.
    rewrite (add_notes_lookup _ _ _ _ Hrun), Hs in Hnone.
    by destruct (notes_list !! _).
  - apply lookup_lt_is_Some_2 in Hgt as [s Hs].
    rewrite (add_notes_lookup _ _ _ _ Hrun), (lookup_ge_None_2 (slides prs)) in Hs
      by done.
    by destruct (notes_list !! _).
Qed.

Lemma presentation_eq (p q : presentation) :
  slide_masters p = slide_masters q -> slides p = slides q -> p = q.
Proof. destruct p, q. simpl. by intros -> ->. Qed.

(** C5, as the code has it. For every deck and every notes list: the
    write-back raises nothing when no text it assigns is one XML cannot
    carry.  When it raises nothing, it keeps the number of slides; the
    slide at index i, for i below both the list's length and the slide
    count, keeps its layout and placeholders and has as notes the text
    made of its old notes and notes_list[i], as a text frame stores it,
    which ends with notes_list[i] itself when that is plain; the slides
    at or beyond the list's length are as they were.  And the entries at
    or beyond the slide count are dropped, whatever they hold: the
    outcome is that for the list cut to the slide count. *)
Theorem notes_written_by_position (prs : presentation) (notes_list : list str) :
  (writable prs notes_list -> exists prs', add_notes_to_pptx prs notes_list = Ok prs') /\
  (forall prs',
     add_notes_to_pptx prs notes_list = Ok prs' ->
     slide_masters prs' = slide_masters prs /\
     length (slides prs') = length (slides prs) /\
     (forall i s (b : str),
        slides prs !! i = Some s -> notes_list !! i = Some b ->
        exists s',
          slides prs' !! i = Some s' /\
          slide_layout s' = slide_layout s /\
          placeholders s' = placeholders s /\
          notes s' = Some (stored_text (notes_to_write b s)) /\
          (plain b -> exists before : str, notes s' = Some (before ++ b))) /\
     (forall i,
        length notes_list <= i -> slides prs' !! i = slides prs !! i)) /\
  add_notes_to_pptx prs notes_list
  = add_notes_to_pptx prs (take (length (slides prs)) notes_list).
Proof.
  split; [apply add_notes_to_pptx_writable|]. split.
  - intros prs' Hrun.
    destruct (add_notes_to_pptx_cases prs notes_list)
      as [(prs'' & Hrun' & _ & Hm & _)|[Hrun' _]]; [|congruence].
    rewrite Hrun in Hrun'. injection Hrun' as <-.
    split; [done|]. split; [by apply (add_notes_length prs notes_list)|]. split.
    + intros i s b Hs Hb. exists (with_notes b s).
      split; [by rewrite (add_notes_lookup _ _ _ _ Hrun), Hb, Hs|].
      split; [done|]. split; [done|]. split; [done|].
      intros Hplain. cbn [with_notes notes]. unfold notes_to_write.
      destruct (truthy (strip (default [] (notes s)))).
      * exists (stored_text (default [] (notes s)) ++ stored_text [NL; NL]).
        rewrite !stored_text_app, (stored_text_plain b Hplain).
        by rewrite <- app_assoc.
      * exists []. by rewrite (stored_text_plain b Hplain).
    + intros i Hi. by rewrite (add_notes_lookup _ _ _ _ Hrun), lookup_ge_None_2.
  - assert (writable prs notes_list
            <-> writable prs (take (length (slides prs)) notes_list)) as Hiff.
    { rewrite !writable_lookup. split; intros Hw i s b Hs Hb.
      - apply (Hw i); [done|]. by apply lookup_take_Some in Hb as [? _].
      - apply (Hw i); [done|]. rewrite lookup_take_lt; [done|].
        by apply lookup_lt_Some in Hs. }
    destruct (add_notes_to_pptx_cases prs notes_list)
      as [(p1 & Hrun1 & Hw1 & Hm1 & Hl1)|[Hrun1 Hbad1]],
       (add_notes_to_pptx_cases prs (take (length (slides prs)) notes_list))
      as [(p2 & Hrun2 & Hw2 & Hm2 & Hl2)|[Hrun2 Hbad2]];
      rewrite Hrun1, Hrun2; try tauto.
    f_equal. apply presentation_eq; [congruence|].
    apply list_eq. intros j. rewrite Hl1, Hl2.
    destruct (decide (j < length (slides prs))).
    + by rewrite lookup_take_lt.
    + rewrite !(lookup_ge_None_2 (slides prs)) by lia.
      by destruct (notes_list !! j), (take _ notes_list !! j).
Qed.

(** C4, as the code has it. When slide i holds notes text T with a
    character that is not whitespace, notes_list[i] is B, T and B are
    plain, and no text the write-back assigns is one XML cannot carry,
    the write-back leaves T, a blank line and B; when the slide has no
    notes text, it leaves B alone. *)
Theorem notes_appended_after_existing_text
    (prs : presentation) (notes_list : list str) i s (b : str) :
  writable prs notes_list ->
  slides prs !! i = Some s ->
  notes_list !! i = Some b ->
  plain b ->
  exists prs',
    add_notes_to_pptx prs notes_list = Ok prs' /\
    (forall t : str,
       notes s = Some t -> Exists (fun c => isspace c = false) t -> plain t ->
       notes <$> slides prs' !! i = Some (Some (t ++ [NL; NL] ++ b))) /\
    (notes s = None \/ notes s = Some [] ->
     notes <$> slides prs' !! i = Some (Some b)).
Proof.
  intros Hw Hs Hb Hplain.
  destruct (add_notes_to_pptx_writable prs notes_list Hw) as [prs' Hrun].
  exists prs'. split; [done|].
  rewrite (add_notes_lookup _ _ _ _ Hrun), Hb, Hs. cbn [fmap option_fmap option_map].
  unfold with_notes, notes_to_write. cbn [notes]. split.
  - intros t Ht Hex Htplain. rewrite Ht. cbn [from_option id].
    rewrite truthy_strip_true by done. do 2 f_equal.
    apply stored_text_plain. apply Forall_app. split; [done|].
    apply Forall_app. split; [|done]. repeat constructor.
  - intros [Hn|Hn]; rewrite Hn; cbn [from_option id];
      change (truthy (strip [])) with false; cbv iota;
      by rewrite (stored_text_plain b Hplain).
Qed.

(** C10, as the code has it. When slide i holds notes text T that is
    whitespace all through, and notes_list[i] is B, the write-back
    leaves B alone, as a text frame stores it, which is B itself when B
    is plain: T is discarded and no separator is written. *)
Theorem blank_notes_are_overwritten
    (prs : presentation) (notes_list : list str) i s (t b : str) :
  writable prs notes_list ->
  slides prs !! i = Some s ->
  notes_list !! i = Some b ->
  notes s = Some t ->
  t <> [] ->
  Forall (fun c => isspace c = true) t ->
  exists prs',
    add_notes_to_pptx prs notes_list = Ok prs' /\
    notes <$> slides prs' !! i = Some (Some (stored_text b)) /\
    (plain b -> notes <$> slides prs' !! i = Some (Some b)).
Proof.
  intros Hw Hs Hb Ht _ Hblank.
  destruct (add_notes_to_pptx_writable prs notes_list Hw) as [prs' Hrun].
  exists prs'. split; [done|].
  rewrite (add_notes_lookup _ _ _ _ Hrun), Hb, Hs. cbn [fmap option_fmap option_map].
  unfold with_notes, notes_to_write. cbn [notes]. rewrite Ht. cbn [from_option id].
  rewrite truthy_strip_false by done.
  split; [done|]. intros Hplain. by rewrite (stored_text_plain b Hplain).
Qed.

End NotesWriteBack.

(** C5, as stated, fails.  A note with a carriage return is not what the
    slide holds after the write-back: the slide holds the note with the
    carriage return escaped.  And a note with U+FFFF makes the
    write-back raise [ValueError]: nothing is assigned to any slide. *)
Lemma notes_written_by_position_counterexample :
  (exists prs',
     @add_notes_to_pptx cpython312 deck_without_notes [lit "x" ++ [13%N] ++ lit "y"]
     = Ok prs' /\
     notes <$> slides prs' !! 0 = Some (Some (lit "x_x000D_y")) /\
     notes <$> slides prs' !! 0 <> Some (Some (lit "x" ++ [13%N] ++ lit "y"))) /\
  @add_notes_to_pptx cpython312 deck_without_notes [[0xFFFF%N]] = Raise ValueError.
Proof.
  split; [|reflexivity].
  eexists. split; [reflexivity|]. split; [reflexivity|]. vm_compute. discriminate.
Qed.

(** The specification's example for C4: slide 1 holds "A" and receives
    "B"; it ends with "A", a blank line, "B". *)
Lemma notes_appended_after_existing_text_witness :
  exists prs',
    @add_notes_to_pptx cpython312 deck_with_A [lit "B"] = Ok prs' /\
    notes <$> slides prs' !! 0 = Some (Some (lit "A" ++ [NL; NL] ++ lit "B")).
Proof.
  destruct (@notes_appended_after_existing_text cpython312
              deck_with_A [lit "B"] 0
              (slide_with_notes (Some (lit "A"))) (lit "B"))
    as (prs' & Hrun & Happend & _).
  - decide_closed.
  - reflexivity.
  - reflexivity.
  - decide_closed.
  - exists prs'. split; [done|]. apply (Happend (lit "A")).
    + reflexivity.
    + apply Exists_cons_hd. reflexivity.
    + decide_closed.
Defined.

(** C4, as stated, fails.  A slide whose notes text is one space, which
    is not empty, and that receives "B" ends with "B", not with the
    space, a blank line and "B".  And a slide whose notes text is "A" and
    that receives "p", the control character U+0007, "q" ends with "A", a
    blank line and "p_x0007_q". *)
Lemma notes_appended_counterexample :
  (exists prs',
     @add_notes_to_pptx cpython312 (deck_with_notes [Some (lit " ")]) [lit "B"]
     = Ok prs' /\
     notes <$> slides prs' !! 0 = Some (Some (lit "B")) /\
     notes <$> slides prs' !! 0 <> Some (Some (lit " " ++ [NL; NL] ++ lit "B"))) /\
  (exists prs',
     @add_notes_to_pptx cpython312 deck_with_A [lit "p" ++ [7%N] ++ lit "q"]
     = Ok prs' /\
     notes <$> slides prs' !! 0 = Some (Some (lit "A" ++ [NL; NL] ++ lit "p_x0007_q")) /\
     notes <$> slides prs' !! 0
     <> Some (Some (lit "A" ++ [NL; NL] ++ lit "p" ++ [7%N] ++ lit "q"))).
Proof.
  split; eexists; (split; [reflexivity|]); (split; [reflexivity|]);
    vm_compute; discriminate.
Qed.

Lemma blank_notes_are_overwritten_witness :
  exists prs',
    @add_notes_to_pptx cpython312 (deck_with_notes [Some (lit " "); None]) [lit "B"]
    = Ok prs' /\
    notes <$> slides prs' !! 0 = Some (Some (lit "B")).
Proof.
  destruct (@blank_notes_are_overwritten cpython312
              (deck_with_notes [Some (lit " "); None]) [lit "B"] 0
              (slide_with_notes (Some (lit " "))) (lit " ") (lit "B"))
    as (prs' & Hrun & _ & Hplain).
  - decide_closed.
  - reflexivity.
  - reflexivity.
  - reflexivity.
  - discriminate.
  - repeat constructor.
  - exists prs'. split; [done|]. apply Hplain. decide_closed.
Defined.

(** C10, as stated, fails: a slide whose notes text is one space and that
    receives "x", a carriage return, "y" does not end with that string
    but with "x_x000D_y". *)
Lemma blank_notes_are_overwritten_counterexample :
  exists prs',
    @add_notes_to_pptx cpython312 (deck_with_notes [Some (lit " ")])
      [lit "x" ++ [13%N] ++ lit "y"] = Ok prs' /\
    notes <$> slides prs' !! 0 = Some (Some (lit "x_x000D_y")) /\
    notes <$> slides prs' !! 0 <> Some (Some (lit "x" ++ [13%N] ++ lit "y")).
Proof.
  eexists. split; [reflexivity|]. split; [reflexivity|]. vm_compute. discriminate.
Qed.

(* ===================================================================== *)
(** * Reading the images out of the archive *)
(* ===================================================================== *)

Section ImageExtraction.
Context `{Interpreter}.

Lemma take_drop_while {A} (p : A -> bool) l :
  take_while p l ++ drop_while p l = l.
Proof. induction l as [|x l IH]; simpl; [done|]. destruct (p x); simpl; by rewrite ?IH. Qed.

Lemma Forall_take_while {A} (p : A -> bool) l :
  Forall (fun x => p x = true) (take_while p l).
Proof. induction l as [|x l IH]; simpl; [done|]. destruct (p x) eqn:Hx; by constructor. Qed.

Lemma head_drop_while {A} (p : A -> bool) l x :
  head (drop_while p l) = Some x -> p x = false.
Proof.
  induction l as [|y l IH]; simpl; [done|].
  destruct (p y) eqn:Hy; [done|]. simpl. congruence.
Qed.

(** The search for [\d+] finds the first run of digits. *)
Lemma search_digits_Some s group :
  search_digits s = Some group -> first_digit_run s group.
Proof.
  unfold search_digits.
  pose proof (take_drop_while (fun c => negb (is_digit c)) s) as Hsplit.
  pose proof (Forall_take_while (fun c => negb (is_digit c)) s) as Hbefore.
  pose proof (head_drop_while (fun c => negb (is_digit c)) s) as Hhead.
  destruct (drop_while (fun c => negb (is_digit c)) s) as [|d r] eqn:Hr; [done|].
  intros Hgroup. apply (inj Some) in Hgroup. subst group.
  exists (take_while (fun c => negb (is_digit c)) s), (drop_while is_digit (d :: r)).
  split; [by rewrite take_drop_while|].
  split; [eapply Forall_impl; [exact Hbefore|]; intros c; simpl; by destruct (is_digit c)|].
  specialize (Hhead d eq_refl). apply negb_false_iff in Hhead.
  split; [simpl; by rewrite Hhead|].
  split; [apply Forall_take_while|].
  apply head_drop_while.
Qed.

Lemma search_digits_is_Some s :
  is_Some (search_digits s) <-> existsb is_digit s = true.
Proof.
  unfold search_digits. induction s as [|c s IH]; simpl.
  - split; [by intros [? ?]|done].
  - destruct (is_digit c); simpl; [by split; eauto|]. done.
Qed.

(** The number a run of digits writes, digit by digit. *)
Lemma int_value_digits ds :
  int_value ds = digits_value ((fun c => default 0%N (decimal c)) <$> ds).
Proof.
  unfold int_value.
  assert (forall acc,
            foldl (fun acc c => (acc * 10 + default 0 (decimal c))%N) acc ds
            = (acc * 10 ^ N.of_nat (length ds)
               + digits_value ((fun c => default 0%N (decimal c)) <$> ds))%N) as Hgen.
  { induction ds as [|d ds IH]; intros acc; simpl foldl.
    - simpl. lia.
    - rewrite IH. cbn [fmap list_fmap digits_value length]. rewrite length_fmap.
      rewrite Nat2N.inj_succ, N.pow_succ_r'. lia. }
  rewrite Hgen. lia.
Qed.

(** One round of the scan adds the entry when it is a slide image, with
    the number of its first run of digits, and nothing otherwise; it
    raises [ValueError] for a slide image whose run of digits [int()]
    does not convert. *)
Lemma scan_name_spec jpeg_files name :
  scan_name jpeg_files name
  = if is_slide_image name
    then if within_int_limit name
         then Ok (jpeg_files ++ [(slide_number name, name)])
         else Raise ValueError
    else Ok jpeg_files.
Proof.
  unfold scan_name, is_slide_image, within_int_limit, slide_number, int_of_digits.
  destruct (endswith name (lit "/")); simpl; [done|].
  destruct (str_contains name (lit "__MACOSX")); simpl; [done|].
  destruct (startswith (basename name) (lit ".")); simpl; [done|].
  destruct (endswith (lower name) (lit ".jpeg") || endswith (lower name) (lit ".jpg"));
    simpl; [|done].
  pose proof (search_digits_is_Some (basename name)) as Hsome.
  destruct (search_digits (basename name)) as [group|].
  - rewrite (proj1 Hsome) by done.
    by destruct ((0 <? int_max_str_digits) && (int_max_str_digits <? length group)).
  - destruct (existsb is_digit (basename name)); [|done].
    by destruct (proj2 Hsome eq_refl).
Qed.

(** The slide images of a list of names, each with its number. *)
Lemma numbered_by_first_run_slide_images (names : list str) :
  Forall numbered_by_first_run
         ((fun name => (slide_number name, name)) <$> List.filter is_slide_image names).
Proof.
  apply Forall_fmap, Forall_forall. intros name Hin.
  apply list_elem_of_In, filter_In in Hin as [_ Hkeep].
  unfold is_slide_image in Hkeep. apply andb_true_iff in Hkeep as [_ Hdigit].
  apply search_digits_is_Some in Hdigit as [group Hgroup].
  exists group. cbn [fst snd]. split; [by apply search_digits_Some|].
  unfold slide_number. rewrite Hgroup. apply int_value_digits.
Qed.

(** The scan keeps the slide images, in archive order, each with its
    number; it raises [ValueError] exactly when the run of digits of one
    of them is longer than [int()] converts. *)
Lemma scan_names_cases names jpeg_files :
  scan_names jpeg_files names
  = Ok (jpeg_files ++ ((fun name => (slide_number name, name))
                         <$> List.filter is_slide_image names)) /\
  Forall (fun name => within_int_limit name = true) (List.filter is_slide_image names)
  \/
  scan_names jpeg_files names = Raise ValueError /\
  ~ Forall (fun name => within_int_limit name = true)
           (List.filter is_slide_image names).
Proof.
  revert jpeg_files. induction names as [|name names IH]; intros jpeg_files.
  - left. by rewrite app_nil_r.
  - cbn [scan_names List.filter]. rewrite scan_name_spec.
    destruct (is_slide_image name); [|result_step; apply IH].
    destruct (within_int_limit name) eqn:Hlimit; result_step.
    + destruct (IH (jpeg_files ++ [(slide_number name, name)]))
        as [[-> Hall]|[-> Hbad]]; [left|right].
      * split; [by rewrite <- app_assoc|by constructor].
      * split; [done|]. intros Hall. apply Hbad. by inversion Hall.
    + right. split; [done|]. intros Hall. inversion Hall; congruence.
Qed.

Lemma sorted_jpeg_files_cases names :
  sorted_jpeg_files names
  = Ok (sort_by_key ((fun name => (slide_number name, name))
                       <$> List.filter is_slide_image names)) /\
  Forall (fun name => within_int_limit name = true) (List.filter is_slide_image names)
  \/
  sorted_jpeg_files names = Raise ValueError /\
  ~ Forall (fun name => within_int_limit name = true)
           (List.filter is_slide_image names).
Proof.
  unfold sorted_jpeg_files.
  destruct (scan_names_cases names []) as [[-> Hall]|[-> Hbad]];
    result_step; [by left|by right].
Qed.

Lemma insert_by_key_perm x l : Permutation (insert_by_key x l) (x :: l).
Proof.
  induction l as [|y l IH]; simpl; [done|].
  destruct (fst x <=? fst y)%N; [done|].
  rewrite IH. apply perm_swap.
Qed.

Lemma sort_by_key_perm l : Permutation (sort_by_key l) l.
Proof.
  induction l as [|x l IH]; simpl; [done|].
  rewrite insert_by_key_perm. by constructor.
Qed.

Lemma insert_by_key_sorted x l :
  StronglySorted (fun a b : N * str => (fst a <= fst b)%N) l ->
  StronglySorted (fun a b : N * str => (fst a <= fst b)%N) (insert_by_key x l).
Proof.
  induction 1 as [|y l Hsorted IH Hall]; simpl.
  - repeat constructor.
  - destruct (N.leb_spec (fst x) (fst y)) as [Hle|Hgt].
    + constructor; [by constructor|]. constructor; [done|].
      eapply Forall_impl; [exact Hall|]. intros z Hz. simpl in *. lia.
    + constructor; [done|].
      rewrite insert_by_key_perm. constructor; [lia|done].
Qed.

Lemma sort_by_key_sorted l :
  StronglySorted (fun a b : N * str => (fst a <= fst b)%N) (sort_by_key l).
Proof.
  induction l as [|x l IH]; simpl; [constructor|]. by apply insert_by_key_sorted.
Qed.

(** The sort is stable: entries with the same number keep their order. *)
Lemma insert_by_key_stable k x l :
  List.filter (fun p : N * str => (fst p =? k)%N) (insert_by_key x l)
  = List.filter (fun p : N * str => (fst p =? k)%N) (x :: l).
Proof.
  induction l as [|y l IH]; [done|]. cbn [insert_by_key].
  destruct (N.leb_spec (fst x) (fst y)) as [Hle|Hgt]; [done|].
  cbn [List.filter] in *. rewrite IH.
  destruct (N.eqb_spec (fst x) k), (N.eqb_spec (fst y) k); try done. lia.
Qed.

Lemma sort_by_key_stable k l :
  List.filter (fun p : N * str => (fst p =? k)%N) (sort_by_key l)
  = List.filter (fun p : N * str => (fst p =? k)%N) l.
Proof.
  induction l as [|x l IH]; [done|]. cbn [sort_by_key foldr].
  rewrite insert_by_key_stable. cbn [List.filter]. fold (sort_by_key l).
  by rewrite IH.
Qed.

Context `{Platform}.

(** The images are those of the names, loaded in the order of the
    names. *)
Lemma load_images_Ok zf jpeg_files images :
  load_images zf jpeg_files = Ok images ->
  Forall2 (fun name image =>
             exists data, zf_read zf name = Some data /\ image_open data = Ok image)
          (snd <$> jpeg_files) images.
Proof.
  revert images. induction jpeg_files as [|[num name] rest IH]; intros images; simpl.
  - intros [= <-]. constructor.
  - destruct (zf_read zf name) as [data|] eqn:Hread; [|done].
    destruct (image_open data) as [image|] eqn:Hopen; [|done]. simpl.
    destruct (load_images zf rest) as [images'|]; [|done]. simpl.
    intros [= <-]. constructor; eauto.
Qed.

Lemma filter_number_pairs k (names : list str) :
  snd <$> List.filter (fun p : N * str => (fst p =? k)%N)
                      ((fun name => (slide_number name, name)) <$> names)
  = List.filter (fun name => (slide_number name =? k)%N) names.
Proof.
  induction names as [|name names IH]; [done|]. cbn [fmap list_fmap List.filter fst].
  destruct (slide_number name =? k)%N; cbn [fmap list_fmap snd]; by rewrite <- IH.
Qed.

(** C6, as the code has it. For an archive in which no slide image (no
    directory entry, no OS metadata, no hidden file, a .jpeg or .jpg
    extension, a digit in the base name) has a first run of digits longer
    than [int()] converts, [extract_images_from_zip] keeps exactly the
    slide images; each goes by the number its first run of digits
    writes; the kept entries are in ascending order of that number,
    whatever their order in the archive, entries of equal number keeping
    theirs; the images returned are those of the kept entries, in that
    order; and "slide10.jpeg", "slide2.jpeg" come out as 2 before 10.
    For every other archive the function raises [ValueError] and keeps
    nothing. *)
Theorem images_kept_and_ordered_by_number (zf : zip_archive) :
  (Forall (fun name => within_int_limit name = true)
          (List.filter is_slide_image (namelist zf)) ->
   exists jpeg_files, sorted_jpeg_files (namelist zf) = Ok jpeg_files) /\
  (~ Forall (fun name => within_int_limit name = true)
            (List.filter is_slide_image (namelist zf)) ->
   extract_images_from_zip zf = Raise ValueError) /\
  (forall jpeg_files,
     sorted_jpeg_files (namelist zf) = Ok jpeg_files ->
     Permutation (snd <$> jpeg_files) (List.filter is_slide_image (namelist zf)) /\
     Forall numbered_by_first_run jpeg_files /\
     StronglySorted (fun a b : N * str => (fst a <= fst b)%N) jpeg_files /\
     (forall k,
        snd <$> List.filter (fun p : N * str => (fst p =? k)%N) jpeg_files
        = List.filter (fun name => (slide_number name =? k)%N)
                      (List.filter is_slide_image (namelist zf))) /\
     (forall images,
        extract_images_from_zip zf = Ok images ->
        Forall2 (fun name image =>
                   exists data, zf_read zf name = Some data /\ image_open data = Ok image)
                (snd <$> jpeg_files) images)) /\
  @sorted_jpeg_files cpython312 [lit "slide10.jpeg"; lit "slide2.jpeg"]
  = Ok [(2%N, lit "slide2.jpeg"); (10%N, lit "slide10.jpeg")].
Proof.
  split; [|split; [|split; [|reflexivity]]].
  - intros Hall. destruct (sorted_jpeg_files_cases (namelist zf)) as [[-> _]|[_ Hbad]];
      [by eexists|done].
  - intros Hbad. unfold extract_images_from_zip.
    by destruct (sorted_jpeg_files_cases (namelist zf)) as [[_ Hall]|[-> _]].
  - intros jpeg_files Hscan.
    destruct (sorted_jpeg_files_cases (namelist zf)) as [[Hscan' _]|[Hscan' _]];
      [|congruence].
    rewrite Hscan in Hscan'. injection Hscan' as ->.
    split; [|split; [|split; [|split]]].
    + rewrite sort_by_key_perm. clear Hscan.
      induction (List.filter is_slide_image (namelist zf)) as [|name l IH];
        [done|]. cbn [fmap list_fmap snd]. by apply perm_skip.
    + eapply Forall_forall. intros pair Hin.
      pose proof (numbered_by_first_run_slide_images (namelist zf)) as Hall.
      rewrite Forall_forall in Hall. apply Hall.
      by rewrite <- (sort_by_key_perm _).
    + apply sort_by_key_sorted.
    + intros k. rewrite sort_by_key_stable. apply filter_number_pairs.
    + intros images. unfold extract_images_from_zip. rewrite Hscan. result_step.
      apply load_images_Ok.
Qed.

End ImageExtraction.

(** C6, as stated, fails: the archive whose one entry is named by 4301
    digits and the extension [.jpeg], which is a slide image, is not
    read at all: [extract_images_from_zip] raises [ValueError]. *)
Lemma images_kept_counterexample :
  @is_slide_image cpython312 entry_with_4301_digits.1 = true /\
  @extract_images_from_zip cpython312 platform_4x4 [entry_with_4301_digits]
  = Raise ValueError.
Proof. split; vm_compute; reflexivity. Qed.
(* ===================================================================== *)
(** * Generating the notes *)
(* ===================================================================== *)

Section NotesGeneration.
Context `{Interpreter} `{Platform}.
Context {W : Type} (h : handler W).

Lemma run_prog_bind {A B} (p : prog A) (k : A -> prog B) w :
  run h (prog_bind p k) w
  = let '(a, w1, t1) := run h p w in
    let '(b, w2, t2) := run h (k a) w1 in
    (b, w2, t1 ++ t2).
Proof.
  revert w. induction p as [a|X c k' IH]; intros w; simpl.
  - by destruct (run h (k a) w) as [[b w2] t2].
  - destruct (h X c w) as [x w']. rewrite IH.
    destruct (run h (k' x) w') as [[a w1] t1].
    by destruct (run h (k a) w1) as [[b w2] t2].
Qed.

Lemma run_io_bind {A B} (p : io A) (k : A -> io B) w :
  run h (p ≫= k) w
  = let '(r, w1, t1) := run h p w in
    match r with
    | Ok a => let '(b, w2, t2) := run h (k a) w1 in (b, w2, t1 ++ t2)
    | Raise e => (Raise e, w1, t1)
    end.
Proof.
  unfold mbind, io_bind. rewrite run_prog_bind.
  destruct (run h p w) as [[[a|e] w1] t1]; [done|]. simpl. by rewrite app_nil_r.
Qed.

Lemma run_try_finally {A} (p : io A) (f : io unit) w :
  run h (try_finally p f) w
  = let '(r, w1, t1) := run h p w in
    let '(r', w2, t2) := run h f w1 in
    (match r' with Ok _ => r | Raise e => Raise e end, w2, t1 ++ t2).
Proof.
  unfold try_finally. rewrite run_prog_bind.
  destruct (run h p w) as [[r w1] t1]. rewrite run_prog_bind.
  destruct (run h f w1) as [[[[]|e] w2] t2]; simpl; by rewrite app_nil_r.
Qed.

(** Whatever the vision model answers, [generate_script_from_image]
    makes one request to it, with the image and the prompt for the slide
    number, returns a script and raises nothing: the placeholder when
    the call raised (or its answer had no text), the stripped text
    otherwise. *)
Lemma generate_script_from_image_run image_data slide_number w :
  exists script w' tr,
    run h (generate_script_from_image image_data slide_number) w = (Ok script, w', tr) /\
    omap vision_request tr = [(image_data, script_prompt slide_number)] /\
    omap saved_presentation tr = [] /\
    match (h _ (MessagesCreate (lit "claude-sonnet-4-5-20250929") 4000 image_data
                               (script_prompt slide_number)) w).1 with
    | Raise _ | Ok [] | Ok (None :: _) => script = script_placeholder slide_number
    | Ok (Some text :: _) => script = strip text
    end.
Proof.
  unfold generate_script_from_image, try_except, perform, lift, print.
  cbn [mbind io_bind prog_bind run].
  destruct (h _ (MessagesCreate _ _ _ _) w) as [[content|e] w1]; cbn [fst].
  - destruct content as [|[text|] content];
      cbn [index lookup list_lookup prog_bind run mret io_ret].
    + destruct (h _ (PrintText _) w1) as [[] w2]. eauto 10.
    + eauto 10.
    + destruct (h _ (PrintText _) w1) as [[] w2]. eauto 10.
  - cbn [prog_bind run mret io_ret]. destruct (h _ (PrintText _) w1) as [[] w2].
    eauto 10.
Qed.

(** The loop over the page images comes to its end, whatever the outside
    world answers, with one more script per image and one request to the
    vision model per image, in order; the script of a page whose vision
    call raises is the placeholder naming the page. *)
Lemma scripts_loop_run total_slides i images notes_list w :
  exists scripts w' tr,
    run h (scripts_loop total_slides i images notes_list) w
    = (notes_list ++ scripts, Ok tt, w', tr) /\
    length scripts = length images /\
    omap vision_request tr
    = imap (fun j image_data => (image_data, script_prompt (i + j + 1))) images /\
    omap saved_presentation tr = [] /\
    (forall j image_data,
       images !! j = Some image_data ->
       vision_fails h image_data (i + j + 1) ->
       scripts !! j = Some (script_placeholder (i + j + 1))).
Proof.
  revert i notes_list w.
  induction images as [|image_data images IH]; intros i notes_list w.
  - simpl. exists [], w, []. by rewrite app_nil_r.
  - cbn [scripts_loop]. rewrite run_prog_bind.
    unfold mbind, io_bind. rewrite run_prog_bind.
    unfold print at 1. cbn [run].
    destruct (h _ (PrintText _) w) as [[] w1].
    destruct (generate_script_from_image_run image_data (i + 1) w1)
      as (script & w2 & t2 & -> & Hreq & Hsaved & Hscript).
    destruct (IH (S i) (notes_list ++ [script]) w2)
      as (scripts & w3 & t3 & -> & Hlen & Hreqs & Hsaveds & Hfail).
    exists (script :: scripts), w3. eexists. split; [|split; [|split; [|split]]].
    + rewrite <- app_assoc. reflexivity.
    + simpl. by rewrite Hlen.
    + cbn [app omap list_omap vision_request]. rewrite !omap_app, Hreq, Hreqs.
      rewrite imap_cons. cbn [app omap list_omap]. rewrite Nat.add_0_r. f_equal.
      apply imap_ext. intros j x _. simpl. do 2 f_equal. lia.
    + cbn [app omap list_omap saved_presentation].
      by rewrite !omap_app, Hsaved, Hsaveds.
    + intros [|j] image_data' Himage Hfails.
      * injection Himage as <-. rewrite Nat.add_0_r in *.
        destruct (Hfails w1) as (e & w1' & Hraise). rewrite Hraise in Hscript.
        cbn [fst] in Hscript. by subst script.
      * cbn [lookup list_lookup]. replace (i + S j + 1) with (S i + j + 1) in * by lia.
        by apply (Hfail j image_data').
Qed.

Lemma run_notes_run_failed e notes_list saved_deck w :
  exists w',
    run h (notes_run_failed e notes_list saved_deck) w
    = ({| success := false;
          message := lit "処理中にエラーが発生しました: " ++ exn_str e;
          generated_notes := notes_list;
          saved := saved_deck |}, w',
       [Issued (PrintText (lit "処理中にエラーが発生しました: " ++ exn_str e))]).
Proof.
  unfold notes_run_failed. cbn [run].
  destruct (h _ (PrintText _) w) as [[] w']. by exists w'.
Qed.

(** Once the loop over the pages is done, the notes a run of
    [process_pptx_with_pdf] returns are those of the loop, however the
    run ends. *)
Lemma generated_notes_after_scripts_loop
    input_pptx_path output_pptx_path progress_callback total_slides
    (notes_list : list str) w :
  generated_notes
    (run h (prog_bind
              (progress progress_callback (lit "PPTX ファイル更新中...") 2 3;;
               add_notes_to_pptx_io input_pptx_path notes_list output_pptx_path)
              (fun r => match r with
               | Raise e => notes_run_failed e notes_list None
               | Ok output =>
               prog_bind (progress progress_callback (lit "完了") 3 3)
               (fun r => match r with
               | Raise e => notes_run_failed e notes_list (Some output)
               | Ok _ =>
               Ret {| success := true;
                      message := lit "発表者ノート生成完了！ " ++
                                 str_of_nat total_slides ++
                                 lit "枚のスライドを処理しました。";
                      generated_notes := notes_list;
                      saved := Some output |}
               end) end)) w).1.1
  = notes_list.
Proof.
  rewrite run_prog_bind.
  destruct (run h _ w) as [[[output|e] w1] t1].
  - rewrite run_prog_bind. destruct (run h _ w1) as [[[[]|e] w2] t2].
    + done.
    + destruct (run_notes_run_failed e notes_list (Some output) w2) as [w3 ->]. done.
  - destruct (run_notes_run_failed e notes_list None w1) as [w2 ->]. done.
Qed.

(** C9. Whatever the outside world answers: when the vision-model call
    for a slide raises, [generate_script_from_image] returns the
    placeholder naming that slide, and it never raises; the loop over
    the slides always runs to its end, with one script per slide, the
    script of a slide whose vision call raises being its placeholder;
    a run of [process_pptx_with_pdf], with or without progress callback,
    that gets past its first two progress callbacks returns these
    scripts, one per slide; and when no progress callback raises and the
    deck is opened and saved without error, the run succeeds exactly if
    the write-back of the scripts raises nothing, however many vision
    calls failed.  A placeholder is a text that a text frame keeps as it
    is: it is not what makes the write-back raise. *)
Theorem failed_slide_gets_placeholder_and_run_goes_on :
  (forall image_data slide_number w e w',
     h _ (MessagesCreate (lit "claude-sonnet-4-5-20250929") 4000 image_data
                         (script_prompt slide_number)) w = (Raise e, w') ->
     (run h (generate_script_from_image image_data slide_number) w).1.1
     = Ok (script_placeholder slide_number)) /\
  (forall image_data slide_number w,
     exists script,
       (run h (generate_script_from_image image_data slide_number) w).1.1 = Ok script) /\
  (forall images w,
     exists scripts,
       (run h (scripts_loop (length images) 0 images []) w).1.1 = (scripts, Ok tt) /\
       length scripts = length images /\
       forall j image_data,
         images !! j = Some image_data ->
         vision_fails h image_data (j + 1) ->
         scripts !! j = Some (script_placeholder (j + 1))) /\
  (forall input_pptx_path images output_pptx_path progress_callback w,
     let outcome :=
       (run h (process_pptx_with_pdf input_pptx_path (Ok images) output_pptx_path
                                     progress_callback) w).1.1 in
     progress_callback = true /\ success outcome = false /\
     generated_notes outcome = [] \/
     length (generated_notes outcome) = length images /\
     forall j image_data,
       images !! j = Some image_data ->
       vision_fails h image_data (j + 1) ->
       generated_notes outcome !! j = Some (script_placeholder (j + 1))) /\
  (forall prs input_pptx_path images output_pptx_path progress_callback w,
     files_go_well h prs ->
     let outcome :=
       (run h (process_pptx_with_pdf input_pptx_path (Ok images) output_pptx_path
                                     progress_callback) w).1.1 in
     length (generated_notes outcome) = length images /\
     match add_notes_to_pptx prs (generated_notes outcome) with
     | Ok prs' => success outcome = true /\ saved outcome = Some prs'
     | Raise _ => success outcome = false /\ saved outcome = None
     end) /\
  (forall slide_number, plain (script_placeholder slide_number)).
Proof.
  split; [|split; [|split; [|split; [|split]]]].
  - intros image_data slide_number w e w' Hraise.
    destruct (generate_script_from_image_run image_data slide_number w)
      as (script & w1 & tr & -> & _ & _ & Hscript).
    rewrite Hraise in Hscript. cbn [fst] in Hscript. by subst script.
  - intros image_data slide_number w.
    destruct (generate_script_from_image_run image_data slide_number w)
      as (script & w1 & tr & -> & _). eauto.
  - intros images w.
    destruct (scripts_loop_run (length images) 0 images [] w)
      as (scripts & w1 & tr & -> & Hlen & _ & _ & Hfail). eauto.
  - intros input_pptx_path images output_pptx_path progress_callback w.
    unfold process_pptx_with_pdf. rewrite run_prog_bind.
    destruct (run h _ w) as [[r0 w0] t0] eqn:Hprelude.
    assert (r0 = Ok images \/ progress_callback = true /\ exists e, r0 = Raise e)
      as [->|[-> [e ->]]].
    { revert Hprelude. unfold progress. destruct progress_callback; run_step.
      - destruct (h _ (Progress _ 0 3) w) as [[[]|e1] w1]; run_step.
        + destruct (h _ (Progress _ 1 3) w1) as [[[]|e2] w2]; run_step;
            intros [= <- _ _]; eauto.
        + intros [= <- _ _]; eauto.
      - intros [= <- _ _]; eauto. }
    + right. rewrite run_prog_bind.
      destruct (scripts_loop_run (length images) 0 images [] w0)
        as (scripts & w1 & t1 & -> & Hlen & _ & _ & Hfail).
      cbn [app].
      pose proof (generated_notes_after_scripts_loop input_pptx_path output_pptx_path
                    progress_callback (length images) scripts w1) as Hnotes.
      destruct (run h _ w1) as [[outcome w2] t2]. cbn [fst] in *. subst scripts.
      split; [done|]. exact Hfail.
    + left. destruct (run_notes_run_failed e [] None w0) as [w1 ->]. done.
  - intros prs input_pptx_path images output_pptx_path progress_callback w
      (Hprogress & Hopen & Hsave).
    assert (forall step_name current total w,
              exists w', run h (progress progress_callback step_name current total) w
                         = (Ok tt, w', if progress_callback
                                       then [Issued (Progress step_name current total)]
                                       else [])) as Hcb.
    { intros step_name current total w0. unfold progress.
      destruct progress_callback; run_step; [|by eexists].
      destruct (Hprogress step_name current total w0) as [w' ->]. by eexists. }
    cbv zeta.
    match goal with |- context [run h ?p w] =>
      destruct (run h p w) as [[outcome w'] tr] eqn:Hrun end.
    cbn [fst]. revert Hrun.
    unfold process_pptx_with_pdf. rewrite run_prog_bind, run_io_bind.
    destruct (Hcb (lit "PDF → 画像変換中...") 0 3 w) as [w1 ->].
    rewrite run_io_bind. unfold lift at 1. cbn [run]. rewrite run_io_bind.
    destruct (Hcb (lit "スライド原稿生成中...") 1 3 w1) as [w2 ->].
    cbn [run mret io_ret]. rewrite run_prog_bind.
    destruct (scripts_loop_run (length images) 0 images [] w2)
      as (scripts & w3 & t3 & -> & Hlen & _ & _ & _).
    cbn [app]. rewrite run_prog_bind, run_io_bind.
    destruct (Hcb (lit "PPTX ファイル更新中...") 2 3 w3) as [w4 ->].
    unfold add_notes_to_pptx_io. rewrite run_io_bind. unfold perform at 1. cbn [run].
    destruct (Hopen input_pptx_path w4) as [w5 ->]. rewrite run_io_bind.
    unfold lift at 1. cbn [run].
    destruct (add_notes_to_pptx prs scripts) as [prs'|e] eqn:Hwrite.
    + rewrite run_io_bind. unfold perform at 1. cbn [run].
      destruct (Hsave prs' output_pptx_path w5) as [w6 ->].
      cbn [run mret io_ret]. rewrite run_prog_bind.
      destruct (Hcb (lit "完了") 3 3 w6) as [w7 ->]. cbn [run].
      intros [= <- _ _]. cbn [generated_notes success saved]. by rewrite Hwrite.
    + destruct (run_notes_run_failed e scripts None w5) as [w6 ->].
      intros [= <- _ _]. cbn [generated_notes success saved]. by rewrite Hwrite.
  - intros slide_number. unfold script_placeholder.
    apply Forall_app. split; [decide_closed|].
    apply Forall_app. split; [apply plain_str_of_nat|decide_closed].
Qed.

End NotesGeneration.

(** An example for C9: the vision model fails for every one of three
    slides; the run succeeds, the notes are the three placeholders, each
    naming its slide, and they are what the saved deck holds. *)
Lemma failing_vision_run :
  let outcome :=
    (run (failing_vision (deck_with_notes [None; None; None]))
         (@process_pptx_with_pdf cpython312 platform_4x4
            (lit "deck.pptx") (Ok [[]; []; []]) (lit "out.pptx") false) 0).1.1 in
  success outcome = true /\
  generated_notes outcome
  = [script_placeholder 1; script_placeholder 2; script_placeholder 3] /\
  (fun prs => notes <$> slides prs) <$> saved outcome
  = Some [Some (script_placeholder 1); Some (script_placeholder 2);
          Some (script_placeholder 3)].
Proof. vm_compute. done. Qed.
(* ===================================================================== *)
(** * Generating the video *)
(* ===================================================================== *)

Section VideoGeneration.
Context `{Interpreter} `{Platform}.
Context {W : Type} (h : handler W).


End VideoGeneration.


(* ===================================================================== *)
(** * More on the deck builder *)
(* ===================================================================== *)

Section DeckBuilderMore.

(** The builder raises [IndexError] exactly on the templates that lack
    a first master with at least three layouts, whatever the structure
    object.  On every other template it returns a deck or raises
    [ValueError], the latter only for a structure object with a text
    that XML cannot carry. *)
Theorem builder_raises_IndexError_without_three_layouts
    (template : presentation) (c : content) :
  (forall master,
     slide_masters template !! 0 = Some master ->
     3 <= length (slide_layouts master) ->
     (exists prs, create_slides_from_json template c = Ok prs) \/
     create_slides_from_json template c = Raise ValueError /\
     ~ xml_compatible_content c) /\
  (slide_masters template = [] ->
   create_slides_from_json template c = Raise IndexError) /\
  (forall master,
     slide_masters template !! 0 = Some master ->
     length (slide_layouts master) < 3 ->
     create_slides_from_json template c = Raise IndexError).
Proof.
  split; [|split].
  - intros master Hm Hlen.
    destruct (lookup_lt_is_Some_2 (slide_layouts master) 0) as [l0 H0]; [lia|].
    destruct (lookup_lt_is_Some_2 (slide_layouts master) 1) as [l1 H1]; [lia|].
    destruct (lookup_lt_is_Some_2 (slide_layouts master) 2) as [l2 H2]; [lia|].
    destruct (create_slides_from_json_cases template c master l0 l1 l2)
      as [(prs & Hrun & _)|Hbad]; eauto.
  - intros Hnone. unfold create_slides_from_json, index. by rewrite Hnone.
  - intros master Hm Hlen. unfold create_slides_from_json, index. rewrite Hm. simpl.
    destruct (slide_layouts master) as [|l0 [|l1 [|l2 ls]]]; simpl in *; try done. lia.
Qed.

(** Whenever the builder succeeds, the deck it saves keeps the masters of
    the template and begins with the slides the template already held,
    in their order; after them come exactly 3 + (the sum, over the agenda
    entries that are keys of main, of the length of their slide list) new
    slides. *)
Theorem builder_keeps_the_template_slides
    (template : presentation) (c : content) (prs : presentation) :
  create_slides_from_json template c = Ok prs ->
  slide_masters prs = slide_masters template /\
  take (length (slides template)) (slides prs) = slides template /\
  length (slides prs)
  = length (slides template) + 3
    + sum_list (omap (fun a => length <$> main c !! a) (agenda c)).
Proof.
  intros Hrun.
  destruct (create_slides_from_json_Ok_inv _ _ _ Hrun)
    as (master & l0 & l1 & l2 & Hm & H0 & H1 & H2 & Hmasters & Hslides).
  split; [done|split].
  - rewrite Hslides. by rewrite take_app_length.
  - rewrite Hslides, !length_app, length_content_slides. simpl. lia.
Qed.

Lemma builder_keeps_the_template_slides_witness :
  exists prs,
    create_slides_from_json
      {| slide_masters := slide_masters template_abc;
         slides := slides (deck_with_notes [None; Some (lit "kept")]) |} lecture_xyz
    = Ok prs /\
    take 2 (slides prs) = slides (deck_with_notes [None; Some (lit "kept")]) /\
    length (slides prs) = 2 + 3 + 3.
Proof.
  eexists. split; [reflexivity|].
  pose proof (builder_keeps_the_template_slides
                {| slide_masters := slide_masters template_abc;
                   slides := slides (deck_with_notes [None; Some (lit "kept")]) |}
                lecture_xyz _ eq_refl) as (_ & Htake & Hlen).
  split; [exact Htake|exact Hlen].
Defined.

(** Slide bodies stored under a key of main that is no agenda entry are
    ignored: two structure objects with the same title and agenda whose
    main mappings agree on the agenda entries give the same deck (or the
    same error). *)
Theorem builder_ignores_keys_outside_the_agenda
    (template : presentation) (c c' : content) :
  title c = title c' ->
  agenda c = agenda c' ->
  (forall a : str, a ∈ agenda c -> main c !! a = main c' !! a) ->
  create_slides_from_json template c = create_slides_from_json template c'.
Proof.
  intros Htitle Hagenda Hmain. unfold create_slides_from_json.
  destruct (index (slide_masters template) 0) as [master|]; result_step; [|done].
  destruct (index (slide_layouts master) 0) as [l0|]; result_step; [|done].
  destruct (index (slide_layouts master) 1) as [l1|]; result_step; [|done].
  destruct (index (slide_layouts master) 2) as [l2|]; result_step; [|done].
  rewrite <- Htitle, <- Hagenda.
  destruct (fill (title c) None (new_slide l1)) as [slide_start|e];
    result_step; [|done].
  destruct (fill (lit "アジェンダ") (Some (agenda_text (agenda c))) (new_slide l0))
    as [slide_agenda|e]; result_step; [|done].
  cbv zeta. rewrite (agenda_loop_ext l0 (main c) (main c')); [done|].
  intros a Ha. by rewrite Hmain.
Qed.

Lemma builder_ignores_keys_outside_the_agenda_witness :
  create_slides_from_json template_abc lecture_xyz
  = create_slides_from_json template_abc lecture_xyz_with_strays.
Proof.
  apply (builder_ignores_keys_outside_the_agenda template_abc
           lecture_xyz lecture_xyz_with_strays); [reflexivity|reflexivity|].
  intros a Ha.
  repeat (apply elem_of_cons in Ha as [->|Ha]; [reflexivity|]).
  by apply elem_of_nil in Ha.
Defined.

Lemma filled_by_convention_filled header body l :
  filled_by_convention (filled header body (new_slide l)).
Proof.
  split; cbn [filled new_slide placeholders slide_layout].
  - induction (iter_cloneable_placeholders l) as [|ph ls IH]; [done|].
    cbn [fmap list_fmap fst]. f_equal; [|exact IH].
    destruct (ph.1 =? 13); [done|]. destruct (ph.1 =? 14); [|done]. by destruct body.
  - rewrite <- list_fmap_compose. apply Forall_fmap, Forall_true. intros ph.
    cbn [compose fst snd].
    destruct (Nat.eqb_spec ph.1 13); [done|].
    destruct (Nat.eqb_spec ph.1 14); [|done]. by destruct body.
Qed.

Lemma filled_by_convention_new l : filled_by_convention (new_slide l).
Proof.
  split; cbn [new_slide placeholders slide_layout].
  - by rewrite <- list_fmap_compose.
  - apply Forall_fmap, Forall_true. done.
Qed.

(** Every slide the builder adds has exactly the cloneable placeholders
    of the layout it was made from (all but those for the date, the
    footer and the slide number), and the builder writes into none but
    those with [idx] 13 and 14: all the others are left empty. *)
Theorem builder_writes_only_placeholders_13_and_14
    (template : presentation) (c : content) (prs : presentation) :
  create_slides_from_json template c = Ok prs ->
  Forall filled_by_convention (drop (length (slides template)) (slides prs)).
Proof.
  intros Hrun.
  destruct (create_slides_from_json_Ok_inv _ _ _ Hrun)
    as (master & l0 & l1 & l2 & Hm & H0 & H1 & H2 & _ & Hslides).
  rewrite Hslides, drop_app_length.
  repeat (apply Forall_cons; split; [apply filled_by_convention_filled|]).
  apply Forall_app. split.
  - unfold content_slides. apply Forall_concat, Forall_forall.
    intros l Hl. apply list_elem_of_lookup in Hl as [j Hj].
    apply list_lookup_imap_Some in Hj as (a & _ & ->).
    unfold entry_slides. apply Forall_fmap, Forall_true.
    intros body. apply filled_by_convention_filled.
  - apply Forall_cons. split; [apply filled_by_convention_new|done].
Qed.

Lemma builder_writes_only_placeholders_13_and_14_witness :
  exists prs,
    create_slides_from_json template_abc lecture_xyz = Ok prs /\
    Forall filled_by_convention (drop 0 (slides prs)).
Proof.
  eexists. split; [reflexivity|].
  exact (builder_writes_only_placeholders_13_and_14 template_abc lecture_xyz _ eq_refl).
Defined.

End DeckBuilderMore.

(* ===================================================================== *)
(** * More on the notes: stripping, writing back, reading out *)
(* ===================================================================== *)

Section NotesMore.
Context `{Interpreter}.

Lemma drop_while_id {A} (p : A -> bool) l :
  (forall c, head l = Some c -> p c = false) -> drop_while p l = l.
Proof. destruct l as [|c l]; simpl; [done|]. intros Hc. by rewrite (Hc c). Qed.

Lemma head_app_nonempty {A} (l k : list A) c :
  head l = Some c -> head (l ++ k) = Some c.
Proof. by destruct l. Qed.

(** The text [strip] leaves begins and ends with a character that is
    not whitespace. *)
Lemma strip_ends (s : str) :
  (forall c, head (strip s) = Some c -> isspace c = false) /\
  (forall c, head (rev (strip s)) = Some c -> isspace c = false).
Proof.
  unfold strip. set (a := drop_while isspace s). split.
  - intros c Hc.
    pose proof (take_drop_while isspace (rev a)) as Hsplit.
    apply (f_equal (@rev _)) in Hsplit. rewrite rev_app_distr, rev_involutive in Hsplit.
    apply (head_drop_while isspace s). fold a. rewrite <- Hsplit.
    by apply head_app_nonempty.
  - intros c. rewrite rev_involutive. apply head_drop_while.
Qed.

Lemma strip_fixed (t : str) :
  (forall c, head t = Some c -> isspace c = false) ->
  (forall c, head (rev t) = Some c -> isspace c = false) ->
  strip t = t.
Proof.
  intros Hhead Hlast. unfold strip.
  rewrite (drop_while_id isspace t) by done.
  rewrite (drop_while_id isspace (rev t)) by done.
  apply rev_involutive.
Qed.

Lemma strip_idempotent (s : str) : strip (strip s) = strip s.
Proof. destruct (strip_ends s). by apply strip_fixed. Qed.

Lemma truthy_strip_iff (s : str) :
  truthy (strip s) = true <-> Exists (fun c => isspace c = false) s.
Proof.
  split; [|apply truthy_strip_true].
  intros Htrue. destruct (decide (Forall (fun c => isspace c = true) s)) as [Hall|Hnot].
  - by rewrite truthy_strip_false in Htrue.
  - apply not_Forall_Exists in Hnot; [|intros c; apply _].
    eapply Exists_impl; [exact Hnot|]. intros c Hc. simpl in Hc.
    by destruct (isspace c).
Qed.

Lemma extract_speaker_notes_lookup prs i :
  extract_speaker_notes prs !! i = note_of_slide <$> slides prs !! i.
Proof.
  unfold extract_speaker_notes. rewrite list_lookup_fmap.
  destruct (slides prs !! i) as [s|]; [|done]. simpl. f_equal.
  unfold note_of_slide. destruct (notes s) as [[|c text]|]; try done.
Qed.

(** Reading the notes out gives one entry per slide, in slide order; an
    entry that holds a text is never empty and neither begins nor ends
    with whitespace (stripping it again changes nothing); and the entry
    is absent exactly when the slide has no notes or its notes text has
    no character that is not whitespace. *)
Theorem extracted_notes_are_stripped_or_absent (prs : presentation) :
  length (extract_speaker_notes prs) = length (slides prs) /\
  (forall i (t : str),
     extract_speaker_notes prs !! i = Some (Some t) ->
     t <> [] /\ strip t = t /\
     exists s text, slides prs !! i = Some s /\ notes s = Some text /\ t = strip text) /\
  (forall i s,
     slides prs !! i = Some s ->
     (extract_speaker_notes prs !! i = Some None <->
      notes s = None \/
      exists text, notes s = Some text /\ Forall (fun c => isspace c = true) text)).
Proof.
  split; [|split].
  - unfold extract_speaker_notes. apply length_fmap.
  - intros i t. rewrite extract_speaker_notes_lookup.
    destruct (slides prs !! i) as [s|]; [|done]. simpl. unfold note_of_slide.
    destruct (notes s) as [text|] eqn:Hnotes; [|done].
    destruct (truthy (strip text)) eqn:Htruthy; [|done].
    intros [= <-]. split; [by destruct (strip text)|].
    split; [apply strip_idempotent|]. by exists s, text.
  - intros i s Hs. rewrite extract_speaker_notes_lookup, Hs. simpl.
    unfold note_of_slide. destruct (notes s) as [text|]; [|by split; [left|]].
    destruct (truthy (strip text)) eqn:Htruthy.
    + split; [done|]. intros [?|(text' & [= <-] & Hblank)]; [done|].
      by rewrite truthy_strip_false in Htruthy.
    + split; [|done]. intros _. right. exists text. split; [done|].
      apply strip_nil_iff. by destruct (strip text).
Qed.


(** The text to write is one lxml accepts only if the note is. *)
Lemma xml_compatible_notes_to_write (b : str) s :
  xml_compatible (notes_to_write b s) -> xml_compatible b.
Proof.
  unfold notes_to_write. destruct (truthy (strip (default [] (notes s)))); [|done].
  intros Hall. by apply xml_compatible_app in Hall as [_ [_ ?]%xml_compatible_app].
Qed.

(** Running the write-back a second time with the same list raises
    nothing if the first run raised nothing, and does not replace what
    the first run wrote: a slide that received a note whose stored form
    has some character that is not whitespace holds, after the second
    run, its text of the first run, a blank line, and the stored form of
    the note again. *)
Theorem write_back_twice_appends_again
    (prs : presentation) (notes_list : list str) (prs1 : presentation) i s (b : str) :
  add_notes_to_pptx prs notes_list = Ok prs1 ->
  slides prs !! i = Some s ->
  notes_list !! i = Some b ->
  Exists (fun c => isspace c = false) (stored_text b) ->
  exists (prs2 : presentation) (once : str),
    add_notes_to_pptx prs1 notes_list = Ok prs2 /\
    notes <$> slides prs1 !! i = Some (Some once) /\
    notes <$> slides prs2 !! i = Some (Some (once ++ [NL; NL] ++ stored_text b)).
Proof.
  intros Hrun Hs Hb Hnonblank.
  destruct (add_notes_to_pptx_cases prs notes_list)
    as [(prs1' & Hrun' & Hw & _ & Hlook)|[Hrun' _]]; [|congruence].
  rewrite Hrun in Hrun'. injection Hrun' as <-.
  pose proof (proj1 (writable_lookup prs notes_list) Hw) as Hcompat.
  destruct (add_notes_to_pptx_writable prs1 notes_list) as [prs2 Hrun2].
  { apply writable_lookup. intros j s1 bj Hs1 Hbj.
    rewrite Hlook, Hbj in Hs1.
    destruct (slides prs !! j) as [sj|] eqn:Hsj; [|done]. injection Hs1 as <-.
    specialize (Hcompat j sj bj Hsj Hbj).
    unfold notes_to_write at 1. cbn [with_notes notes from_option id].
    destruct (truthy _); [|by apply (xml_compatible_notes_to_write bj sj)].
    apply xml_compatible_app. split; [by apply xml_compatible_stored_text|].
    apply xml_compatible_app. split; [repeat constructor|].
    by apply (xml_compatible_notes_to_write bj sj). }
  exists prs2, (stored_text (notes_to_write b s)).
  split; [done|]. split; [by rewrite Hlook, Hb, Hs|].
  rewrite (add_notes_lookup _ _ _ _ Hrun2), Hb, Hlook, Hb, Hs.
  cbn [fmap option_fmap option_map with_notes notes]. do 2 f_equal.
  unfold notes_to_write at 1. cbn [with_notes notes from_option id].
  rewrite truthy_strip_true.
  - rewrite !stored_text_app, stored_text_idempotent. reflexivity.
  - unfold notes_to_write. destruct (truthy (strip (default [] (notes s)))); [|done].
    rewrite !stored_text_app. apply Exists_app. right. by apply Exists_app; right.
Qed.

(** Reading back what was written: when slide i has no notes, or notes
    of whitespace only, and receives notes_list[i] = B, the video stage
    reads for that slide the stored form of B stripped (B stripped when
    B is plain), or no notes at all when that has no character that is
    not whitespace. *)
Theorem notes_written_are_read_back_stripped
    (prs : presentation) (notes_list : list str) (prs' : presentation) i s (b : str) :
  add_notes_to_pptx prs notes_list = Ok prs' ->
  slides prs !! i = Some s ->
  notes_list !! i = Some b ->
  (notes s = None \/
   exists text, notes s = Some text /\ Forall (fun c => isspace c = true) text) ->
  extract_speaker_notes prs' !! i
  = Some (if truthy (strip (stored_text b)) then Some (strip (stored_text b)) else None) /\
  (plain b ->
   extract_speaker_notes prs' !! i
   = Some (if truthy (strip b) then Some (strip b) else None)).
Proof.
  intros Hrun Hs Hb Hblank.
  assert (extract_speaker_notes prs' !! i
          = Some (if truthy (strip (stored_text b))
                  then Some (strip (stored_text b)) else None)) as Hread.
  { rewrite extract_speaker_notes_lookup, (add_notes_lookup _ _ _ _ Hrun), Hb, Hs.
    cbn [fmap option_fmap option_map]. f_equal.
    unfold note_of_slide, with_notes, notes_to_write. cbn [notes].
    assert (truthy (strip (default [] (notes s))) = false) as ->; [|done].
    destruct Hblank as [->|(text & -> & Hall)]; [done|]. by apply truthy_strip_false. }
  split; [done|]. intros Hplain. by rewrite Hread, (stored_text_plain b Hplain).
Qed.

End NotesMore.

Lemma write_back_twice_appends_again_witness :
  exists prs1 prs2 : presentation,
    @add_notes_to_pptx cpython312 deck_without_notes [lit "B"] = Ok prs1 /\
    @add_notes_to_pptx cpython312 prs1 [lit "B"] = Ok prs2 /\
    notes <$> slides prs1 !! 0 = Some (Some (lit "B")) /\
    notes <$> slides prs2 !! 0 = Some (Some (lit "B" ++ [NL; NL] ++ lit "B")).
Proof.
  eexists.
  destruct (@write_back_twice_appends_again cpython312 deck_without_notes [lit "B"]
              _ 0 (slide_with_notes None) (lit "B") eq_refl eq_refl eq_refl)
    as (prs2 & once & Hrun2 & Honce & Htwice).
  - apply Exists_cons_hd. reflexivity.
  - exists prs2. split; [reflexivity|]. split; [exact Hrun2|].
    split; [reflexivity|]. rewrite Htwice.
    injection Honce as <-. reflexivity.
Defined.

Lemma notes_written_are_read_back_stripped_witness :
  exists prs' : presentation,
    @add_notes_to_pptx cpython312 (deck_with_notes [Some (lit " ")]) [lit " B "]
    = Ok prs' /\
    @extract_speaker_notes cpython312 prs' !! 0 = Some (Some (lit "B")).
Proof.
  eexists. split; [reflexivity|].
  apply (@notes_written_are_read_back_stripped cpython312
           (deck_with_notes [Some (lit " ")]) [lit " B "] _ 0
           (slide_with_notes (Some (lit " "))) (lit " B ")).
  - reflexivity.
  - reflexivity.
  - reflexivity.
  - right. exists (lit " "). split; [reflexivity|]. repeat constructor.
  - decide_closed.
Defined.
(* ===================================================================== *)
(** * More on the agenda numbering and on the image names *)
(* ===================================================================== *)

Section NumberingMore.

(** The text of the agenda slide's body, as the slide stores it, is the
    text the builder would compute for the stored entries. *)
Lemma stored_agenda_text (agenda : list str) :
  stored_text (agenda_text agenda) = agenda_text (stored_text <$> agenda).
Proof.
  unfold agenda_text. rewrite stored_text_join_NL, fmap_imap, imap_fmap. f_equal.
  apply imap_ext. intros i item _. cbn [compose]. apply stored_text_numbered.
Qed.

Lemma agenda_line_and_header (c : content) (i : nat) (a : str) (mt : layout) :
  Forall (fun item => NL ∉ item) (agenda c) ->
  agenda c !! i = Some a ->
  Forall (fun text =>
            split_lines text !! i
            = Some (str_of_nat (i + 1) ++ lit ". " ++ stored_text a))
         (placeholder_texts 14 (agenda_slide mt c)) /\
  Forall (fun s =>
            Forall (fun header =>
                      header = str_of_nat (i + 1) ++ lit ". " ++ stored_text a)
                   (placeholder_texts 13 s))
         (entry_slides mt (main c) i a).
Proof.
  intros Hall Ha. split.
  - eapply Forall_impl; [apply placeholder_texts_14_filled|].
    intros text ->. rewrite stored_agenda_text. unfold agenda_text.
    rewrite split_lines_join.
    + apply list_lookup_imap_Some. exists (stored_text a). split; [|done].
      rewrite list_lookup_fmap. by rewrite Ha.
    + destruct (agenda c); [done|]. by rewrite fmap_cons, imap_cons.
    + apply Forall_forall. intros line Hline.
      apply list_elem_of_lookup in Hline as [j Hline].
      apply list_lookup_imap_Some in Hline as (it & Hit & ->).
      rewrite !not_elem_of_app. split; [apply str_of_nat_no_NL|].
      split; [decide_closed|].
      apply list_lookup_fmap_Some in Hit as (item & -> & Hitem).
      rewrite NL_stored_text.
      rewrite Forall_forall in Hall. apply Hall.
      eapply list_elem_of_lookup_2; eauto.
  - unfold entry_slides. apply Forall_fmap, Forall_forall. intros body _.
    cbn [compose]. eapply Forall_impl; [apply placeholder_texts_13_filled|].
    intros header ->. apply stored_text_numbered.
Qed.

(** In a deck the builder returns, the header of a content slide is the
    line of its agenda entry on the agenda slide.  For an agenda without
    line breaks in its entries and its entry a at index i: after the
    template's slides the deck has the title slide, the agenda slide,
    the content slides of the entries before a, then those of a, one per
    slide body that a has in main; line i of the body of the agenda
    slide (what its placeholder 14 holds) and the header of every one of
    these content slides (what its placeholder 13 holds) are the same
    text: the number i + 1, a dot and a space, and the entry as a text
    frame stores it. *)
Theorem content_header_is_the_agenda_line
    (template : presentation) (c : content) (prs : presentation) (i : nat) (a : str) :
  create_slides_from_json template c = Ok prs ->
  Forall (fun item => NL ∉ item) (agenda c) ->
  agenda c !! i = Some a ->
  exists title_s agenda_s before entry_s after,
    slides prs = slides template ++ [title_s; agenda_s] ++ before ++ entry_s ++ after /\
    length before
    = sum_list (omap (fun a => length <$> main c !! a) (take i (agenda c))) /\
    length entry_s = length (default [] (main c !! a)) /\
    Forall (fun text =>
              split_lines text !! i
              = Some (str_of_nat (i + 1) ++ lit ". " ++ stored_text a))
           (placeholder_texts 14 agenda_s) /\
    Forall (fun s =>
              Forall (fun header =>
                        header = str_of_nat (i + 1) ++ lit ". " ++ stored_text a)
                     (placeholder_texts 13 s))
           entry_s.
Proof.
  intros Hrun Hall Ha.
  destruct (create_slides_from_json_Ok_inv _ _ _ Hrun)
    as (master & l0 & l1 & l2 & _ & _ & _ & _ & _ & Hslides).
  destruct (agenda_line_and_header c i a l0 Hall Ha) as [Hline Hheader].
  pose proof (take_drop_middle (agenda c) i a Ha) as Hsplit.
  assert (length (take i (agenda c)) = i) as Hi.
  { apply length_take_le. apply lookup_lt_Some in Ha. lia. }
  exists (title_slide l1 c), (agenda_slide l0 c),
         (content_slides l0 (main c) 0 (take i (agenda c))),
         (entry_slides l0 (main c) i a),
         (content_slides l0 (main c) (S i) (drop (S i) (agenda c)) ++ [new_slide l2]).
  split; [|split; [|split; [|split]]].
  - rewrite Hslides. do 2 f_equal.
    rewrite <- Hsplit at 1.
    rewrite content_slides_app, content_slides_cons, Hi, <- !app_assoc. reflexivity.
  - apply length_content_slides.
  - unfold entry_slides. by rewrite length_fmap.
  - exact Hline.
  - exact Hheader.
Qed.

Lemma content_header_is_the_agenda_line_witness :
  exists prs title_s agenda_s before entry_s after,
    create_slides_from_json template_abc lecture_xyz = Ok prs /\
    slides prs = slides template_abc ++ [title_s; agenda_s] ++ before ++ entry_s ++ after /\
    length before = 2 /\
    length entry_s = 1 /\
    Forall (fun text =>
              split_lines text !! 2 = Some (str_of_nat (2 + 1) ++ lit ". " ++ lit "C"))
           (placeholder_texts 14 agenda_s) /\
    Forall (fun s =>
              Forall (fun header => header = str_of_nat (2 + 1) ++ lit ". " ++ lit "C")
                     (placeholder_texts 13 s))
           entry_s.
Proof.
  eexists.
  destruct (content_header_is_the_agenda_line template_abc lecture_xyz _ 2 (lit "C")
              eq_refl)
    as (title_s & agenda_s & before & entry_s & after & H1 & H2 & H3 & H4 & H5).
  - repeat constructor; decide_closed.
  - reflexivity.
  - exists title_s, agenda_s, before, entry_s, after.
    split; [reflexivity|]. split; [exact H1|]. split; [exact H2|].
    split; [exact H3|]. split; [exact H4|exact H5].
Defined.

Context `{Interpreter}.




Lemma filter_Permutation {A} (f : A -> bool) (l k : list A) :
  Permutation l k -> Permutation (List.filter f l) (List.filter f k).
Proof.
  induction 1 as [|x l k _ IH|x y l|l k m _ IH1 _ IH2]; simpl.
  - done.
  - destruct (f x); by rewrite IH.
  - destruct (f x), (f y); try done. apply perm_swap.
  - by rewrite IH1.
Qed.

(** A list sorted by number is determined by its entries, when no two
    entries share a number. *)
Lemma sorted_by_key_unique (l1 l2 : list (N * str)) :
  StronglySorted (fun a b : N * str => (fst a <= fst b)%N) l1 ->
  StronglySorted (fun a b : N * str => (fst a <= fst b)%N) l2 ->
  Permutation l1 l2 ->
  NoDup (fst <$> l1) ->
  l1 = l2.
Proof.
  intros Hs1. revert l2. induction Hs1 as [|x l1 Hs1 IH Hx]; intros l2 Hs2 Hperm Hnodup.
  - by apply Permutation_nil in Hperm.
  - destruct l2 as [|y l2]; [by apply Permutation_sym, Permutation_nil in Hperm|].
    apply StronglySorted_inv in Hs2 as [Hs2 Hy].
    apply NoDup_cons in Hnodup as [Hfresh Hnodup].
    assert (x = y) as <-.
    { destruct (decide (x = y)) as [|Hne]; [done|]. exfalso.
      assert (x ∈ l2) as Hx2.
      { assert (x ∈ y :: l2) as Hin by (rewrite <- Hperm; apply elem_of_cons; by left).
        apply elem_of_cons in Hin as [?|?]; done. }
      assert (y ∈ l1) as Hy1.
      { assert (y ∈ x :: l1) as Hin by (rewrite Hperm; apply elem_of_cons; by left).
        apply elem_of_cons in Hin as [?|?]; [congruence|done]. }
      rewrite Forall_forall in Hx, Hy.
      pose proof (Hx y Hy1). pose proof (Hy x Hx2).
      apply Hfresh. apply list_elem_of_fmap. exists y. split; [lia|done]. }
    f_equal. apply IH; [done| |done]. by apply Permutation_cons_inv in Hperm.
Qed.

(** The order in which the archive lists its entries does not matter:
    when no two slide images of the archive carry the same number, two
    archives listing the same entries in different orders give the same
    kept names in the same order (or both the [ValueError] of a run of
    digits too long to convert). *)
Theorem extraction_ignores_the_archive_order (names names' : list str) :
  Permutation names names' ->
  NoDup (slide_number <$> List.filter is_slide_image names) ->
  sorted_jpeg_files names = sorted_jpeg_files names'.
Proof.
  intros Hperm Hnodup.
  pose proof (filter_Permutation is_slide_image _ _ Hperm) as Hkept.
  destruct (sorted_jpeg_files_cases names) as [[-> Hall]|[-> Hbad]],
    (sorted_jpeg_files_cases names') as [[-> Hall']|[-> Hbad']].
  - f_equal. apply sorted_by_key_unique.
    + apply sort_by_key_sorted.
    + apply sort_by_key_sorted.
    + rewrite !sort_by_key_perm. by apply fmap_Permutation.
    + rewrite sort_by_key_perm, <- list_fmap_compose. exact Hnodup.
  - exfalso. apply Hbad'. by rewrite <- Hkept.
  - exfalso. apply Hbad. by rewrite Hkept.
  - done.
Qed.

End NumberingMore.


Lemma extraction_ignores_the_archive_order_witness :
  @sorted_jpeg_files cpython312 [lit "slide10.jpeg"; lit "notes.txt"; lit "slide2.jpeg"]
  = @sorted_jpeg_files cpython312 [lit "slide2.jpeg"; lit "slide10.jpeg"; lit "notes.txt"].
Proof.
  apply (@extraction_ignores_the_archive_order cpython312).
  - change [lit "slide10.jpeg"; lit "notes.txt"; lit "slide2.jpeg"]
      with ([lit "slide10.jpeg"; lit "notes.txt"] ++ [lit "slide2.jpeg"]).
    rewrite Permutation_app_comm. reflexivity.
  - apply (bool_decide_unpack _). vm_compute. exact I.
Defined.

(* ===================================================================== *)
(** * More on the runs: requests made, resources released *)
(* ===================================================================== *)

Section RunsMore.
Context `{Interpreter} `{Platform}.
Context {W : Type} (h : handler W).

Lemma never_run {A} (P : issued -> bool) (p : prog A) w :
  never P p -> Forall (fun c => P c = false) (run h p w).2.
Proof.
  intros Hp. revert w. induction Hp as [a|X c k Hc _ IH]; intros w; simpl.
  - constructor.
  - destruct (h X c w) as [x w']. specialize (IH x w').
    destruct (run h (k x) w') as [[a w''] tr]. simpl in *. by constructor.
Qed.

End RunsMore.

Section NeverLemmas.
Context (P : issued -> bool).

Lemma never_prog_bind {A B} (p : prog A) (k : A -> prog B) :
  never P p -> (forall a, never P (k a)) -> never P (prog_bind p k).
Proof.
  intros Hp Hk. induction Hp as [a|X c k' Hc _ IH]; simpl; [done|].
  by constructor.
Qed.

Lemma never_io_bind {A B} (p : io A) (k : A -> io B) :
  never P p -> (forall a, never P (k a)) -> never P (p ≫= k).
Proof.
  intros Hp Hk. apply never_prog_bind; [done|]. intros [a|e]; [done|constructor].
Qed.

Lemma never_try_finally {A} (p : io A) (f : io unit) :
  never P p -> never P f -> never P (try_finally p f).
Proof.
  intros Hp Hf. apply never_prog_bind; [done|]. intros r.
  apply never_prog_bind; [done|]. intros [[]|e]; constructor.
Qed.

Lemma never_perform {X} (c : call (result X)) :
  P (Issued c) = false -> never P (perform c).
Proof. intros Hc. constructor; [done|]. intros x. constructor. Qed.

Lemma never_progress cb step_name current total :
  P (Issued (Progress step_name current total)) = false ->
  never P (progress cb step_name current total).
Proof. intros Hc. destruct cb; [by apply never_perform|constructor]. Qed.

End NeverLemmas.

(* ===================================================================== *)
(** * More on generating the notes *)
(* ===================================================================== *)

Section NotesGenerationMore.
Context `{Interpreter} `{Platform}.
Context {W : Type} (h : handler W).

Lemma omap_vision_request_never (tr : list issued) :
  Forall (fun c => is_vision_request c = false) tr -> omap vision_request tr = [].
Proof.
  induction 1 as [|c tr Hc _ IH]; [done|]. cbn [omap list_omap].
  unfold is_vision_request in Hc. by destruct (vision_request c).
Qed.

Lemma never_notes_run_failed P e notes_list saved_deck :
  P (Issued (PrintText (lit "処理中にエラーが発生しました: " ++ exn_str e))) = false ->
  never P (notes_run_failed e notes_list saved_deck).
Proof. intros HP. unfold notes_run_failed. constructor; [done|]. intros _. constructor. Qed.

(** What [process_pptx_with_pdf] does once the loop over the pages is
    done makes no request to the vision model. *)
Lemma never_vision_after_scripts_loop
    input_pptx_path output_pptx_path progress_callback total_slides
    (notes_list : list str) :
  never is_vision_request
    (prog_bind
       (progress progress_callback (lit "PPTX ファイル更新中...") 2 3;;
        add_notes_to_pptx_io input_pptx_path notes_list output_pptx_path)
       (fun r => match r with
        | Raise e => notes_run_failed e notes_list None
        | Ok output =>
        prog_bind (progress progress_callback (lit "完了") 3 3)
        (fun r => match r with
        | Raise e => notes_run_failed e notes_list (Some output)
        | Ok _ =>
        Ret {| success := true;
               message := lit "発表者ノート生成完了！ " ++
                          str_of_nat total_slides ++
                          lit "枚のスライドを処理しました。";
               generated_notes := notes_list;
               saved := Some output |}
        end) end)).
Proof.
  apply never_prog_bind.
  - apply never_io_bind; [by apply never_progress|]. intros _.
    unfold add_notes_to_pptx_io.
    apply never_io_bind; [by apply never_perform|]. intros prs.
    apply never_io_bind; [constructor|]. intros prs'.
    apply never_io_bind; [by apply never_perform|]. intros _. constructor.
  - intros [output|e]; [|by apply never_notes_run_failed].
    apply never_prog_bind; [by apply never_progress|].
    intros [[]|e]; [constructor|by apply never_notes_run_failed].
Qed.

(** Whatever the outside world answers, and with or without a progress
    callback, a run of [process_pptx_with_pdf] that reaches the slides
    asks the vision model exactly once per page, in page order, each
    request carrying the page's image and the prompt naming its number
    from 1 on: a failed request is not repeated and no page is skipped.
    Without progress callback every run reaches the slides. *)
Theorem one_vision_request_per_page
    (input_pptx_path : str) (images : list bytes) (output_pptx_path : str)
    (progress_callback : bool) w :
  omap vision_request
    (run h (process_pptx_with_pdf input_pptx_path (Ok images) output_pptx_path
                                  progress_callback) w).2
  = imap (fun j image_data => (image_data, script_prompt (j + 1))) images
  \/ progress_callback = true /\
     success (run h (process_pptx_with_pdf input_pptx_path (Ok images) output_pptx_path
                                           progress_callback) w).1.1 = false /\
     omap vision_request
       (run h (process_pptx_with_pdf input_pptx_path (Ok images) output_pptx_path
                                     progress_callback) w).2
     = [].
Proof.
  destruct (run h _ w) as [[outcome w'] tr] eqn:Hrun. cbn [fst snd].
  revert Hrun. unfold process_pptx_with_pdf. rewrite run_prog_bind.
  destruct (run h _ w) as [[r0 w0] t0] eqn:Hprelude.
  assert (omap vision_request t0 = [] /\
          (r0 = Ok images \/ progress_callback = true /\ exists e, r0 = Raise e))
    as [Ht0 Hr0].
  { revert Hprelude. unfold progress. destruct progress_callback; run_step.
    - destruct (h _ (Progress _ 0 3) w) as [[[]|e1] w1]; run_step.
      + destruct (h _ (Progress _ 1 3) w1) as [[[]|e2] w2]; run_step;
          intros [= <- _ <-]; eauto.
      + intros [= <- _ <-]; eauto.
    - intros [= <- _ <-]; eauto. }
  destruct Hr0 as [->|[-> [e ->]]].
  - rewrite run_prog_bind.
    destruct (scripts_loop_run h (length images) 0 images [] w0)
      as (scripts & w1 & t1 & -> & _ & Hreq & _ & _).
    cbn [app].
    pose proof (never_run h is_vision_request _ w1
                  (never_vision_after_scripts_loop input_pptx_path output_pptx_path
                     progress_callback (length images) scripts)) as Hnever.
    destruct (run h _ w1) as [[outcome2 w2] t2]. cbn [snd] in Hnever.
    intros [= _ _ <-]. left.
    rewrite !omap_app, Ht0, Hreq, (omap_vision_request_never t2 Hnever).
    by rewrite app_nil_r.
  - destruct (run_notes_run_failed h e [] None w0) as [w1 ->].
    intros [= <- _ <-]. right.
    split; [done|]. split; [done|].
    rewrite omap_app, Ht0. reflexivity.
Qed.

Lemma run_add_notes_to_pptx_io pptx_path (notes_list : list str) output_path w :
  run h (add_notes_to_pptx_io pptx_path notes_list output_path) w
  = let '(opened, w1) := h _ (PresentationOpen pptx_path) w in
    match opened with
    | Raise e => (Raise e, w1, [Issued (PresentationOpen pptx_path)])
    | Ok prs =>
        match add_notes_to_pptx prs notes_list with
        | Raise e => (Raise e, w1, [Issued (PresentationOpen pptx_path)])
        | Ok prs' =>
            let '(done, w2) := h _ (PresentationSave prs' output_path) w1 in
            (match done with Ok _ => Ok prs' | Raise e => Raise e end, w2,
             [Issued (PresentationOpen pptx_path);
              Issued (PresentationSave prs' output_path)])
        end
    end.
Proof.
  unfold add_notes_to_pptx_io. run_step.
  destruct (h _ (PresentationOpen pptx_path) w) as [[prs|e] w1]; run_step; [|done].
  destruct (add_notes_to_pptx prs notes_list) as [prs'|e]; run_step; [|done].
  by destruct (h _ (PresentationSave prs' output_path) w1) as [[[]|e] w2].
Qed.

(** A run of [process_pptx_with_pdf] that reports success has got the
    page images, has generated one script per page, has opened the input
    deck, has saved under the output path, once, the deck that the
    write-back makes of the opened deck and the scripts it returns, and
    reports the number of pages in its message. *)
Theorem successful_notes_run_has_saved_the_notes
    (input_pptx_path : str) (pdf_pages : result (list bytes))
    (output_pptx_path : str) (progress_callback : bool) w :
  let outcome :=
    run h (process_pptx_with_pdf input_pptx_path pdf_pages output_pptx_path
                                 progress_callback) w in
  success outcome.1.1 = true ->
  exists images prs prs' w_before w_after,
    pdf_pages = Ok images /\
    length (generated_notes outcome.1.1) = length images /\
    h _ (PresentationOpen input_pptx_path) w_before = (Ok prs, w_after) /\
    add_notes_to_pptx prs (generated_notes outcome.1.1) = Ok prs' /\
    saved outcome.1.1 = Some prs' /\
    omap saved_presentation outcome.2 = [(prs', output_pptx_path)] /\
    message outcome.1.1 = lit "発表者ノート生成完了！ " ++ str_of_nat (length images) ++
                          lit "枚のスライドを処理しました。".
Proof.
  cbv zeta.
  destruct (run h _ w) as [[outcome w'] tr] eqn:Hrun. cbn [fst snd].
  revert Hrun. unfold process_pptx_with_pdf. rewrite run_prog_bind.
  destruct (run h _ w) as [[r0 w0] t0] eqn:Hprelude.
  assert (omap saved_presentation t0 = [] /\
          (r0 = pdf_pages \/ exists e, r0 = Raise e)) as [Ht0 Hr0].
  { revert Hprelude. unfold progress. destruct progress_callback; run_step.
    - destruct (h _ (Progress _ 0 3) w) as [[[]|e1] w1]; run_step.
      + destruct pdf_pages as [images|e]; run_step.
        * destruct (h _ (Progress _ 1 3) w1) as [[[]|e2] w2]; run_step;
            intros [= <- _ <-]; eauto.
        * intros [= <- _ <-]; eauto.
      + intros [= <- _ <-]; eauto.
    - destruct pdf_pages as [images|e]; run_step; intros [= <- _ <-]; eauto. }
  destruct r0 as [images|e0].
  2:{ destruct (run_notes_run_failed h e0 [] None w0) as [w1 ->].
      by intros [= <- _ _]. }
  destruct Hr0 as [<-|[e ?]]; [|done].
  rewrite run_prog_bind.
  destruct (scripts_loop_run h (length images) 0 images [] w0)
    as (scripts & w1 & t1 & -> & Hlen & _ & Hsaved1 & _).
  cbn [app]. rewrite run_prog_bind, run_io_bind.
  destruct (run h (progress progress_callback (lit "PPTX ファイル更新中...") 2 3) w1)
    as [[r2 w2] t2] eqn:Hcb2.
  assert (omap saved_presentation t2 = []) as Ht2.
  { revert Hcb2. unfold progress. destruct progress_callback; run_step.
    - destruct (h _ (Progress _ 2 3) w1) as [r w3]. by intros [= _ _ <-].
    - by intros [= _ _ <-]. }
  destruct r2 as [[]|e2].
  2:{ destruct (run_notes_run_failed h e2 scripts None w2) as [w3 ->].
      by intros [= <- _ _]. }
  rewrite run_add_notes_to_pptx_io.
  destruct (h _ (PresentationOpen input_pptx_path) w2) as [[prs|e3] w3] eqn:Hopen.
  2:{ destruct (run_notes_run_failed h e3 scripts None w3) as [w4 ->].
      by intros [= <- _ _]. }
  destruct (add_notes_to_pptx prs scripts) as [prs'|e4] eqn:Hwrite.
  2:{ destruct (run_notes_run_failed h e4 scripts None w3) as [w4 ->].
      by intros [= <- _ _]. }
  destruct (h _ (PresentationSave prs' output_pptx_path) w3) as [[[]|e5] w4].
  2:{ destruct (run_notes_run_failed h e5 scripts None w4) as [w5 ->].
      by intros [= <- _ _]. }
  rewrite run_prog_bind.
  destruct (run h (progress progress_callback (lit "完了") 3 3) w4)
    as [[r6 w6] t6] eqn:Hcb6.
  assert (omap saved_presentation t6 = []) as Ht6.
  { revert Hcb6. unfold progress. destruct progress_callback; run_step.
    - destruct (h _ (Progress _ 3 3) w4) as [r w7]. by intros [= _ _ <-].
    - by intros [= _ _ <-]. }
  destruct r6 as [[]|e6].
  2:{ destruct (run_notes_run_failed h e6 scripts (Some prs') w6) as [w7 ->].
      by intros [= <- _ _]. }
  cbn [run]. intros [= <- _ <-] _. cbn [generated_notes saved message].
  exists images, prs, prs', w2, w3.
  split; [done|]. split; [done|]. split; [done|]. split; [done|]. split; [done|].
  split; [|done].
  rewrite !omap_app, Ht0, Hsaved1, Ht2, Ht6. reflexivity.
Qed.

(** When LibreOffice exits with a non-zero status, [process_pptx] (here
    without progress callback, the temporary directory made and removed
    without error) reports failure with the message for a failed PDF
    conversion, carrying the text of the [CalledProcessError]; it has
    generated no notes, made no request to the vision model, and saved
    nothing. *)
Theorem failed_conversion_stops_process_pptx
    (input_pptx_path : str) (pdf_pages : result (list bytes)) (output_pptx_path : str)
    w temp_dir w1 completed w2 w3 :
  h _ MakeTempDir w = (Ok temp_dir, w1) ->
  h _ (SubprocessRun [lit "libreoffice"; lit "--headless"; lit "--convert-to";
                      lit "pdf"; lit "--outdir";
                      dirname (path_join temp_dir (lit "slides.pdf"));
                      input_pptx_path]) w1 = (Ok completed, w2) ->
  returncode completed <> 0%Z ->
  h _ (RemoveTempDir temp_dir) w2 = (Ok tt, w3) ->
  let outcome :=
    run h (process_pptx input_pptx_path pdf_pages output_pptx_path false) w in
  success outcome.1.1 = false /\
  (exists e,
     e = CalledProcessError (returncode completed)
           [lit "libreoffice"; lit "--headless"; lit "--convert-to"; lit "pdf";
            lit "--outdir"; dirname (path_join temp_dir (lit "slides.pdf"));
            input_pptx_path] [] /\
     message outcome.1.1 = lit "LibreOfficeでのPDF変換に失敗しました: " ++ exn_str e) /\
  generated_notes outcome.1.1 = [] /\
  saved outcome.1.1 = None /\
  omap vision_request outcome.2 = [].
Proof.
  intros Hmk Hrun Hrc Hrm.
  unfold process_pptx, process_pptx_block, pptx_to_pdf, progress, process_pptx_failed.
  run_step.
  rewrite Hmk. run_step. rewrite Hrun. run_step.
  destruct (Z.eqb_spec (returncode completed) 0) as [|_]; [done|].
  cbn [negb]. run_step. rewrite Hrm. run_step.
  destruct (h _ (PrintText _) w3) as [[] w4]. cbn. eauto 10.
Qed.

End NotesGenerationMore.

Lemma failed_conversion_stops_process_pptx_witness :
  let outcome :=
    run failing_subprocess
        (@process_pptx cpython312 platform_4x4
           (lit "deck.pptx") (Ok [[]]) (lit "out.pptx") false) 0 in
  success outcome.1.1 = false /\
  (exists e,
     e = CalledProcessError 1
           [lit "libreoffice"; lit "--headless"; lit "--convert-to"; lit "pdf";
            lit "--outdir"; dirname (path_join (lit "/tmp/dir") (lit "slides.pdf"));
            lit "deck.pptx"] [] /\
     message outcome.1.1
     = lit "LibreOfficeでのPDF変換に失敗しました: " ++ @exn_str platform_4x4 e) /\
  generated_notes outcome.1.1 = [] /\
  saved outcome.1.1 = None /\
  omap vision_request outcome.2 = [].
Proof.
  apply (@failed_conversion_stops_process_pptx cpython312 platform_4x4 nat
           failing_subprocess (lit "deck.pptx") (Ok [[]]) (lit "out.pptx")
           0 (lit "/tmp/dir") 1
           {| returncode := 1; stdout := []; stderr := lit "failed" |} 2 3).
  - reflexivity.
  - reflexivity.
  - discriminate.
  - reflexivity.
Defined.


Lemma successful_notes_run_has_saved_the_notes_witness :
  let outcome :=
    run (office deck_with_A)
        (@process_pptx_with_pdf cpython312 platform_4x4
           (lit "deck.pptx") (Ok [[]]) (lit "out.pptx") true) 0 in
  exists images prs prs' w_before w_after,
    Ok [([] : bytes)] = Ok images /\
    length (generated_notes outcome.1.1) = length images /\
    office deck_with_A _ (PresentationOpen (lit "deck.pptx")) w_before = (Ok prs, w_after) /\
    @add_notes_to_pptx cpython312 prs (generated_notes outcome.1.1) = Ok prs' /\
    saved outcome.1.1 = Some prs' /\
    omap saved_presentation outcome.2 = [(prs', lit "out.pptx")] /\
    message outcome.1.1 = lit "発表者ノート生成完了！ " ++ str_of_nat (length images) ++
                          lit "枚のスライドを処理しました。".
Proof.
  apply (@successful_notes_run_has_saved_the_notes cpython312 platform_4x4 nat
           (office deck_with_A) (lit "deck.pptx") (Ok [[]]) (lit "out.pptx") true 0).
  reflexivity.
Defined.
(* ===================================================================== *)
(** * More on generating the video: one slide's clip *)
(* ===================================================================== *)

Section SlideVideoMore.
Context `{Interpreter} `{Platform}.
Context {W : Type} (h : handler W).

Lemma run_perform {X} (c : call (result X)) w :
  run h (perform c) w = ((h _ c w).1, (h _ c w).2, [Issued c]).
Proof. unfold perform. simpl. by destruct (h _ c w). Qed.

Lemma trimmed_to_even (n : nat) :
  let n' := if negb (n mod 2 =? 0) then n - 1 else n in
  Nat.even n' = true /\ n' <= n <= n' + 1.
Proof.
  pose proof (Nat.div_mod_eq n 2) as Hdiv.
  pose proof (Nat.mod_upper_bound n 2 ltac:(lia)) as Hlt.
  destruct (Nat.eqb_spec (n mod 2) 0) as [Hz|Hnz]; simpl.
  - split; [|lia]. apply Nat.even_spec. exists (n / 2). lia.
  - split; [|lia]. apply Nat.even_spec. exists (n / 2). lia.
Qed.

(** Whatever the outside world answers, [create_slide_video] begins by
    saving the image resized to even width and height, each the image's
    own or one pixel less.  When that step has returned the temporary
    file's name, the last thing the function does, on success and on
    every failure of what follows, is to unlink that file.  When that
    step raises (creating the file, resizing or saving), the exception
    leaves the function at once: nothing else is run and nothing is
    unlinked, also when the file exists already. *)
Theorem slide_image_saved_even_and_unlinked
    (image : image) (audio_path : option str) (output_path duration : str) w :
  exists width height,
    head (run h (create_slide_video image audio_path output_path duration) w).2
    = Some (Issued (SaveTempPng image (width, height))) /\
    Nat.even width = true /\ Nat.even height = true /\
    width <= (image_size image).1 <= width + 1 /\
    height <= (image_size image).2 <= height + 1 /\
    (forall temp_image_path w1,
       h _ (SaveTempPng image (width, height)) w = (Ok temp_image_path, w1) ->
       last (run h (create_slide_video image audio_path output_path duration) w).2
       = Some (Issued (Unlink temp_image_path))) /\
    (forall e w1,
       h _ (SaveTempPng image (width, height)) w = (Raise e, w1) ->
       run h (create_slide_video image audio_path output_path duration) w
       = (Raise e, w1, [Issued (SaveTempPng image (width, height))])).
Proof.
  unfold create_slide_video. destruct (image_size image) as [wd ht].
  cbv beta iota zeta. cbn [fst snd].
  destruct (trimmed_to_even wd) as (Hwe & Hwb).
  destruct (trimmed_to_even ht) as (Hhe & Hhb).
  eexists _, _. rewrite run_io_bind, run_perform.
  split; [|split; [exact Hwe|split; [exact Hhe|split; [exact Hwb|split; [exact Hhb|split]]]]].
  - destruct (h _ (SaveTempPng _ _) w) as [[p|e] w1]; cbn [fst snd]; [|done].
    by destruct (run h (try_finally _ _) w1) as [[r w2] t2].
  - intros p w1 Hsave. rewrite Hsave. cbn [fst snd].
    rewrite run_try_finally.
    match goal with |- context [run h ?body w1] =>
      destruct (run h body w1) as [[r w2] t2] end.
    rewrite run_perform. cbn [snd].
    by rewrite (app_assoc [_] t2 [_]), last_snoc.
  - intros e w1 Hsave. rewrite Hsave. reflexivity.
Qed.

(** The clip of a slide without narration, when the image is saved and
    unlinked without error: exactly one subprocess is run, ffmpeg over
    the saved image and a silent audio source for the given duration,
    and no ffprobe; the function returns the output path when ffmpeg
    exits with status 0 and raises [CalledProcessError], with that
    status, the command line and ffmpeg's stderr, when it does not. *)
Theorem silent_clip_runs_ffmpeg_once
    (image : image) (output_path duration : str) w
    width height temp_image_path w1 completed w2 w3 :
  width = (if negb ((image_size image).1 mod 2 =? 0)
           then (image_size image).1 - 1 else (image_size image).1) ->
  height = (if negb ((image_size image).2 mod 2 =? 0)
            then (image_size image).2 - 1 else (image_size image).2) ->
  let ffmpeg_cmd :=
    [lit "ffmpeg"; lit "-y"; lit "-loop"; lit "1";
     lit "-i"; temp_image_path; lit "-f"; lit "lavfi";
     lit "-i"; lit "anullsrc=channel_layout=mono:sample_rate=48000";
     lit "-c:v"; lit "libx264"; lit "-c:a"; lit "aac";
     lit "-t"; duration; lit "-pix_fmt"; lit "yuv420p";
     lit "-r"; lit "1"; lit "-shortest"; output_path] in
  h _ (SaveTempPng image (width, height)) w = (Ok temp_image_path, w1) ->
  h _ (SubprocessRun ffmpeg_cmd) w1 = (Ok completed, w2) ->
  h _ (Unlink temp_image_path) w2 = (Ok tt, w3) ->
  run h (create_slide_video image None output_path duration) w
  = (if (returncode completed =? 0)%Z then Ok output_path
     else Raise (CalledProcessError (returncode completed) ffmpeg_cmd (stderr completed)),
     w3,
     [Issued (SaveTempPng image (width, height));
      Issued (SubprocessRun ffmpeg_cmd);
      Issued (Unlink temp_image_path)]).
Proof.
  intros -> -> ffmpeg_cmd Hsave Hrun Hunlink.
  unfold create_slide_video. destruct (image_size image) as [wd ht].
  cbn [fst snd] in *. run_step. rewrite Hsave.
  unfold try_finally. run_step. fold ffmpeg_cmd. rewrite Hrun.
  destruct (returncode completed =? 0)%Z; cbn [negb]; run_step;
    rewrite Hunlink; reflexivity.
Qed.

End SlideVideoMore.

Lemma silent_clip_runs_ffmpeg_once_witness :
  run failing_subprocess
      (@create_slide_video cpython312 platform_4x4
         {| image_size := (5, 4); pixels := [] |} None (lit "out.mp4") (lit "3.0")) 0
  = (Raise (CalledProcessError 1
              [lit "ffmpeg"; lit "-y"; lit "-loop"; lit "1";
               lit "-i"; lit "/tmp/slide.png"; lit "-f"; lit "lavfi";
               lit "-i"; lit "anullsrc=channel_layout=mono:sample_rate=48000";
               lit "-c:v"; lit "libx264"; lit "-c:a"; lit "aac";
               lit "-t"; lit "3.0"; lit "-pix_fmt"; lit "yuv420p";
               lit "-r"; lit "1"; lit "-shortest"; lit "out.mp4"] (lit "failed")),
     3,
     [Issued (SaveTempPng {| image_size := (5, 4); pixels := [] |} (4, 4));
      Issued (SubprocessRun
                [lit "ffmpeg"; lit "-y"; lit "-loop"; lit "1";
                 lit "-i"; lit "/tmp/slide.png"; lit "-f"; lit "lavfi";
                 lit "-i"; lit "anullsrc=channel_layout=mono:sample_rate=48000";
                 lit "-c:v"; lit "libx264"; lit "-c:a"; lit "aac";
                 lit "-t"; lit "3.0"; lit "-pix_fmt"; lit "yuv420p";
                 lit "-r"; lit "1"; lit "-shortest"; lit "out.mp4"]);
      Issued (Unlink (lit "/tmp/slide.png"))]).
Proof.
  apply (@silent_clip_runs_ffmpeg_once cpython312 platform_4x4 nat failing_subprocess
           {| image_size := (5, 4); pixels := [] |} (lit "out.mp4") (lit "3.0") 0
           4 4 (lit "/tmp/slide.png") 1
           {| returncode := 1; stdout := []; stderr := lit "failed" |} 2 3);
    reflexivity.
Defined.

(* ===================================================================== *)
(** * More on generating the video: what is sent to the TTS service *)
(* ===================================================================== *)

Section SpeechMore.
Context `{Interpreter} `{Platform}.

Lemma speaks_never {A} (texts : list str) (p : prog A) :
  never is_speech_request p -> speaks texts p.
Proof.
  induction 1 as [a|X c k Hc _ IH]; [constructor|].
  apply speaks_other; [|done]. unfold is_speech_request in Hc.
  by destruct (speech_request (Issued c)).
Qed.

Lemma speaks_prog_bind_never {A B} (texts : list str) (p : prog A) (k : A -> prog B) :
  never is_speech_request p -> (forall a, speaks texts (k a)) ->
  speaks texts (prog_bind p k).
Proof.
  intros Hp Hk. induction Hp as [a|X c k' Hc _ IH]; simpl; [done|].
  apply speaks_other; [|done]. unfold is_speech_request in Hc.
  by destruct (speech_request (Issued c)).
Qed.

Lemma speaks_prog_bind_bind_never {A B C} (texts : list str)
    (p : prog A) (k1 : A -> prog B) (k2 : B -> prog C) :
  never is_speech_request p -> (forall a, speaks texts (prog_bind (k1 a) k2)) ->
  speaks texts (prog_bind (prog_bind p k1) k2).
Proof.
  intros Hp Hk. induction Hp as [a|X c k' Hc _ IH]; simpl; [done|].
  apply speaks_other; [|done]. unfold is_speech_request in Hc.
  by destruct (speech_request (Issued c)).
Qed.

Lemma speaks_io_bind_never {A B} (texts : list str) (p : io A) (k : A -> io B) :
  never is_speech_request p -> (forall a, speaks texts (k a)) ->
  speaks texts (p ≫= k).
Proof.
  intros Hp Hk. apply speaks_prog_bind_never; [done|]. intros [a|e]; [done|constructor].
Qed.

Lemma speaks_prog_bind_quiet {A B} (texts : list str) (p : prog A) (k : A -> prog B) :
  speaks texts p -> (forall a, never is_speech_request (k a)) ->
  speaks texts (prog_bind p k).
Proof.
  intros Hp Hk.
  induction Hp as [texts a|texts X c k' Hc _ IH|text texts X c k' Hc _ IH]; simpl.
  - by apply speaks_never.
  - by apply speaks_other.
  - by apply speaks_text.
Qed.

Lemma speaks_io_bind_quiet {A B} (texts : list str) (p : io A) (k : A -> io B) :
  speaks texts p -> (forall a, never is_speech_request (k a)) ->
  speaks texts (p ≫= k).
Proof.
  intros Hp Hk. apply speaks_prog_bind_quiet; [done|]. intros [a|e]; [done|constructor].
Qed.

Lemma speaks_weaken {A} (texts texts' : list str) (p : prog A) :
  speaks texts p -> texts `prefix_of` texts' -> speaks texts' p.
Proof.
  intros Hp. revert texts'.
  induction Hp as [texts a|texts X c k Hc _ IH|text texts X c k Hc _ IH];
    intros texts' Hpre.
  - constructor.
  - apply speaks_other; [done|]. intros x. by apply IH.
  - destruct Hpre as [rest ->]. simpl. apply speaks_text; [done|].
    intros x. apply IH. by exists rest.
Qed.

Lemma speaks_run {A W} (h : handler W) (texts : list str) (p : prog A) w :
  speaks texts p -> omap speech_request (run h p w).2 `prefix_of` texts.
Proof.
  intros Hp. revert w.
  induction Hp as [texts a|texts X c k Hc _ IH|text texts X c k Hc _ IH]; intros w; simpl.
  - apply prefix_nil.
  - destruct (h X c w) as [x w']. specialize (IH x w').
    destruct (run h (k x) w') as [[a w''] tr]. cbn [snd omap list_omap] in *.
    by rewrite Hc.
  - destruct (h X c w) as [x w']. specialize (IH x w').
    destruct (run h (k x) w') as [[a w''] tr]. cbn [snd omap list_omap] in *.
    rewrite Hc. by apply prefix_cons.
Qed.

Lemma never_speech_create_slide_video image audio_path output_path duration :
  never is_speech_request (create_slide_video image audio_path output_path duration).
Proof.
  unfold create_slide_video. destruct (image_size image) as [wd ht].
  apply never_io_bind; [by apply never_perform|]. intros temp_image_path.
  apply never_try_finally; [|by apply never_perform].
  apply never_io_bind.
  - destruct audio_path as [[|c audio_path]|]; [constructor| |constructor].
    apply never_io_bind; [by apply never_perform|]. intros duration_result.
    apply never_io_bind; [unfold lift; constructor|]. intros d. constructor.
  - intros ffmpeg_cmd. apply never_io_bind; [by apply never_perform|].
    intros result. destruct (negb _); constructor.
Qed.

Lemma never_speech_combine_videos video_paths output_path :
  never is_speech_request (combine_videos video_paths output_path).
Proof.
  unfold combine_videos.
  apply never_io_bind; [by apply never_perform|]. intros list_file_path.
  apply never_try_finally; [|by apply never_perform].
  apply never_io_bind; [by apply never_perform|].
  intros result. destruct (negb _); constructor.
Qed.

Lemma speaks_slides_loop cb temp_dir total_slides total_steps i todo video_paths :
  speaks (omap (fun p : image * option str => spoken p.2) todo)
         (slides_loop cb temp_dir total_slides total_steps i todo video_paths).
Proof.
  revert i video_paths.
  induction todo as [|[img note] todo IH]; intros i video_paths; [constructor|].
  cbn [slides_loop omap list_omap snd].
  destruct note as [[|c text]|]; cbn [spoken].
  - apply speaks_io_bind_never; [|intros a; apply IH].
    apply never_io_bind; [by apply never_progress|]. intros _.
    apply never_io_bind; [apply never_speech_create_slide_video|].
    intros _. constructor.
  - unfold text_to_speech, perform. unfold mbind, io_bind, mret, io_ret.
    apply speaks_prog_bind_bind_never; [by apply never_progress|].
    intros [[]|e]; [|cbn; constructor].
    cbn [prog_bind].
    apply speaks_text; [done|]. intros [audio_data|e]; [|cbn; constructor].
    cbn [prog_bind].
    apply speaks_other; [done|]. intros [[]|e]; [|cbn; constructor].
    cbn [prog_bind].
    apply speaks_prog_bind_bind_never; [apply never_speech_create_slide_video|].
    intros [a|e]; cbn [prog_bind]; [apply IH|constructor].
  - apply speaks_io_bind_never; [|intros a; apply IH].
    apply never_io_bind; [by apply never_progress|]. intros _.
    apply never_io_bind; [apply never_speech_create_slide_video|].
    intros _. constructor.
Qed.

Lemma spoken_extract_speaker_notes prs :
  omap spoken (extract_speaker_notes prs) = omap id (extract_speaker_notes prs).
Proof.
  unfold extract_speaker_notes.
  induction (slides prs) as [|s l IH]; [done|]. cbn [fmap list_fmap omap list_omap].
  rewrite IH. destruct (notes s) as [[|c text]|]; try done. simpl.
  by destruct (strip (c :: text)).
Qed.

Lemma omap_zip_prefix {A B C} (f : B -> option C) (l : list A) (k : list B) :
  omap (fun p : A * B => f p.2) (zip l k) `prefix_of` omap f k.
Proof.
  revert k. induction l as [|a l IH]; intros [|b k]; simpl; try apply prefix_nil.
  destruct (f b); [by apply prefix_cons|done].
Qed.

Lemma speaks_generate_video
    (prs : presentation) (zf : zip_archive) (output_path : str)
    (progress_callback : bool) :
  speaks (omap id (extract_speaker_notes prs))
         (generate_video prs zf output_path progress_callback).
Proof.
  rewrite <- spoken_extract_speaker_notes.
  unfold generate_video.
  apply speaks_prog_bind_quiet; [|intros [a|e]; constructor].
  apply speaks_io_bind_never; [by apply never_progress|]. intros _.
  apply speaks_io_bind_never; [by apply never_progress|]. intros _.
  apply speaks_io_bind_never; [unfold lift; constructor|]. intros images.
  cbv zeta.
  destruct (length images =? 0); [constructor|].
  destruct (negb _); [constructor|].
  apply speaks_io_bind_never; [by apply never_perform|]. intros temp_dir.
  apply speaks_io_bind_quiet.
  - unfold try_finally. apply speaks_prog_bind_quiet.
    + apply speaks_io_bind_quiet.
      * eapply speaks_weaken; [apply speaks_slides_loop|apply omap_zip_prefix].
      * intros video_paths.
        apply never_io_bind; [by apply never_progress|]. intros _.
        apply never_io_bind; [apply never_speech_combine_videos|]. intros _.
        constructor.
    + intros r. apply never_prog_bind; [by apply never_perform|].
      intros [[]|e]; constructor.
  - intros _. apply never_io_bind; [by apply never_progress|]. intros _. constructor.
Qed.

(** Whatever the outside world answers, the texts [generate_video] sends
    to the TTS service are the stripped notes of the deck's slides, in
    slide order, each at most once, and nothing else: the requests made
    are always the first few entries of the list of the slides' notes
    (slides without notes skipped).  In particular a deck without notes
    causes no request at all. *)
Theorem speech_requests_are_the_notes_in_order
    {W : Type} (h : handler W)
    (prs : presentation) (zf : zip_archive) (output_path : str)
    (progress_callback : bool) w :
  omap speech_request (run h (generate_video prs zf output_path progress_callback) w).2
  `prefix_of` omap id (extract_speaker_notes prs).
Proof. apply speaks_run, speaks_generate_video. Qed.


(** A deck none of whose slides has notes with a character that is not
    whitespace makes [generate_video] send nothing to the TTS service,
    whatever else happens. *)
Theorem deck_without_notes_is_never_spoken
    {W : Type} (h : handler W)
    (prs : presentation) (zf : zip_archive) (output_path : str)
    (progress_callback : bool) w :
  Forall (fun s => note_of_slide s = None) (slides prs) ->
  omap speech_request (run h (generate_video prs zf output_path progress_callback) w).2
  = [].
Proof.
  intros Hnone.
  pose proof (speaks_run h _ _ w
                (speaks_generate_video prs zf output_path progress_callback)) as Hpre.
  assert (omap id (extract_speaker_notes prs) = []) as Hnil.
  { unfold extract_speaker_notes.
    induction Hnone as [|s l Hs _ IH]; [done|]. cbn [fmap list_fmap omap list_omap].
    rewrite IH. unfold note_of_slide in Hs.
    destruct (notes s) as [[|c text]|]; try done. simpl in *.
    by destruct (truthy (strip (c :: text))). }
  rewrite Hnil in Hpre. by apply prefix_nil_inv in Hpre.
Qed.

End SpeechMore.

Lemma deck_without_notes_is_never_spoken_witness :
  omap speech_request
    (run obliging
         (@generate_video cpython312 platform_4x4
            (deck_with_notes [None; Some (lit "  "); Some []])
            [(lit "slide1.jpeg", []); (lit "slide2.jpeg", []); (lit "slide3.jpeg", [])]
            (lit "out.mp4") true) 0).2
  = [].
Proof.
  apply (@deck_without_notes_is_never_spoken cpython312 platform_4x4 nat obliging
           (deck_with_notes [None; Some (lit "  "); Some []])).
  repeat constructor.
Defined.

(* ===================================================================== *)
(** * More on generating the video: the temporary directory *)
(* ===================================================================== *)

Section TempDirMore.
Context `{Interpreter} `{Platform}.
Context {W : Type} (h : handler W).

(** Once the temporary directory has been made, removing it is the last
    call of the run (here without progress callback), whether the clips
    and the concatenation succeeded or an exception cut them short. *)
Theorem temporary_directory_is_always_removed
    (prs : presentation) (zf : zip_archive) (output_path : str) w
    images temp_dir w1 :
  extract_images_from_zip zf = Ok images ->
  length images <> 0 ->
  length (extract_speaker_notes prs) = length images ->
  h _ MakeTempDir w = (Ok temp_dir, w1) ->
  last (run h (generate_video prs zf output_path false) w).2
  = Some (Issued (RemoveTempDir temp_dir)).
Proof.
  intros Himages Hnonzero Hcount Hmk.
  unfold generate_video, progress, lift. rewrite Himages, run_prog_bind. run_step.
  destruct (Nat.eqb_spec (length images) 0) as [|_]; [done|].
  destruct (Nat.eqb_spec (length (extract_speaker_notes prs)) (length images))
    as [_|]; [|done].
  cbn [negb]. run_step. rewrite Hmk. run_step.
  rewrite run_io_bind, run_try_finally.
  match goal with |- context [run h ?body w1] =>
    destruct (run h body w1) as [[r w2] t2] end.
  rewrite run_perform.
  destruct (h _ (RemoveTempDir temp_dir) w2) as [[[]|e] w3]; cbn [fst snd];
    [destruct r as [[]|e]|]; cbn;
    rewrite ?app_nil_r, app_comm_cons; apply last_snoc.
Qed.

End TempDirMore.

Lemma temporary_directory_is_always_removed_witness :
  last (run failing_subprocess
            (@generate_video cpython312 platform_4x4
               (deck_with_notes [Some (lit "one"); None])
               [(lit "slide1.jpeg", []); (lit "slide2.jpeg", [])]
               (lit "out.mp4") false) 0).2
  = Some (Issued (RemoveTempDir (lit "/tmp/dir"))).
Proof.
  apply (@temporary_directory_is_always_removed cpython312 platform_4x4 nat
           failing_subprocess
           (deck_with_notes [Some (lit "one"); None])
           [(lit "slide1.jpeg", []); (lit "slide2.jpeg", [])]
           (lit "out.mp4") 0
           [ {| image_size := (4, 4); pixels := [] |};
             {| image_size := (4, 4); pixels := [] |} ] (lit "/tmp/dir") 1).
  - reflexivity.
  - discriminate.
  - reflexivity.
  - reflexivity.
Defined.

(* ===================================================================== *)
(** * More on generating the video: the run in which nothing fails *)
(* ===================================================================== *)

Section VideoSuccess.
Context `{Interpreter} `{Platform}.
Context {W : Type} (h : handler W).
Hypothesis Hwell : forall X (c : call X) w, went_well c (h X c w).1.

Lemma run_mret {A} (a : A) w : run h (mret a : io A) w = (Ok a, w, []).
Proof. reflexivity. Qed.

Lemma run_lift {A} (r : result A) w : run h (lift r) w = (r, w, []).
Proof. reflexivity. Qed.

(** The next call of the run, with what is known of its answer. *)
Ltac next_call :=
  match goal with
  | |- context [h ?X ?c ?w] =>
      let Hans := fresh "Hans" in
      pose proof (Hwell X c w) as Hans;
      destruct (h X c w) as [? ?]; cbn [fst snd went_well] in Hans
  end.

Lemma run_progress_well cb step_name current total w :
  exists w' tr,
    run h (progress cb step_name current total) w = (Ok tt, w', tr) /\
    omap speech_request tr = [] /\ omap list_file_text tr = [].
Proof using Hwell.
  unfold progress. destruct cb; [|by exists w, []].
  rewrite run_perform. next_call. subst. eauto.
Qed.

Lemma run_text_to_speech_well text output_path w :
  exists w' tr,
    run h (text_to_speech text output_path) w = (Ok output_path, w', tr) /\
    omap speech_request tr = [text] /\ omap list_file_text tr = [].
Proof using Hwell.
  unfold text_to_speech. rewrite run_io_bind, run_perform.
  next_call. destruct Hans as [audio_data ->]. cbn [fst snd].
  rewrite run_io_bind, run_perform. next_call. subst. cbn [fst snd].
  rewrite run_mret. eauto.
Qed.

Lemma run_create_slide_video_well image audio_path output_path duration w :
  exists w' tr,
    run h (create_slide_video image audio_path output_path duration) w
    = (Ok output_path, w', tr) /\
    omap speech_request tr = [] /\ omap list_file_text tr = [].
Proof using Hwell.
  unfold create_slide_video. destruct (image_size image) as [wd ht].
  cbv beta iota zeta.
  rewrite run_io_bind, run_perform. next_call. destruct Hans as [temp_image_path ->].
  cbn [fst snd]. rewrite run_try_finally, run_io_bind.
  destruct audio_path as [[|c audio_path]|].
  - rewrite run_mret, run_io_bind, run_perform. next_call.
    destruct Hans as (completed & -> & Hrc & _). cbn [fst snd]. rewrite Hrc.
    cbn [Z.eqb negb]. rewrite run_mret, run_perform. next_call. subst.
    cbn. eauto.
  - rewrite run_io_bind, run_perform. next_call.
    destruct Hans as (probe & -> & _ & Hfloat).
    destruct (Hfloat eq_refl) as [d Hd]. cbn [fst snd].
    rewrite run_io_bind, run_lift, Hd, run_mret, run_io_bind, run_perform.
    next_call. destruct Hans as (completed & -> & Hrc & _). cbn [fst snd].
    rewrite Hrc. cbn [Z.eqb negb]. rewrite run_mret, run_perform. next_call. subst.
    cbn. eauto.
  - rewrite run_mret, run_io_bind, run_perform. next_call.
    destruct Hans as (completed & -> & Hrc & _). cbn [fst snd]. rewrite Hrc.
    cbn [Z.eqb negb]. rewrite run_mret, run_perform. next_call. subst.
    cbn. eauto.
Qed.

Lemma run_combine_videos_well video_paths output_path w :
  exists w' tr,
    run h (combine_videos video_paths output_path) w = (Ok output_path, w', tr) /\
    omap speech_request tr = [] /\
    omap list_file_text tr = [concat_list video_paths].
Proof using Hwell.
  unfold combine_videos. rewrite run_io_bind, run_perform.
  next_call. destruct Hans as [list_file_path ->]. cbn [fst snd].
  rewrite run_try_finally. cbv zeta. rewrite run_io_bind, run_perform. next_call.
  destruct Hans as (completed & -> & Hrc & _). cbn [fst snd]. rewrite Hrc.
  cbn [Z.eqb negb]. rewrite run_mret, run_perform. next_call. subst.
  cbn. eauto.
Qed.

Lemma run_slides_loop_well cb temp_dir total_slides total_steps i todo video_paths w :
  exists w' tr,
    run h (slides_loop cb temp_dir total_slides total_steps i todo video_paths) w
    = (Ok (video_paths ++ imap (fun j _ => clip_path temp_dir (i + j + 1)) todo), w', tr) /\
    omap speech_request tr = omap (fun p : image * option str => spoken p.2) todo /\
    omap list_file_text tr = [].
Proof using Hwell.
  revert i video_paths w.
  induction todo as [|[img note] todo IH]; intros i video_paths w.
  - cbn [slides_loop imap]. rewrite run_mret, app_nil_r. eauto.
  - cbn [slides_loop]. rewrite run_io_bind.
    assert (forall w0 step_name,
              exists w1 t1,
                run h (progress cb step_name (i + 1) total_steps;;
                       create_slide_video img None
                         (path_join temp_dir
                            (lit "slide_" ++ str_of_nat_03d (i + 1) ++ lit ".mp4"))
                         (lit "3.0");;
                       mret (path_join temp_dir
                               (lit "slide_" ++ str_of_nat_03d (i + 1) ++ lit ".mp4")))
                    w0
                = (Ok (clip_path temp_dir (i + 1)), w1, t1) /\
                omap speech_request t1 = [] /\ omap list_file_text t1 = [])
      as Hsilent.
    { intros w0 step_name. rewrite run_io_bind.
      destruct (run_progress_well cb step_name (i + 1) total_steps w0)
        as (w1 & t1 & -> & Hs1 & Hl1).
      rewrite run_io_bind.
      destruct (run_create_slide_video_well img None
                  (path_join temp_dir
                     (lit "slide_" ++ str_of_nat_03d (i + 1) ++ lit ".mp4"))
                  (lit "3.0") w1) as (w2 & t2 & -> & Hs2 & Hl2).
      rewrite run_mret. eexists _, _. split; [reflexivity|].
      rewrite !omap_app, Hs1, Hs2, Hl1, Hl2. done. }
    match goal with |- context [run h ?inner w] =>
      assert (exists w1 t1,
                run h inner w = (Ok (clip_path temp_dir (i + 1)), w1, t1) /\
                omap speech_request t1 = option_list (spoken note) /\
                omap list_file_text t1 = []) as (w1 & t1 & Hstep & Hspeech & Hlist)
    end.
    { cbv zeta. destruct note as [[|c text]|]; [apply Hsilent| |apply Hsilent].
      rewrite run_io_bind.
      destruct (run_progress_well cb
                  (lit "スライド " ++ str_of_nat (i + 1) ++ lit "/" ++
                   str_of_nat total_slides ++ lit " - 音声生成中...")
                  (i + 1) total_steps w) as (w1 & t1 & -> & Hs1 & Hl1).
      rewrite run_io_bind.
      destruct (run_text_to_speech_well (c :: text)
                  (path_join temp_dir
                     (lit "slide_" ++ str_of_nat_03d (i + 1) ++ lit ".wav")) w1)
        as (w2 & t2 & -> & Hs2 & Hl2).
      rewrite run_io_bind.
      destruct (run_create_slide_video_well img
                  (Some (path_join temp_dir
                           (lit "slide_" ++ str_of_nat_03d (i + 1) ++ lit ".wav")))
                  (path_join temp_dir
                     (lit "slide_" ++ str_of_nat_03d (i + 1) ++ lit ".mp4"))
                  (lit "3.0") w2) as (w3 & t3 & -> & Hs3 & Hl3).
      rewrite run_mret. eexists _, _. split; [reflexivity|].
      rewrite !omap_app, Hs1, Hs2, Hs3, Hl1, Hl2, Hl3. done. }
    rewrite Hstep.
    destruct (IH (S i) (video_paths ++ [clip_path temp_dir (i + 1)]) w1)
      as (w2 & t2 & -> & Hs2 & Hl2).
    eexists _, _. split; [|split].
    + rewrite <- app_assoc, imap_cons. cbn [app]. rewrite Nat.add_0_r.
      do 5 f_equal. apply imap_ext. intros j x _. simpl. f_equal. lia.
    + rewrite omap_app, Hspeech, Hs2. cbn [omap list_omap snd].
      by destruct (spoken note).
    + by rewrite omap_app, Hlist, Hl2.
Qed.

Lemma imap_index_seq {A C} (g : nat -> C) (start : nat) (l : list A) :
  imap (fun j _ => g (start + j)) l = g <$> seq start (length l).
Proof.
  revert start. induction l as [|x l IH]; intros start; [done|].
  rewrite imap_cons. cbn [length seq fmap list_fmap]. rewrite Nat.add_0_r. f_equal.
  rewrite <- IH. apply imap_ext. intros j y _. simpl. f_equal. lia.
Qed.

Lemma imap_index_only {A C} (g : nat -> C) (l : list A) :
  imap (fun j _ => g j) l = g <$> seq 0 (length l).
Proof.
  rewrite <- (imap_index_seq g 0 l). apply imap_ext. intros j x _. done.
Qed.

Lemma omap_zip_same_length {A B C} (f : B -> option C) (l : list A) (k : list B) :
  length k = length l ->
  omap (fun p : A * B => f p.2) (zip l k) = omap f k.
Proof.
  revert k. induction l as [|a l IH]; intros [|b k] Hlen; try done.
  cbn [zip zip_with omap list_omap snd]. rewrite IH by (simpl in Hlen; lia). done.
Qed.

Lemma nat_of_digits_zeros k (ds : str) :
  nat_of_digits (replicate k 48%N ++ ds) = nat_of_digits ds.
Proof.
  unfold nat_of_digits. rewrite foldl_app. f_equal.
  induction k as [|k IH]; [done|]. exact IH.
Qed.

Lemma str_of_nat_03d_inj n m : str_of_nat_03d n = str_of_nat_03d m -> n = m.
Proof.
  intros Heq. apply (f_equal nat_of_digits) in Heq. unfold str_of_nat_03d in Heq.
  by rewrite !nat_of_digits_zeros, !nat_of_digits_str_of_nat in Heq.
Qed.

Lemma path_join_inj (a b1 b2 : str) : path_join a b1 = path_join a b2 -> b1 = b2.
Proof.
  unfold path_join. destruct a as [|c a]; [done|].
  destruct (endswith (c :: a) (lit "/")); intros Heq.
  - by apply app_inv_head in Heq.
  - by apply app_inv_head, app_inv_head in Heq.
Qed.

(** Different slides have different clip files. *)
Lemma clip_path_inj temp_dir n m : clip_path temp_dir n = clip_path temp_dir m -> n = m.
Proof.
  unfold clip_path. intros Heq%path_join_inj.
  apply app_inv_head, app_inv_tail in Heq. by apply str_of_nat_03d_inj.
Qed.

(** When nothing fails (no call raises, every subprocess exits with
    status 0 and ffprobe's output reads as a number), the archive yields
    at least one image and as many images as the deck has slides, then
    [generate_video] reports success with the number of slides in its
    message; it has sent to the TTS service exactly the stripped notes of
    the slides that have some, in slide order; and it has written one
    list file for the concatenation, which names one clip per slide, in
    slide order, no two slides sharing a clip file. *)
Theorem video_is_made_when_nothing_fails
    (prs : presentation) (zf : zip_archive) (output_path : str)
    (progress_callback : bool) w images :
  extract_images_from_zip zf = Ok images ->
  length images <> 0 ->
  length (extract_speaker_notes prs) = length images ->
  let outcome := run h (generate_video prs zf output_path progress_callback) w in
  outcome.1.1 = (true, lit "講義動画生成完了！ " ++ str_of_nat (length images) ++
                       lit "枚のスライドを処理しました。") /\
  omap speech_request outcome.2 = omap id (extract_speaker_notes prs) /\
  exists temp_dir,
    omap list_file_text outcome.2
    = [concat_list (imap (fun j _ => clip_path temp_dir (j + 1)) images)] /\
    NoDup (imap (fun j _ => clip_path temp_dir (j + 1)) images).
Proof using Hwell.
  intros Himages Hnonzero Hcount.
  unfold generate_video. cbv zeta. rewrite run_prog_bind, run_io_bind.
  destruct (run_progress_well progress_callback (lit "発表者ノート抽出中...") 0 1 w)
    as (w1 & t1 & -> & Hs1 & Hl1).
  rewrite run_io_bind.
  destruct (run_progress_well progress_callback (lit "スライド画像抽出中...") 0 1 w1)
    as (w2 & t2 & -> & Hs2 & Hl2).
  rewrite run_io_bind, run_lift, Himages.
  destruct (Nat.eqb_spec (length images) 0) as [|_]; [done|].
  destruct (Nat.eqb_spec (length (extract_speaker_notes prs)) (length images))
    as [_|]; [|done].
  cbn [negb]. rewrite run_io_bind, run_perform. next_call.
  destruct Hans as [temp_dir ->]. cbn [fst snd].
  rewrite run_io_bind, run_try_finally, run_io_bind.
  destruct (run_slides_loop_well progress_callback temp_dir (length images)
              (length images + 1) 0 (zip images (extract_speaker_notes prs)) [] w0)
    as (w3 & t3 & -> & Hs3 & Hl3).
  rewrite run_io_bind.
  destruct (run_progress_well progress_callback (lit "動画結合中...")
              (length images + 1) (length images + 1) w3)
    as (w4 & t4 & -> & Hs4 & Hl4).
  rewrite run_io_bind.
  match goal with |- context [run h (combine_videos ?paths output_path) w4] =>
    destruct (run_combine_videos_well paths output_path w4)
      as (w5 & t5 & -> & Hs5 & Hl5)
  end.
  rewrite run_mret, run_perform. next_call. subst. cbn [fst snd].
  rewrite run_io_bind.
  destruct (run_progress_well progress_callback (lit "完了")
              (length images + 1) (length images + 1) w6)
    as (w7 & t7 & -> & Hs7 & Hl7).
  rewrite run_mret. cbn [run fst snd]. split; [done|].
  rewrite omap_zip_same_length in Hs3 by done.
  rewrite spoken_extract_speaker_notes in Hs3.
  split.
  - rewrite !omap_app, Hs1, Hs2, Hs3, Hs4, Hs5, Hs7. cbn [omap list_omap speech_request app].
    by rewrite ?app_nil_r.
  - exists temp_dir. split.
    + rewrite !omap_app, Hl1, Hl2, Hl3, Hl4, Hl5, Hl7.
      cbn [omap list_omap list_file_text app]. do 2 f_equal.
      rewrite (imap_index_only (fun n => clip_path temp_dir (0 + n + 1))
                 (zip images (extract_speaker_notes prs))).
      rewrite (imap_index_only (fun n => clip_path temp_dir (n + 1)) images).
      by rewrite length_zip, Hcount, Nat.min_id.
    + rewrite (imap_index_only (fun n => clip_path temp_dir (n + 1)) images).
      apply NoDup_fmap_2; [|apply NoDup_seq].
      intros n m Heq. apply clip_path_inj in Heq. lia.
Qed.

End VideoSuccess.

Lemma obliging_went_well X (c : call X) w :
  @went_well cpython312 platform_4x4 X c (obliging X c w).1.
Proof.
  destruct c; simpl; eauto.
  eexists. split; [reflexivity|]. split; [reflexivity|]. cbn [stdout].
  intros Hhead. rewrite bool_decide_eq_true_2 by exact Hhead.
  exists (lit "1.5"). vm_compute. reflexivity.
Qed.

Lemma video_is_made_when_nothing_fails_witness :
  let outcome :=
    run obliging
        (@generate_video cpython312 platform_4x4
           (deck_with_notes [Some (lit " one "); None])
           [(lit "slide2.jpeg", []); (lit "slide1.jpeg", [])]
           (lit "out.mp4") true) 0 in
  outcome.1.1 = (true, lit "講義動画生成完了！ " ++ str_of_nat 2 ++
                       lit "枚のスライドを処理しました。") /\
  omap speech_request outcome.2
  = omap id (@extract_speaker_notes cpython312 (deck_with_notes [Some (lit " one "); None])) /\
  exists temp_dir,
    omap list_file_text outcome.2
    = [@concat_list platform_4x4
         (imap (fun j _ => clip_path temp_dir (j + 1))
               [ {| image_size := (4, 4); pixels := [] |};
                 {| image_size := (4, 4); pixels := [] |} ])] /\
    NoDup (imap (fun j (_ : image) => clip_path temp_dir (j + 1))
                [ {| image_size := (4, 4); pixels := [] |};
                  {| image_size := (4, 4); pixels := [] |} ]).
Proof.
  apply (@video_is_made_when_nothing_fails cpython312 platform_4x4 nat obliging
           obliging_went_well
           (deck_with_notes [Some (lit " one "); None])
           [(lit "slide2.jpeg", []); (lit "slide1.jpeg", [])]
           (lit "out.mp4") true 0
           [ {| image_size := (4, 4); pixels := [] |};
             {| image_size := (4, 4); pixels := [] |} ]).
  - reflexivity.
  - discriminate.
  - reflexivity.
Defined.

(* ===================================================================== *)
(** * Unwrapping the model's replies *)
(* ===================================================================== *)

Section RepliesMore.
Context `{Interpreter}.

Lemma startswith_app (p s : str) : startswith (p ++ s) p = true.
Proof. induction p as [|c p IH]; simpl; [by destruct s|]. by rewrite N.eqb_refl. Qed.

Lemma startswith_app_l (s t p : str) :
  startswith s p = true -> startswith (s ++ t) p = true.
Proof.
  revert s. induction p as [|c p IH]; intros [|d s]; simpl; try done.
  - by destruct t.
  - intros [-> Hs]%andb_true_iff. by rewrite IH.
Qed.

Lemma startswith_false_app (s p q : str) :
  startswith s p = false -> startswith s (p ++ q) = false.
Proof.
  revert s. induction p as [|c p IH]; intros [|d s]; simpl; try done.
  intros [->|Hs]%andb_false_iff; [done|].
  rewrite (IH _ Hs). apply andb_false_r.
Qed.

Lemma endswith_app (s p : str) : endswith (s ++ p) p = true.
Proof. unfold endswith. rewrite rev_app_distr. apply startswith_app. Qed.

Lemma split_lines_aux_nonempty cur s : split_lines_aux cur s <> [].
Proof.
  revert cur. induction s as [|c s IH]; intros cur; simpl; [done|].
  destruct (c =? NL)%N; [done|apply IH].
Qed.

Lemma split_lines_aux_app_NL cur (s t : str) :
  split_lines_aux cur (s ++ NL :: t) = split_lines_aux cur s ++ split_lines t.
Proof.
  revert cur. induction s as [|c s IH]; intros cur; simpl.
  - done.
  - destruct (c =? NL)%N; [|apply IH]. simpl. f_equal. apply IH.
Qed.

(** Joining the lines of a text with line breaks gives the text back. *)
Lemma join_split_lines_aux cur (s : str) :
  join [NL] (split_lines_aux cur s) = rev cur ++ s.
Proof.
  revert cur. induction s as [|c s IH]; intros cur; simpl.
  - by rewrite app_nil_r.
  - destruct (N.eqb_spec c NL) as [->|_].
    + pose proof (split_lines_aux_nonempty [] s) as Hne.
      specialize (IH []). destruct (split_lines_aux [] s) as [|l ls]; [done|].
      change (join [NL] (rev cur :: l :: ls))
        with (rev cur ++ [NL] ++ join [NL] (l :: ls)).
      by rewrite IH.
    + rewrite IH. simpl. by rewrite <- app_assoc.
Qed.

(** What [generate_outline_from_text] makes of the model's reply.  A
    reply that, stripped, does not begin with a code fence is returned
    stripped.  A reply that begins with a fence and has at least three
    lines loses its first and its last line, whatever the last line is
    (a closing fence or not): what is returned is exactly the text
    between them.  A reply that begins with a fence and has one or two
    lines is returned stripped, fence and all. *)
Theorem outline_reply_loses_first_and_last_line (text : str) :
  (startswith (strip text) (lit "```") = false -> outline_of_reply text = strip text) /\
  (forall first_line body last_line : str,
     strip text = first_line ++ [NL] ++ body ++ [NL] ++ last_line ->
     startswith first_line (lit "```") = true ->
     NL ∉ first_line -> NL ∉ last_line ->
     outline_of_reply text = body) /\
  (forall first_line last_line : str,
     strip text = first_line \/ strip text = first_line ++ [NL] ++ last_line ->
     NL ∉ first_line -> NL ∉ last_line ->
     outline_of_reply text = strip text).
Proof.
  split; [|split].
  - intros Hno. unfold outline_of_reply. by rewrite Hno.
  - intros first_line body last_line Hshape Hfence Hfirst Hlast.
    unfold outline_of_reply. rewrite Hshape.
    assert (startswith (first_line ++ [NL] ++ body ++ [NL] ++ last_line) (lit "```")
            = true) as ->.
    { by apply startswith_app_l. }
    unfold split_lines. cbn [app].
    rewrite split_lines_aux_line by done. cbn [rev app].
    rewrite split_lines_aux_app_NL.
    unfold split_lines. rewrite (split_lines_aux_no_NL [] last_line) by done.
    cbn [rev app].
    pose proof (split_lines_aux_nonempty [] body) as Hne.
    pose proof (join_split_lines_aux [] body) as Hjoin.
    set (lines := split_lines_aux [] body) in *.
    cbn [length]. rewrite length_app. cbn [length].
    destruct (Nat.ltb_spec 2 (S (length lines + 1))) as [_|Hle].
    + replace (S (length lines + 1) - 1) with (S (length lines)) by lia.
      cbn [take drop]. rewrite take_app_length. exact Hjoin.
    + destruct lines; [done|]. simpl in Hle. lia.
  - intros first_line last_line Hshape Hfirst Hlast.
    unfold outline_of_reply.
    destruct (startswith (strip text) (lit "```")); [|done].
    assert (length (split_lines (strip text)) <= 2) as Hlen.
    { unfold split_lines. destruct Hshape as [->| ->].
      - rewrite split_lines_aux_no_NL by done. simpl. lia.
      - cbn [app]. rewrite split_lines_aux_line by done.
        rewrite split_lines_aux_no_NL by done. simpl. lia. }
    destruct (Nat.ltb_spec 2 (length (split_lines (strip text)))); [lia|done].
Qed.

(** What [convert_outline_to_json] hands to the JSON parser.  A reply
    that, stripped, neither begins nor ends with a code fence is handed
    over stripped.  A reply wrapped in a [json] fence or in a plain fence
    is handed over without the fences and stripped again, provided the
    text inside does not itself begin with a fence (which would be
    removed too). *)
Theorem json_reply_loses_its_fences (text : str) :
  (startswith (strip text) (lit "```") = false ->
   endswith (strip text) (lit "```") = false ->
   json_text_of_reply text = strip text) /\
  (forall inside : str,
     strip text = lit "```json" ++ inside ++ lit "```" ->
     startswith (inside ++ lit "```") (lit "```") = false ->
     json_text_of_reply text = strip inside) /\
  (forall inside : str,
     strip text = lit "```" ++ inside ++ lit "```" ->
     startswith (inside ++ lit "```") (lit "json") = false ->
     json_text_of_reply text = strip inside).
Proof.
  split; [|split].
  - intros Hstart Hend. unfold json_text_of_reply.
    assert (startswith (strip text) (lit "```json") = false) as ->.
    { change (lit "```json") with (lit "```" ++ lit "json").
      by apply startswith_false_app. }
    rewrite Hstart, Hend. apply strip_idempotent.
  - intros inside Hshape Hinner. unfold json_text_of_reply. rewrite Hshape.
    rewrite startswith_app.
    rewrite (drop_app_length' (lit "```json") (inside ++ lit "```") 7) by reflexivity.
    rewrite Hinner, endswith_app.
    replace (length (inside ++ lit "```") - 3) with (length inside)
      by (rewrite length_app; change (length (lit "```")) with 3; lia).
    by rewrite take_app_length.
  - intros inside Hshape Hinner. unfold json_text_of_reply. rewrite Hshape.
    assert (startswith (lit "```" ++ inside ++ lit "```") (lit "```json") = false) as ->.
    { change (lit "```json") with (lit "```" ++ lit "json").
      change (lit "```") with [96; 96; 96]%N in *. cbn [app startswith] in *.
      rewrite !N.eqb_refl. exact Hinner. }
    rewrite startswith_app.
    rewrite (drop_app_length' (lit "```") (inside ++ lit "```") 3) by reflexivity.
    rewrite endswith_app.
    replace (length (inside ++ lit "```") - 3) with (length inside)
      by (rewrite length_app; change (length (lit "```")) with 3; lia).
    by rewrite take_app_length.
Qed.

End RepliesMore.

(** A fenced outline whose closing fence is missing: the last line of the
    outline is lost. *)
Lemma outline_reply_loses_first_and_last_line_witness :
  @outline_of_reply cpython312
    (lit " ```" ++ [NL] ++ lit "A" ++ [NL] ++ lit "B" ++ [NL] ++ lit "C ")
  = lit "A" ++ [NL] ++ lit "B".
Proof.
  apply (proj1 (proj2 (@outline_reply_loses_first_and_last_line cpython312
           (lit " ```" ++ [NL] ++ lit "A" ++ [NL] ++ lit "B" ++ [NL] ++ lit "C ")))
           (lit "```") (lit "A" ++ [NL] ++ lit "B") (lit "C")).
  - reflexivity.
  - reflexivity.
  - decide_closed.
  - decide_closed.
Defined.

(** A reply in a [json] fence. *)
Lemma json_reply_loses_its_fences_witness :
  @json_text_of_reply cpython312
    (lit " ```json" ++ [NL] ++ lit "{}" ++ [NL] ++ lit "``` ") = lit "{}".
Proof.
  apply (proj1 (proj2 (@json_reply_loses_its_fences cpython312
           (lit " ```json" ++ [NL] ++ lit "{}" ++ [NL] ++ lit "``` ")))
           ([NL] ++ lit "{}" ++ [NL])).
  - reflexivity.
  - reflexivity.
Defined.


(* ===================================================================== *)
(** * More on the deck builder: its files *)
(* ===================================================================== *)

Section BuilderFiles.
Context {W : Type} (h : handler W).

Lemma run_print text w :
  run h (print text) w
  = (Ok tt, (h _ (PrintText text) w).2, [Issued (PrintText text)]).
Proof. unfold print. cbn [run]. by destruct (h _ (PrintText text) w) as [[] w']. Qed.

Lemma run_statistics_loop main agenda_idx todo w :
  exists w' tr,
    run h (statistics_loop main agenda_idx todo) w = (Ok tt, w', tr) /\
    omap saved_presentation tr = [].
Proof.
  revert agenda_idx w. induction todo as [|agenda_title todo IH]; intros agenda_idx w.
  - by exists w, [].
  - cbn [statistics_loop]. rewrite run_io_bind.
    destruct (main !! agenda_title) as [slides_content|].
    + cbv zeta. rewrite run_print.
      destruct (IH (S agenda_idx) (h _ (PrintText (lit "  - " ++
                  str_of_nat (agenda_idx + 1) ++ lit ". " ++ agenda_title ++
                  lit ": " ++ str_of_nat (length slides_content) ++ lit "枚")) w).2)
        as (w' & tr & -> & Htr).
      eexists _, _. split; [reflexivity|]. exact Htr.
    + cbn [run mret io_ret]. destruct (IH (S agenda_idx) w) as (w' & tr & -> & Htr).
      eexists _, _. split; [reflexivity|]. exact Htr.
Qed.

(** The builder with its files, once the structure is loaded and the
    template opened.  When building the deck raises, the exception
    leaves the function at once: nothing is saved and nothing printed.
    When it does not, the deck built is saved under the output path,
    and nothing else is ever saved; if saving raises, nothing is
    printed; if it does not, the function returns and the fourth line
    it has printed gives the number of slides of the saved deck. *)
Theorem builder_saves_the_deck_it_built
    (template_path json_path output_path : str) w c w1 template w2 :
  h _ (JsonLoad json_path) w = (Ok c, w1) ->
  h _ (PresentationOpen template_path) w1 = (Ok template, w2) ->
  let outcome :=
    run h (create_slides_from_json_io template_path json_path output_path) w in
  match create_slides_from_json template c with
  | Raise e =>
      outcome = (Raise e, w2, [Issued (JsonLoad json_path);
                               Issued (PresentationOpen template_path)])
  | Ok prs =>
      omap saved_presentation outcome.2 = [(prs, output_path)] /\
      (forall e w3,
         h _ (PresentationSave prs output_path) w2 = (Raise e, w3) ->
         outcome = (Raise e, w3, [Issued (JsonLoad json_path);
                                  Issued (PresentationOpen template_path);
                                  Issued (PresentationSave prs output_path)])) /\
      (forall w3,
         h _ (PresentationSave prs output_path) w2 = (Ok tt, w3) ->
         outcome.1.1 = Ok tt /\
         omap printed outcome.2 !! 3
         = Some (lit "- 総スライド数: " ++ str_of_nat (length (slides prs)) ++ lit "枚"))
  end.
Proof.
  intros Hload Hopen. cbv zeta.
  destruct (run h _ w) as [[r w'] tr] eqn:Hrun. cbn [fst snd]. revert Hrun.
  unfold create_slides_from_json_io. run_step. rewrite Hload. run_step.
  rewrite Hopen. run_step.
  destruct (create_slides_from_json template c) as [prs|e]; run_step.
  2:{ by intros [= <- <- <-]. }
  destruct (h _ (PresentationSave prs output_path) w2) as [[[]|e] w3] eqn:Hsave;
    run_step.
  2:{ intros [= <- <- <-]. split; [done|]. split; [|done]. by intros e' w3' [= <- <-]. }
  do 6 (rewrite run_io_bind, run_print; cbv beta iota).
  rewrite run_io_bind.
  match goal with |- context [run h (statistics_loop _ _ _) ?w0] =>
    destruct (run_statistics_loop (main c) 0 (agenda c) w0) as (w9 & t9 & -> & Ht9)
  end.
  rewrite run_io_bind, !run_print. cbv beta iota. cbn [fst snd app].
  intros [= <- <- <-]. split; [|split].
  - cbn [omap list_omap saved_presentation]. f_equal.
    rewrite omap_app, Ht9. reflexivity.
  - by intros e w3' [=].
  - intros w3' _. split; [done|]. reflexivity.
Qed.

End BuilderFiles.

Lemma builder_saves_the_deck_it_built_witness :
  let outcome :=
    run (office template_abc)
        (create_slides_from_json_io (lit "template.pptx") (lit "lecture.json")
                                    (lit "out.pptx")) 0 in
  match create_slides_from_json template_abc lecture_xyz with
  | Raise e =>
      outcome = (Raise e, 2, [Issued (JsonLoad (lit "lecture.json"));
                              Issued (PresentationOpen (lit "template.pptx"))])
  | Ok prs =>
      omap saved_presentation outcome.2 = [(prs, lit "out.pptx")] /\
      (forall e w3,
         office template_abc _ (PresentationSave prs (lit "out.pptx")) 2 = (Raise e, w3) ->
         outcome = (Raise e, w3, [Issued (JsonLoad (lit "lecture.json"));
                                  Issued (PresentationOpen (lit "template.pptx"));
                                  Issued (PresentationSave prs (lit "out.pptx"))])) /\
      (forall w3,
         office template_abc _ (PresentationSave prs (lit "out.pptx")) 2 = (Ok tt, w3) ->
         outcome.1.1 = Ok tt /\
         omap printed outcome.2 !! 3
         = Some (lit "- 総スライド数: " ++ str_of_nat (length (slides prs)) ++ lit "枚"))
  end.
Proof.
  apply (builder_saves_the_deck_it_built (office template_abc)
           (lit "template.pptx") (lit "lecture.json") (lit "out.pptx")
           0 lecture_xyz 1 template_abc 2); reflexivity.
Defined.
